(** * express-wg: reconciliation, allocation and MTU-optimisation engine

    A shallow embedding of the WireGuard management service
    ([src/server/wireguard.js]) and of its three Mongoose models
    (Server, Peer and MTUProfile).

    Conventions of the embedding
    - JavaScript strings are [string]s (byte strings); the string methods
      the service uses ([split], [join], [trim], [startsWith], ...) are
      re-implemented in [Module Js].
    - JavaScript numbers that are integers in the code (ports, MTU values,
      counters, epoch milliseconds) are [Z]; [NaN] is [None].  Numbers that
      are genuinely fractional (latencies, loss percentages, uptime seconds)
      are exact rationals [Q]: rounding of IEEE doubles is not modelled.
    - A Mongo collection is the list of its stored records in natural
      order; a Mongoose document is a record plus the set of paths modified
      since it was loaded, and [save] writes exactly those paths.
    - Results of external commands ([wg], [wg-quick], [ip link], [ping],
      key generation, the clock) are explicit arguments of the operations.
    - A thrown exception is the [Throw] result; state written before the
      throw is kept. *)

From Stdlib Require Import ZArith QArith Qminmax Qround String Ascii List Lia Bool.
From stdpp Require Import base option list strings gmap.

Open Scope string_scope.

(** ** Results of fallible operations *)

Inductive Result (A : Type) : Type :=
| Ok (a : A)
| Throw (message : string).
Arguments Ok {A} a.
Arguments Throw {A} message.

(** ** JavaScript string and number primitives *)

Module Js.

(** White space removed by [String.prototype.trim] (ASCII part). *)
Definition isSpace (c : ascii) : bool :=
  let n := N_of_ascii c in
  ((9 <=? n) && (n <=? 13))%N || (n =? 32)%N.

Fixpoint trimStart (s : string) : string :=
  match s with
  | String c s' => if isSpace c then trimStart s' else s
  | EmptyString => EmptyString
  end.

Fixpoint trimEnd (s : string) : string :=
  match s with
  | String c s' =>
      match trimEnd s' with
      | EmptyString => if isSpace c then EmptyString else String c EmptyString
      | t => String c t
      end
  | EmptyString => EmptyString
  end.

Definition trim (s : string) : string := trimEnd (trimStart s).

Definition startsWith (s p : string) : bool := String.prefix p s.

Fixpoint endsWith (s p : string) : bool :=
  (s =? p) ||
  match s with
  | String _ s' => endsWith s' p
  | EmptyString => false
  end.

Fixpoint includes (s p : string) : bool :=
  String.prefix p s ||
  match s with
  | String _ s' => includes s' p
  | EmptyString => false
  end.

(** [s.split(sep)] for a non-empty separator: [cur] is the piece being
    read, [skip] counts the characters of a matched separator still to be
    passed over. *)
Fixpoint splitGo (sep : string) (skip : nat) (cur s : string) : list string :=
  match s with
  | EmptyString => [cur]
  | String c s' =>
      match skip with
      | S k => splitGo sep k cur s'
      | O =>
          if String.prefix sep s
          then cur :: splitGo sep (String.length sep - 1) "" s'
          else splitGo sep 0 (cur ++ String c "") s'
      end
  end.

Definition split (s sep : string) : list string :=
  match sep with
  | EmptyString => (fun c => String c "") <$> list_ascii_of_string s
  | _ => splitGo sep 0 "" s
  end.

Fixpoint join (l : list string) (sep : string) : string :=
  match l with
  | [] => ""
  | [x] => x
  | x :: rest => x ++ sep ++ join rest sep
  end.

(** *** Numbers *)

Definition digitVal (c : ascii) : option N :=
  let n := N_of_ascii c in
  if ((48 <=? n) && (n <=? 57))%N then Some (n - 48)%N else None.

Definition hexVal (c : ascii) : option N :=
  let n := N_of_ascii c in
  if ((48 <=? n) && (n <=? 57))%N then Some (n - 48)%N
  else if ((65 <=? n) && (n <=? 70))%N then Some (n - 55)%N
  else if ((97 <=? n) && (n <=? 102))%N then Some (n - 87)%N
  else None.

(** Longest run of digits (in the given radix) at the start of [s], read
    left to right into the accumulator; the flag tells whether a digit
    was read at all. *)
Fixpoint readDigits (val : ascii -> option N) (radix : N)
    (seen : bool) (acc : N) (s : string) : bool * N :=
  match s with
  | String c s' =>
      match val c with
      | Some d => readDigits val radix true (acc * radix + d)%N s'
      | None => (seen, acc)
      end
  | EmptyString => (seen, acc)
  end.

(** [parseInt(s)] with no radix argument; [None] is [NaN].  An absent
    argument ([undefined]) is [None] on the way in. *)
Definition parseIntBody (s : string) : option N :=
  let hex :=
    match s with
    | String "0" (String x rest) =>
        if (Ascii.eqb x "x" || Ascii.eqb x "X")%bool then Some rest else None
    | _ => None
    end in
  match hex with
  | Some rest =>
      match readDigits hexVal 16 false 0 rest with
      | (true, n) => Some n
      | (false, _) => None
      end
  | None =>
      match readDigits digitVal 10 false 0 s with
      | (true, n) => Some n
      | (false, _) => None
      end
  end.

Definition parseInt (arg : option string) : option Z :=
  match arg with
  | None => None
  | Some s =>
      match trimStart s with
      | String "-" s' => (fun n => (- Z.of_N n)%Z) <$> parseIntBody s'
      | String "+" s' => Z.of_N <$> parseIntBody s'
      | s' => Z.of_N <$> parseIntBody s'
      end
  end.

(** [Number(s)] on the texts an address octet can be: a run of decimal
    digits (the empty text is 0); every other text is mapped to [NaN]. *)
Definition Number (s : string) : option N :=
  match trim s with
  | EmptyString => Some 0%N
  | t =>
      match readDigits digitVal 10 false 0 t with
      | (true, n) =>
          if forallb (fun c => bool_decide (is_Some (digitVal c)))
               (list_ascii_of_string t)
          then Some n else None
      | (false, _) => None
      end
  end.

Definition digitChar (d : N) : ascii := ascii_of_N (48 + d).

Fixpoint digitsGo (fuel : nat) (n : N) (acc : string) : string :=
  match fuel with
  | O => acc
  | S f =>
      let acc' := String (digitChar (n mod 10)) acc in
      if (n <? 10)%N then acc' else digitsGo f (n / 10) acc'
  end.

(** Decimal rendering of a non-negative integer ([String(n)], [`${n}`]). *)
Definition natToString (n : N) : string :=
  digitsGo (S (N.to_nat (N.log2 n))) n "".

Definition intToString (z : Z) : string :=
  match z with
  | Zneg p => "-" ++ natToString (Npos p)
  | _ => natToString (Z.to_N z)
  end.

(** A template-literal hole filled with the result of [Number]. *)
Definition numToString (n : option N) : string :=
  match n with
  | Some n => natToString n
  | None => "NaN"
  end.

(** [a || b] on numbers: [NaN] and [0] are falsy. *)
Definition orElse (a : option Z) (b : Z) : Z :=
  match a with
  | Some 0%Z | None => b
  | Some n => n
  end.


Definition nl : string := String "010" "".

Definition truthyStr (a : option string) : bool :=
  match a with
  | Some EmptyString | None => false
  | Some _ => true
  end.

End Js.

(** ** MTU probing: [performMTUTest] and [calculateMTUScore] *)

Module Probe.

Definition Qltb (x y : Q) : bool := negb (Qle_bool y x).

(** Outcome of one [ping.promise.probe] call. *)
Inductive Ping : Type :=
| Alive (time : Q)
| Dead
| Failed (message : string).

Record TestResult : Type := {
  success : bool;
  latency : Q;
  packetLoss : Q;
  successRate : Q
}.

Definition isAlive (p : Ping) : bool :=
  match p with Alive _ => true | _ => false end.

Definition latencies (pings : list Ping) : list Q :=
  omap (fun p => match p with Alive t => Some t | _ => None end) pings.

Definition Qsum (l : list Q) : Q := fold_left Qplus l 0%Q.

Definition Qof_nat (n : nat) : Q := inject_Z (Z.of_nat n).

(** [performMTUTest]: one probe per payload size (64, 512, mtu - 28); the
    argument lists the three outcomes in that order. *)
Definition performMTUTest (pings : list Ping) : TestResult :=
  let testSizes := 3%nat in
  let lost := length (filter (fun p => isAlive p = false) pings) in
  let successfulPings := length (filter (fun p => isAlive p = true) pings) in
  let lat := latencies pings in
  {| success := (0 <? successfulPings)%nat;
     latency :=
       if (0 <? length lat)%nat then (Qsum lat / Qof_nat (length lat))%Q else 0%Q;
     packetLoss := (Qof_nat lost / Qof_nat testSizes * 100)%Q;
     successRate := (Qof_nat successfulPings / Qof_nat testSizes * 100)%Q |}.

Definition calculateMTUScore (testResult : TestResult) : Q :=
  if negb (success testResult) then 0%Q
  else
    let score := 50%Q in
    let score :=
      if Qltb (latency testResult) 50 then (score + 30)%Q
      else if Qltb (latency testResult) 100 then (score + 20)%Q
      else if Qltb (latency testResult) 200 then (score + 10)%Q
      else score in
    let score := (score - packetLoss testResult)%Q in
    Qmax 0 (Qmin 100 score).

(** The score as the specification words it. *)
Definition latencyBonus (averageLatency : Q) : Q :=
  if Qltb averageLatency 50 then 30%Q
  else if Qltb averageLatency 100 then 20%Q
  else if Qltb averageLatency 200 then 10%Q
  else 0%Q.

Definition clamp (lo hi x : Q) : Q :=
  if Qltb x lo then lo else if Qltb hi x then hi else x.

Definition specScore (testResult : TestResult) : Q :=
  if success testResult
  then clamp 0 100 (50 + latencyBonus (latency testResult) - packetLoss testResult)%Q
  else 0%Q.

End Probe.

(** ** Documents, collections and queries (the part of Mongoose used) *)

Module Mongo.

(** Field values.  Integer-valued numbers and fractional ones are kept
    apart ([JInt], [JNum]); an ObjectId is [JId], a Date is its epoch
    milliseconds. *)
Inductive JValue : Type :=
| JStr (s : string)
| JInt (z : Z)
| JNum (q : Q)
| JBool (b : bool)
| JDate (ms : Z)
| JId (oid : Z)
| JList (l : list string)
| JNull
| JNaN.

#[global] Instance Q_eq_dec : EqDecision Q.
Proof. solve_decision. Defined.

#[global] Instance JValue_eq_dec : EqDecision JValue.
Proof. solve_decision. Defined.

(** A stored record, and a plain JavaScript object: a finite map from
    field names to values; an absent key reads as [undefined]. *)
Abbreviation Doc := (gmap string JValue).

(** JavaScript truthiness of a field read. *)
Definition truthy (v : option JValue) : bool :=
  match v with
  | None | Some JNull | Some JNaN => false
  | Some (JStr s) => negb (s =? "")
  | Some (JInt z) => negb (z =? 0)%Z
  | Some (JNum q) => negb (Qeq_bool q 0)
  | Some (JBool b) => b
  | Some (JDate _) | Some (JId _) | Some (JList _) => true
  end.

(** A value inside a template literal. *)
Definition template (v : option JValue) : string :=
  match v with
  | None => "undefined"
  | Some (JStr s) => s
  | Some (JInt z) => Js.intToString z
  | Some (JId oid) => Js.intToString oid
  | Some (JDate ms) => Js.intToString ms
  | Some (JBool true) => "true"
  | Some (JBool false) => "false"
  | Some (JList l) => Js.join l ","
  | Some JNull => "null"
  | Some JNaN | Some (JNum _) => "NaN"
  end.

(** [x += k] on a field that holds a counter. *)
Definition plus (v : option JValue) (k : Z) : JValue :=
  match v with
  | Some (JInt c) => JInt (c + k)
  | _ => JNaN
  end.

(** [x += q] on a field that holds a fractional number. *)
Definition plusQ (v : option JValue) (q : Q) : JValue :=
  match v with
  | Some (JNum c) => JNum (c + q)
  | Some (JInt c) => JNum (inject_Z c + q)
  | _ => JNaN
  end.

(** *** Queries *)

Inductive Cond : Type :=
| Eq (path : string) (v : JValue)
| Ne (path : string) (v : JValue).

Definition holds (c : Cond) (d : Doc) : bool :=
  match c with
  | Eq path v => bool_decide (d !! path = Some v)
  | Ne path v => negb (bool_decide (d !! path = Some v))
  end.

Definition matches (q : list Cond) (d : Doc) : bool :=
  forallb (fun c => holds c d) q.

Definition find (q : list Cond) (coll : list Doc) : list Doc :=
  List.filter (matches q) coll.

Definition findOne (q : list Cond) (coll : list Doc) : option Doc :=
  List.find (matches q) coll.

Definition countDocuments (q : list Cond) (coll : list Doc) : Z :=
  Z.of_nat (length (find q coll)).

(** [updateMany(q, {$set: upd})]: no document middleware runs. *)
Definition updateMany (q : list Cond) (upd : Doc) (coll : list Doc) : list Doc :=
  (fun d => if matches q d then upd ∪ d else d) <$> coll.

(** Apply [f] to the first record that matches [q] ([updateOne],
    [findByIdAndUpdate]). *)
Fixpoint updateFirst (q : list Cond) (f : Doc -> Doc) (coll : list Doc) : list Doc :=
  match coll with
  | [] => []
  | d :: rest => if matches q d then f d :: rest else d :: updateFirst q f rest
  end.

(** Projection [.select("-a -b")]. *)
Definition select (excluded : list string) (d : Doc) : Doc :=
  foldr delete d excluded.

(** *** Documents *)

Record Document : Type := {
  fields : Doc;
  modified : gset string;
  isNew : bool
}.

(** A document read from the store: the schema's [select: false] paths
    are left out and nothing is modified yet. *)
Definition load (hidden : list string) (d : Doc) : Document :=
  {| fields := select hidden d; modified := ∅; isNew := false |}.

(** [new Model(obj)]: the paths of [obj] over the schema defaults; every
    path given is modified. *)
Definition create (defaults : Doc) (oid : Z) (obj : Doc) : Document :=
  {| fields := obj ∪ <["_id" := JId oid]> defaults;
     modified := dom obj;
     isNew := true |}.

Definition get (path : string) (doc : Document) : option JValue :=
  fields doc !! path.

(** [doc.path = v]: on a stored document an assignment of the value the
    path already holds modifies nothing. *)
Definition set (path : string) (v : JValue) (doc : Document) : Document :=
  if negb (isNew doc) && bool_decide (fields doc !! path = Some v)
  then doc
  else {| fields := <[path := v]> (fields doc);
          modified := {[path]} ∪ modified doc;
          isNew := isNew doc |}.

(** [doc.path = x] where [x] may be [undefined]. *)
Definition assign (path : string) (v : option JValue) (doc : Document) : Document :=
  match v with
  | Some v => set path v doc
  | None =>
      match fields doc !! path with
      | None => doc
      | Some _ => {| fields := delete path (fields doc);
                     modified := {[path]} ∪ modified doc;
                     isNew := isNew doc |}
      end
  end.

Definition isModified (path : string) (doc : Document) : bool :=
  bool_decide (path ∈ modified doc).

(** What [save] sends for a stored document: the modified paths, set or
    unset, over the record as it is in the store. *)
Definition writeFields (doc : Document) (stored : Doc) : Doc :=
  filter (fun kv => kv.1 ∈ modified doc) (fields doc)
  ∪ filter (fun kv => kv.1 ∉ modified doc) stored.

Definition byId (doc : Document) : list Cond :=
  match fields doc !! "_id" with
  | Some v => [Eq "_id" v]
  | None => [Eq "_id" JNull]
  end.

Definition persist (doc : Document) (coll : list Doc) : list Doc :=
  if isNew doc then (coll ++ [fields doc])%list
  else updateFirst (byId doc) (writeFields doc) coll.

Definition saved (doc : Document) : Document :=
  {| fields := fields doc; modified := ∅; isNew := false |}.

(** A unique index on [path] refuses a write that would give two records
    the same value. *)
Definition uniqueOk (path : string) (doc : Document) (coll : list Doc) : bool :=
  if isNew doc || isModified path doc then
    match fields doc !! path, fields doc !! "_id" with
    | Some v, Some i => negb (existsb (matches [Eq path v; Ne "_id" i]) coll)
    | _, _ => true
    end
  else true.

(** A document cannot be saved without an [_id], and the primary index
    refuses the insertion of a record whose [_id] is already in the
    collection. *)
Definition idOk (doc : Document) (coll : list Doc) : bool :=
  match fields doc !! "_id" with
  | Some v => if isNew doc then negb (existsb (matches [Eq "_id" v]) coll) else true
  | None => false
  end.

(** The collection invariant the primary index maintains. *)
Definition UniqueIds (coll : list Doc) : Prop :=
  NoDup ((fun d => d !! "_id") <$> coll).

(** *** The store and operations on it *)

Record Store : Type := {
  servers : list Doc;
  peers : list Doc;
  profiles : list Doc
}.

Definition withServers (f : list Doc -> list Doc) (st : Store) : Store :=
  {| servers := f (servers st); peers := peers st; profiles := profiles st |}.

Definition withPeers (f : list Doc -> list Doc) (st : Store) : Store :=
  {| servers := servers st; peers := f (peers st); profiles := profiles st |}.

Definition withProfiles (f : list Doc -> list Doc) (st : Store) : Store :=
  {| servers := servers st; peers := peers st; profiles := f (profiles st) |}.

(** An asynchronous operation: it reads and writes the store and either
    returns or throws; writes made before a throw stay. *)
Definition M (A : Type) : Type := Store -> Result A * Store.

Definition ret {A} (a : A) : M A := fun st => (Ok a, st).

Definition throw {A} (message : string) : M A := fun st => (Throw message, st).

Definition bind {A B} (m : M A) (k : A -> M B) : M B :=
  fun st =>
    match m st with
    | (Ok a, st') => k a st'
    | (Throw e, st') => (Throw e, st')
    end.

(** [try { m } catch (error) { h error }] *)
Definition tryCatch {A} (m : M A) (h : string -> M A) : M A :=
  fun st =>
    match m st with
    | (Ok a, st') => (Ok a, st')
    | (Throw e, st') => h e st'
    end.

Definition read {A} (f : Store -> A) : M A := fun st => (Ok (f st), st).

Definition write (f : Store -> Store) : M unit := fun st => (Ok tt, f st).

(** The result of an external command: it returns or it throws. *)
Definition command (ok : bool) (message : string) : M unit :=
  if ok then ret tt else throw message.

End Mongo.

Notation "'do' x <- m ; k" := (Mongo.bind m (fun x => k))
  (at level 10, x name, m at level 100, k at level 200).
Notation "m ;; k" := (Mongo.bind m (fun _ => k))
  (at level 100, k at level 200, right associativity).

(** ** The Server model ([models/Server.js]) *)

Module Server.
Import Mongo.

(** Paths declared [select: false]. *)
Definition hidden : list string := ["privateKey"].

Definition defaults (now : Z) : Doc :=
  list_to_map
    [("interfaceName", JStr "wg0"); ("configPath", JStr "/etc/wireguard");
     ("listenPort", JInt 51820); ("ispProfile", JStr "UNKNOWN");
     ("mtu", JInt 1420); ("dns", JList []); ("persistentKeepalive", JInt 25);
     ("status", JStr "inactive"); ("totalUptime", JNum 0);
     ("peerCount", JInt 0); ("activePeers", JInt 0);
     ("enableIPv6", JBool false); ("createdAt", JDate now);
     ("updatedAt", JDate now)].

Definition findOne (q : list Cond) : M (option Document) :=
  read (fun st => load hidden <$> Mongo.findOne q (servers st)).

Definition findById (id : JValue) : M (option Document) :=
  findOne [Eq "_id" id].

(** The two [pre("save")] middlewares. *)
Definition preSave (now : Z) (doc : Document) : Document :=
  let doc := set "updatedAt" (JDate now) doc in
  let doc :=
    if isModified "address" doc || isModified "listenPort" doc
       || isModified "privateKey" doc
    then set "lastSync" (JDate now) doc else doc in
  match get "dns" doc with
  | Some (JList []) => set "dns" (JList ["8.8.8.8"; "8.8.4.4"]) doc
  | _ => doc
  end.

Definition save (now : Z) (doc : Document) : M Document :=
  fun st =>
    let doc := preSave now doc in
    if idOk doc (servers st) && uniqueOk "interfaceName" doc (servers st)
    then (Ok (saved doc), withServers (persist doc) st)
    else (Throw "E11000 duplicate key error", st).

Definition updateStatus (newStatus : string) (now : Z) (doc : Document) : M Document :=
  let status := get "status" doc in
  let doc :=
    if bool_decide (status = Some (JStr "active")) && (newStatus =? "inactive")
    then
      let doc :=
        match get "lastStartTime" doc with
        | Some (JDate started) =>
            let uptime := (inject_Z (now - started) / 1000)%Q in
            set "totalUptime" (plusQ (get "totalUptime" doc) uptime) doc
        | _ => doc
        end in
      set "lastStopTime" (JDate now) doc
    else if bool_decide (status = Some (JStr "inactive")) && (newStatus =? "active")
    then set "lastStartTime" (JDate now) doc
    else doc in
  save now (set "status" (JStr newStatus) doc).

(** The array [config] that [getConfigContent] fills, and its join. *)
Definition configLines (doc : Document) : list string :=
  let config :=
    ["[Interface]";
     "Address = " +:+ template (get "address" doc);
     "ListenPort = " +:+ template (get "listenPort" doc);
     "PrivateKey = " +:+ template (get "privateKey" doc)] in
  let config :=
    if truthy (get "mtu" doc)
    then (config ++ ["MTU = " +:+ template (get "mtu" doc)])%list else config in
  let config :=
    match get "dns" doc with
    | Some (JList (d :: ds)) => (config ++ ["DNS = " +:+ Js.join (d :: ds) ", "])%list
    | _ => config
    end in
  let config :=
    if negb (truthy (get "enableIPv6" doc))
    then (config ++ ["DisableIPv6 = true"])%list else config in
  (config ++ [""])%list.

Definition getConfigContent (doc : Document) : string :=
  Js.join (configLines doc) Js.nl.

(** [toObject()]: the paths of the document.  The virtual getters, which
    add derived values under names of their own, are left out. *)
Definition toObject (doc : Document) : Doc := fields doc.

Definition toPublicJSON (doc : Document) : Doc :=
  delete "__v" (delete "_id" (delete "privateKey" (toObject doc))).

(** The assignments of [updateStatus] up to its [save]: what the
    document in hand holds if that [save] throws. *)
Definition restatus (newStatus : string) (now : Z) (doc : Document) : Document :=
  let status := get "status" doc in
  let doc :=
    if bool_decide (status = Some (JStr "active")) && (newStatus =? "inactive")
    then
      let doc :=
        match get "lastStartTime" doc with
        | Some (JDate started) =>
            let uptime := (inject_Z (now - started) / 1000)%Q in
            set "totalUptime" (plusQ (get "totalUptime" doc) uptime) doc
        | _ => doc
        end in
      set "lastStopTime" (JDate now) doc
    else if bool_decide (status = Some (JStr "inactive")) && (newStatus =? "active")
    then set "lastStartTime" (JDate now) doc
    else doc in
  set "status" (JStr newStatus) doc.

(** An array path reads as the empty array when nothing is stored. *)
Definition listOf (v : option JValue) : list string :=
  match v with
  | Some (JList l) => l
  | _ => []
  end.

Definition addAllowedIP (ip : string) (now : Z) (doc : Document) : M Document :=
  let allowedIPs := listOf (get "allowedIPs" doc) in
  let doc :=
    if negb (bool_decide (ip ∈ allowedIPs))
    then set "allowedIPs" (JList (allowedIPs ++ [ip])) doc
    else doc in
  save now doc.

Definition removeAllowedIP (ip : string) (now : Z) (doc : Document) : M Document :=
  let allowedIPs := listOf (get "allowedIPs" doc) in
  save now
    (set "allowedIPs" (JList (List.filter (fun allowedIP => negb (allowedIP =? ip)) allowedIPs))
       doc).





End Server.

(** ** The Peer model *)

Module Peer.
Import Mongo.

Definition hidden : list string := ["privateKey"; "presharedKey"].

Definition defaults (now : Z) : Doc :=
  list_to_map
    [("allowedIPs", JList []); ("persistentKeepalive", JInt 25);
     ("dns", JList []); ("mtu", JNull); ("status", JStr "pending");
     ("connectionCount", JInt 0); ("totalUptime", JNum 0);
     ("enabled", JBool true); ("usePresharedKey", JBool false);
     ("configGenerated", JBool false); ("keyRotationDate", JDate now);
     ("createdAt", JDate now); ("updatedAt", JDate now)].

Definition find (q : list Cond) : M (list Document) :=
  read (fun st => load hidden <$> Mongo.find q (peers st)).

Definition findOne (q : list Cond) : M (option Document) :=
  read (fun st => load hidden <$> Mongo.findOne q (peers st)).

Definition findById (id : JValue) : M (option Document) :=
  findOne [Eq "_id" id].

Definition countDocuments (q : list Cond) : M Z :=
  read (fun st => Mongo.countDocuments q (peers st)).

Definition updateMany (now : Z) (q : list Cond) (upd : Doc) : M unit :=
  write (withPeers (Mongo.updateMany q (<["updatedAt" := JDate now]> upd))).

(** The value a query compares the [server] path with. *)
Definition serverRef (doc : Document) : JValue :=
  default JNull (get "server" doc).

(** [pre("save")], one definition per statement of the middleware.
    [populated] is the Server document standing in the [server] path when
    the peer was read with [.populate("server")]; an ObjectId answers
    [_id] with itself. *)
Definition stampUpdated (now : Z) (doc : Document) : Document :=
  set "updatedAt" (JDate now) doc.

Definition stampServerId (populated : option Doc) (doc : Document) : Document :=
  match get "server" doc with
  | Some (JId sid) =>
      let own := populated ≫= (fun srv => srv !! "serverId") in
      set "serverId"
        (if truthy own then default JNull own else JStr (template (Some (JId sid))))
        doc
  | _ => doc
  end.

Definition becomes (status : string) (doc : Document) : bool :=
  isModified "status" doc && bool_decide (get "status" doc = Some (JStr status)).

Definition markFirstSeen (now : Z) (doc : Document) : Document :=
  if becomes "connected" doc && negb (truthy (get "firstSeen" doc))
  then set "firstSeen" (JDate now) doc else doc.

Definition countConnection (now : Z) (doc : Document) : Document :=
  if becomes "connected" doc
  then set "connectionCount" (plus (get "connectionCount" doc) 1)
         (set "lastSeen" (JDate now) doc)
  else doc.

Definition accrueUptime (now : Z) (doc : Document) : Document :=
  if becomes "disconnected" doc then
    match get "lastHandshake" doc with
    | Some (JDate shaken) =>
        let uptime := (inject_Z (now - shaken) / 1000)%Q in
        set "totalUptime" (plusQ (get "totalUptime" doc) uptime) doc
    | _ => doc
    end
  else doc.

Definition inheritMTU (servers : list Doc) (doc : Document) : Document :=
  if negb (truthy (get "mtu" doc)) && truthy (get "server" doc) then
    match Mongo.findOne [Eq "_id" (serverRef doc)] servers with
    | Some srv => assign "mtu" (srv !! "mtu") doc
    | None => doc
    end
  else doc.

Definition stampRotation (now : Z) (doc : Document) : Document :=
  if negb (truthy (get "keyRotationDate" doc))
  then set "keyRotationDate" (JDate now) doc else doc.

Definition preSave (now : Z) (populated : option Doc) (doc : Document) : M Document :=
  fun st =>
    (Ok (stampRotation now
          (inheritMTU (servers st)
            (accrueUptime now
              (countConnection now
                (markFirstSeen now
                  (stampServerId populated
                    (stampUpdated now doc))))))), st).

(** [post("save")]: the owning server's counters are recounted. *)
Definition postSave (now : Z) (doc : Document) : M unit :=
  do peerCount <- countDocuments [Eq "server" (serverRef doc); Eq "enabled" (JBool true)];
  do activePeers <- countDocuments
      [Eq "server" (serverRef doc); Eq "status" (JStr "connected");
       Eq "enabled" (JBool true)];
  write (withServers (updateFirst [Eq "_id" (serverRef doc)]
    (fun srv => <["peerCount" := JInt peerCount]>
                  (<["activePeers" := JInt activePeers]>
                    (<["updatedAt" := JDate now]> srv))))).

Definition save (now : Z) (populated : option Doc) (doc : Document) : M Document :=
  do doc <- preSave now populated doc;
  do ok <- read (fun st => idOk doc (peers st) && uniqueOk "publicKey" doc (peers st));
  if ok : bool then
    write (withPeers (persist doc));;
    postSave now doc;;
    ret (saved doc)
  else throw "E11000 duplicate key error".

(** The candidate address [`${a}.${b}.${c}.${i}`] built from the parts of
    the server address. *)
Definition candidateIP (serverParts : list (option N)) (i : N) : string :=
  let part k :=
    match serverParts !! k with
    | Some n => Js.numToString n
    | None => "undefined"
    end in
  part 0%nat ++ "." ++ part 1%nat ++ "." ++ part 2%nat ++ "." ++ Js.natToString i.

Definition serverParts (address : string) : list (option N) :=
  let serverIP := default "" (head (Js.split address "/")) in
  Js.Number <$> Js.split serverIP ".".

(** The loop [for (let i = 2; i <= 254; i++)]: [count] iterations
    remain, [i] is the next host number. *)
Fixpoint scan (count : nat) (i : N) (parts : list (option N)) (peers : list Document)
    : Result string :=
  match count with
  | O => Throw "No available IP addresses in the subnet"
  | S count' =>
      let candidate := candidateIP parts i in
      let isUsed :=
        existsb (fun peer => bool_decide (get "assignedIP" peer = Some (JStr candidate)))
          peers in
      if isUsed then scan count' (i + 1)%N parts peers else Ok candidate
  end.

Definition _getNextAvailableIP (server : Document) : M string :=
  do peers <- find [Eq "server" (default JNull (get "_id" server))];
  fun st => (scan 253 2 (serverParts (template (get "address" server))) peers, st).

End Peer.

(** ** The configuration text format ([parseConfig]) *)

Module Codec.

(** One section of a configuration file: a JavaScript object used as a
    map from keys to values. *)
Abbreviation Fields := (gmap string string).

Record Config : Type := {
  interface : Fields;
  peers : list Fields
}.

Inductive SectionTag : Type := InInterface | InPeer.

(** The parser's variables.  [currentPeer] is an alias of the object
    pushed last on [result.peers], so a write through it is a write to
    the last element of [peers]. *)
Record ParseState : Type := {
  result : Config;
  currentSection : option SectionTag
}.

Fixpoint alterLast {A} (f : A -> A) (l : list A) : list A :=
  match l with
  | [] => []
  | [x] => [f x]
  | x :: rest => x :: alterLast f rest
  end.

Definition parseLine (st : ParseState) (line : string) : ParseState :=
  let trimmed := Js.trim line in
  if Js.startsWith trimmed "[" && Js.endsWith trimmed "]" then
    if trimmed =? "[Interface]" then
      {| result := result st; currentSection := Some InInterface |}
    else if trimmed =? "[Peer]" then
      {| result := {| interface := interface (result st);
                      peers := (peers (result st) ++ [∅])%list |};
         currentSection := Some InPeer |}
    else st
  else if negb (trimmed =? "") && negb (Js.startsWith trimmed "#") then
    match Js.split trimmed "=" with
    | key :: valueParts =>
        let value := Js.trim (Js.join valueParts "=") in
        match currentSection st with
        | Some InInterface =>
            {| result := {| interface := <[Js.trim key := value]> (interface (result st));
                            peers := peers (result st) |};
               currentSection := currentSection st |}
        | Some InPeer =>
            {| result := {| interface := interface (result st);
                            peers := alterLast (insert (Js.trim key) value)
                                       (peers (result st)) |};
               currentSection := currentSection st |}
        | None => st
        end
    | [] => st
    end
  else st.

Definition parseLines (lines : list string) : ParseState :=
  fold_left parseLine lines
    {| result := {| interface := ∅; peers := [] |}; currentSection := None |}.

Definition parseConfig (configContent : string) : Config :=
  result (parseLines (Js.split configContent Js.nl)).

(** [v.split(", ").filter(x => x)] *)
Definition splitList (v : string) : list string :=
  List.filter (fun x => negb (x =? "")) (Js.split v ", ").

(** The match of [/(\d+\.\d+\.\d+\.\d+)\/\d+/] that starts at the head of
    [s], if there is one: the text of its group.  Digit runs are maximal,
    which is the only way the pattern can go on after them. *)
Fixpoint digitRun (s : string) : string * string :=
  match s with
  | String c s' =>
      if bool_decide (is_Some (Js.digitVal c))
      then let '(run, rest) := digitRun s' in (String c run, rest)
      else ("", s)
  | EmptyString => ("", "")
  end.

Definition expect (c : ascii) (s : string) : option string :=
  match s with
  | String c' s' => if Ascii.eqb c c' then Some s' else None
  | EmptyString => None
  end.

Definition octet (s : string) : option (string * string) :=
  match digitRun s with
  | (EmptyString, _) => None
  | (run, rest) => Some (run, rest)
  end.

Definition matchHere (s : string) : option string :=
  '(a, s) ← octet s; s ← expect "." s;
  '(b, s) ← octet s; s ← expect "." s;
  '(c, s) ← octet s; s ← expect "." s;
  '(d, s) ← octet s; s ← expect "/" s;
  '(_, _) ← octet s;
  Some (a +:+ "." +:+ b +:+ "." +:+ c +:+ "." +:+ d).

Fixpoint matchFirst (s : string) : option string :=
  match matchHere s with
  | Some ip => Some ip
  | None =>
      match s with
      | String _ s' => matchFirst s'
      | EmptyString => None
      end
  end.

Definition extractIPFromAllowedIPs (allowedIPs : option string) : option string :=
  if Js.truthyStr allowedIPs then
    let firstIP := Js.trim (default "" (head (Js.split (default "" allowedIPs) ","))) in
    matchFirst firstIP
  else None.

End Codec.

(** ** Peer provisioning on the model ([Peer.generateNewPeer],
       [generateConfig], [toClientJSON]) *)

Module PeerOps.
Import Mongo.

(** [a || b] on field reads. *)
Definition orJ (a b : option JValue) : option JValue :=
  if truthy a then a else b.

Definition insertOpt (path : string) (v : option JValue) (obj : Doc) : Doc :=
  match v with
  | Some v => <[path := v]> obj
  | None => obj
  end.



Definition nonEmptyList (v : option JValue) : bool :=
  match v with
  | Some (JList (_ :: _)) => true
  | _ => false
  end.

Definition joinList (v : option JValue) (sep : string) : string :=
  match v with
  | Some (JList l) => Js.join l sep
  | _ => template v
  end.

(** [peer.generateConfig()]; [qr] is what the QR encoder returns, if it
    returns. *)
Definition generateConfig (qr : option string) (now : Z) (this : Document)
    : M (Document * string) :=
  do server <- Server.findById (Peer.serverRef this);
  match server with
  | None => throw "Server not found"
  | Some server =>
      let config :=
        ["[Interface]";
         "PrivateKey = " +:+ template (get "privateKey" this);
         "Address = " +:+ template (get "assignedIP" this) +:+ "/32"] in
      let config :=
        if nonEmptyList (get "dns" this)
        then (config ++ ["DNS = " +:+ joinList (get "dns" this) ", "])%list
        else if nonEmptyList (get "dns" server)
        then (config ++ ["DNS = " +:+ joinList (get "dns" server) ", "])%list
        else config in
      let config :=
        if truthy (get "mtu" this)
        then (config ++ ["MTU = " +:+ template (get "mtu" this)])%list
        else if truthy (get "mtu" server)
        then (config ++ ["MTU = " +:+ template (get "mtu" server)])%list
        else config in
      let config :=
        (config ++ [""; "[Peer]"; "PublicKey = " +:+ template (get "publicKey" server)])%list in
      let config :=
        if truthy (get "listenPort" server) then
          let endpointHost :=
            if truthy (get "endpoint.host" this)
            then template (get "endpoint.host" this)
            else default ""
                   (head (Js.split (template (get "address" server)) "/")) in
          (config ++ ["Endpoint = " +:+ endpointHost +:+ ":"
                        +:+ template (get "listenPort" server)])%list
        else config in
      let config :=
        (config ++ ["AllowedIPs = " +:+ joinList (get "allowedIPs" this) ", "])%list in
      let config :=
        if truthy (get "persistentKeepalive" this)
        then (config ++ ["PersistentKeepalive = "
                          +:+ template (get "persistentKeepalive" this)])%list
        else config in
      let config :=
        if truthy (get "presharedKey" this) && truthy (get "usePresharedKey" this)
        then (config ++ ["PresharedKey = " +:+ template (get "presharedKey" this)])%list
        else config in
      let configContent := Js.join config Js.nl in
      let this := set "configFile" (JStr configContent) this in
      let this := set "configGenerated" (JBool true) this in
      let this :=
        match qr with
        | Some code => set "qrCode" (JStr code) this
        | None => this
        end in
      do this <- Peer.save now None this;
      ret (this, configContent)
  end.

(** [toClientJSON] (the virtual paths it copies are not modelled). *)
Definition toClientJSON (this : Document) : Doc :=
  delete "__v" (delete "_id" (delete "presharedKey" (delete "privateKey" (fields this)))).

End PeerOps.

(** ** The service ([wireguard.js]) *)

Module Service.
Import Mongo.

Definition byName (interfaceName : string) : list Cond :=
  [Eq "interfaceName" (JStr interfaceName)].

Definition idOf (doc : Document) : JValue := default JNull (get "_id" doc).

(** [Server.findByIdAndUpdate(id, {$inc: {peerCount: k}})] *)
Definition incPeerCount (now : Z) (id : JValue) (k : Z) : M unit :=
  write (withServers (updateFirst [Eq "_id" id]
    (fun srv =>
       <["peerCount" :=
          match srv !! "peerCount" with
          | Some (JInt c) => JInt (c + k)
          | _ => JInt k
          end]> (<["updatedAt" := JDate now]> srv)))).

(** *** Interface lifecycle *)

Definition stopInterface (interfaceName : string) (downOk : bool) (now : Z) : M Doc :=
  do server <- Server.findOne (byName interfaceName);
  match server with
  | None => throw ("Server " +:+ interfaceName +:+ " not found in database")
  | Some server =>
      tryCatch
        (command downOk ("Command failed: wg-quick down " +:+ interfaceName);;
         do server <- Server.updateStatus "inactive" now server;
         Peer.updateMany now
           [Eq "server" (idOf server); Eq "status" (JStr "connected")]
           (<["status" := JStr "disconnected"]> {["lastSeen" := JDate now]});;
         ret (Server.toPublicJSON server))
        (fun message =>
           do _ <- Server.updateStatus "error" now server;
           throw ("Failed to stop interface: " +:+ message))
  end.

(** *** Peer management *)

(** The outcomes of the two shell commands of a peer operation. *)
Record Shell : Type := {
  wgSetOk : bool;
  wgSaveOk : bool
}.


Definition removePeer (peerId : JValue) (sh : Shell) (now : Z) : M Doc :=
  tryCatch
    (do peer <- Peer.findById peerId;
     match peer with
     | None => throw "Peer not found"
     | Some peer =>
         do server <- Server.findById (Peer.serverRef peer);
         match server with
         | None => throw "Cannot read properties of null"
         | Some server =>
             command (wgSetOk sh) "Command failed: wg set";;
             command (wgSaveOk sh) "Command failed: wg-quick save";;
             let peer := set "status" (JStr "disabled") peer in
             let peer := set "enabled" (JBool false) peer in
             do peer <- Peer.save now (Some (fields server)) peer;
             incPeerCount now (idOf server) (-1);;
             ret (PeerOps.toClientJSON peer)
         end
     end)
    (fun message => throw ("Failed to remove peer: " +:+ message)).

(** *** Live status *)

(** The public keys listed by [wg show]: the parse loop of
    [updatePeersStatus]; [currentPeer] is the key of the peer block being
    read. *)
Definition wgLine (acc : gset string * option string) (line : string)
    : gset string * option string :=
  let '(connectedPeers, currentPeer) := acc in
  (* a [transfer:] line only annotates the block being read *)
  if Js.includes line "peer:" then
    let connectedPeers :=
      if Js.truthyStr currentPeer
      then {[Js.trim (default "" currentPeer)]} ∪ connectedPeers
      else connectedPeers in
    (connectedPeers, Some (Js.trim (default "" (Js.split line ":" !! 1%nat))))
  else acc.

Definition parseWgShow (wgOutput : string) : gset string :=
  let '(connectedPeers, currentPeer) :=
    fold_left wgLine (Js.split wgOutput Js.nl) (∅, None) in
  if Js.truthyStr currentPeer
  then {[Js.trim (default "" currentPeer)]} ∪ connectedPeers
  else connectedPeers.

Definition hasKey (connectedPeers : gset string) (peer : Document) : bool :=
  match get "publicKey" peer with
  | Some (JStr key) => bool_decide (key ∈ connectedPeers)
  | _ => false
  end.

(** The body of the loop over the persisted peers, up to [peer.save()]. *)
Definition markPeer (connectedPeers : gset string) (now : Z) (peer : Document)
    : Document :=
  let isConnected := hasKey connectedPeers peer in
  let stored := bool_decide (get "status" peer = Some (JStr "connected")) in
  if isConnected && negb stored then
    let peer := set "status" (JStr "connected") peer in
    let peer := set "lastHandshake" (JDate now) peer in
    let peer := set "lastSeen" (JDate now) peer in
    let peer :=
      if negb (truthy (get "firstSeen" peer))
      then set "firstSeen" (JDate now) peer else peer in
    set "connectionCount" (plus (get "connectionCount" peer) 1) peer
  else if negb isConnected && stored then
    set "status" (JStr "disconnected") peer
  else peer.

Fixpoint forEach {A} (l : list A) (body : A -> M unit) : M unit :=
  match l with
  | [] => ret tt
  | x :: rest => body x;; forEach rest body
  end.

Definition updatePeersStatus (interfaceName : string) (wgShow : option string)
    (now : Z) : M unit :=
  do server <- Server.findOne (byName interfaceName);
  match server with
  | None => throw "Server not found"
  | Some server =>
      match wgShow with
      | None =>
          Peer.updateMany now
            [Eq "server" (idOf server); Eq "status" (JStr "connected")]
            {["status" := JStr "disconnected"]}
      | Some wgOutput =>
          let connectedPeers := parseWgShow wgOutput in
          do peers <- Peer.find [Eq "server" (idOf server)];
          forEach peers (fun peer =>
            do _ <- Peer.save now None (markPeer connectedPeers now peer); ret tt);;
          do activePeers <- Peer.countDocuments
            [Eq "server" (idOf server); Eq "status" (JStr "connected");
             Eq "enabled" (JBool true)];
          do _ <- Server.save now (set "activePeers" (JInt activePeers) server);
          ret tt
      end
  end.

(** *** Reconciliation from the configuration file *)

Definition generateNextIP (server : Document) : M string :=
  do peers <- Peer.find [Eq "server" (idOf server)];
  fun st =>
    (Peer.scan 253 2 (Peer.serverParts (template (get "address" server))) peers, st).


Definition newPeerFromConfig (server : Document) (peerConfig : Codec.Fields)
    (privateKey : string) (oid now : Z) : M Document :=
  do assignedIP <-
    match Codec.extractIPFromAllowedIPs (peerConfig !! "AllowedIPs") with
    | Some ip => if ip =? "" then generateNextIP server else ret ip
    | None => generateNextIP server
    end;
  let obj : Doc :=
    <["name" := JStr ("Peer-" +:+ Js.intToString now)]>
    (PeerOps.insertOpt "server" (get "_id" server)
    (PeerOps.insertOpt "serverId" (get "serverId" server)
    (PeerOps.insertOpt "interfaceName" (get "interfaceName" server)
    (PeerOps.insertOpt "publicKey" (JStr <$> peerConfig !! "PublicKey")
    (<["privateKey" := JStr privateKey]>
    (<["allowedIPs" :=
        if Js.truthyStr (peerConfig !! "AllowedIPs")
        then JList (Codec.splitList (default "" (peerConfig !! "AllowedIPs")))
        else JList ["0.0.0.0/0"]]>
    (<["persistentKeepalive" :=
        JInt (Js.orElse (Js.parseInt (peerConfig !! "PersistentKeepalive")) 25)]>
    (<["assignedIP" := JStr assignedIP]>
    {["status" := JStr "pending"]})))))))) in
  ret (create (Peer.defaults now) oid obj).

Definition refreshPeer (peerConfig : Codec.Fields) (peer : Document) : Document :=
  let peer :=
    if Js.truthyStr (peerConfig !! "AllowedIPs")
    then set "allowedIPs"
           (JList (Codec.splitList (default "" (peerConfig !! "AllowedIPs")))) peer
    else peer in
  match Js.parseInt (peerConfig !! "PersistentKeepalive") with
  | Some 0%Z | None => peer
  | Some n => set "persistentKeepalive" (JInt n) peer
  end.












(** *** Backup *)




(** *** MTU testing *)

(** What happens to one candidate: whether [ip link set ... mtu] works,
    and the three pings of [performMTUTest] ([None] when the probing
    facility cannot be loaded and the test throws). *)
Record Candidate : Type := {
  setOk : bool;
  probe : option (list Probe.Ping)
}.

Record MTUResult : Type := {
  mtu : Z;
  success : bool;
  latency : option Q;
  packetLoss : option Q;
  score : Q;
  error : option string
}.

(** [setTemporaryMTU] on the live path, whose MTU is the state. *)
Definition setTemporaryMTU (ok : bool) (mtu : Z) (link : Z) : Result unit * Z :=
  if ok then (Ok tt, mtu)
  else (Throw "Failed to set MTU: Command failed: sudo ip link set", link).

Definition failedResult (mtu : Z) (message : string) : MTUResult :=
  {| mtu := mtu; success := false; latency := None; packetLoss := None;
     score := 0; error := Some message |}.

(** The body of the sweep's [try] for one candidate. *)
Definition tryCandidate (c : Candidate) (mtu : Z) (link : Z) : MTUResult * Z :=
  match setTemporaryMTU (setOk c) mtu link with
  | (Throw message, link) => (failedResult mtu message, link)
  | (Ok _, link) =>
      match probe c with
      | None => (failedResult mtu "Cannot find module 'ping'", link)
      | Some pings =>
          let testResult := Probe.performMTUTest pings in
          ({| mtu := mtu;
              success := Probe.success testResult;
              latency := Some (Probe.latency testResult);
              packetLoss := Some (Probe.packetLoss testResult);
              score := Probe.calculateMTUScore testResult;
              error := None |}, link)
      end
  end.

Fixpoint sweep (i : nat) (mtuValues : list Z) (env : nat -> Candidate) (link : Z)
    : list MTUResult * Z :=
  match mtuValues with
  | [] => ([], link)
  | mtu :: rest =>
      let '(r, link) := tryCandidate (env i) mtu link in
      let '(rs, link) := sweep (S i) rest env link in
      (r :: rs, link)
  end.

(** [results.sort((a, b) => b.score - a.score)]: stable, best first. *)
Fixpoint insertByScore (r : MTUResult) (sorted : list MTUResult) : list MTUResult :=
  match sorted with
  | [] => [r]
  | x :: rest =>
      if Probe.Qltb (score x) (score r) then r :: sorted
      else x :: insertByScore r rest
  end.

Definition sortByScore (results : list MTUResult) : list MTUResult :=
  foldr insertByScore [] results.

Definition defaultMTUValues : list Z :=
  [1280; 1300; 1320; 1340; 1360; 1380; 1400; 1420; 1440; 1460; 1480; 1500]%Z.

Record MTUReport : Type := {
  originalMTU : option JValue;
  bestMTU : option JValue;
  results : list MTUResult
}.

(** [testMTU]; the recommendation text built from the provider table is
    left out of the report.  The state threaded through is the MTU of the
    live path; the store is only read. *)
Definition testMTU (interfaceName : string) (mtuValues : option (list Z))
    (env : nat -> Candidate) (restoreOk : bool) (link : Z) (st : Store)
    : Result MTUReport * Z :=
  match Server.findOne (byName interfaceName) st with
  | (Ok (Some server), _) =>
      let mtuValues := default defaultMTUValues mtuValues in
      let originalMTU := get "mtu" server in
      let '(results, link) := sweep 0 mtuValues env link in
      let restored :=
        match originalMTU with
        | Some (JInt m) =>
            if truthy originalMTU then setTemporaryMTU restoreOk m link
            else (Ok tt, link)
        | _ => (Ok tt, link)
        end in
      match restored with
      | (Throw message, link) => (Throw message, link)
      | (Ok _, link) =>
          let validResults := List.filter success results in
          let bestResult := head (sortByScore validResults) in
          (Ok {| originalMTU := originalMTU;
                 bestMTU :=
                   PeerOps.orJ ((fun r => JInt (mtu r)) <$> bestResult) originalMTU;
                 results := results |}, link)
      end
  | (Ok None, _) => (Throw "Server not found", link)
  | (Throw message, _) => (Throw message, link)
  end.

(** *** Starting, enabling, disabling, deleting *)



Definition enablePeer (peerId : JValue) (sh : Shell) (now : Z) : M Doc :=
  do peer <- Peer.findById peerId;
  match peer with
  | None => throw "Peer not found"
  | Some peer =>
      do server <- Server.findById (Peer.serverRef peer);
      match server with
      | None => throw "Cannot read properties of null"
      | Some server =>
          command (wgSetOk sh) "Command failed: wg set";;
          command (wgSaveOk sh) "Command failed: wg-quick save";;
          let peer := set "enabled" (JBool true) peer in
          let peer := set "status" (JStr "pending") peer in
          do peer <- Peer.save now (Some (fields server)) peer;
          ret (PeerOps.toClientJSON peer)
      end
  end.

Definition disablePeer (peerId : JValue) (sh : Shell) (now : Z) : M Doc :=
  do peer <- Peer.findById peerId;
  match peer with
  | None => throw "Peer not found"
  | Some peer =>
      do server <- Server.findById (Peer.serverRef peer);
      match server with
      | None => throw "Cannot read properties of null"
      | Some server =>
          command (wgSetOk sh) "Command failed: wg set";;
          command (wgSaveOk sh) "Command failed: wg-quick save";;
          let peer := set "enabled" (JBool false) peer in
          let peer := set "status" (JStr "disabled") peer in
          do peer <- Peer.save now (Some (fields server)) peer;
          ret (PeerOps.toClientJSON peer)
      end
  end.

(** [deleteMany(q)] and the [deleteOne] of a document. *)
Definition deleteMany (q : list Cond) (coll : list Doc) : list Doc :=
  List.filter (fun d => negb (matches q d)) coll.

Fixpoint deleteFirst (q : list Cond) (coll : list Doc) : list Doc :=
  match coll with
  | [] => []
  | d :: rest => if matches q d then rest else d :: deleteFirst q rest
  end.

(** [try { await m } catch (e) { }] *)
Definition attempt {A} (m : M A) : M unit :=
  fun st => (Ok tt, (m st).2).

(** [deleteInterface] returns its outcome instead of throwing: the
    message of success, or the message of the error caught.  The
    configuration file and the set of known interfaces are outside the
    store. *)
Definition deleteInterface (interfaceName : string) (downOk : bool) (now : Z)
    : M (Result string) :=
  tryCatch
    (attempt (stopInterface interfaceName downOk now);;
     do server <- Server.findOne (byName interfaceName);
     match server with
     | Some server =>
         write (withPeers (deleteMany [Eq "server" (idOf server)]));;
         write (withServers (deleteFirst [Eq "_id" (idOf server)]))
     | None => ret tt
     end;;
     ret (Ok ("Interface " +:+ interfaceName +:+ " deleted successfully")))
    (fun message => ret (Throw message)).

(** *** Editing a configuration text *)

(** The first loop of [updateConfigValue]: the first line that starts
    with [prefix] becomes [line]; [None] when no line does. *)
Fixpoint replaceFirst (prefix line : string) (lines : list string)
    : option (list string) :=
  match lines with
  | [] => None
  | l :: rest =>
      if Js.startsWith l prefix then Some (line :: rest)
      else cons l <$> replaceFirst prefix line rest
  end.

(** The second loop: [line] goes in after the first line that is the
    interface header. *)
Fixpoint insertAfterInterface (line : string) (lines : list string) : list string :=
  match lines with
  | [] => []
  | l :: rest =>
      if Js.trim l =? "[Interface]" then l :: line :: rest
      else l :: insertAfterInterface line rest
  end.

(** [value] is the text the template literal writes for the value. *)
Definition updateConfigValue (configContent key value : string) : string :=
  let lines := Js.split configContent Js.nl in
  let line := key +:+ " = " +:+ value in
  let lines :=
    match replaceFirst (key +:+ " =") line lines with
    | Some lines => lines
    | None => insertAfterInterface line lines
    end in
  Js.join lines Js.nl.

End Service.

(** ** The MTU profile model ([models/MTUProfile.js]) *)

Module MTUProfile.
Import Mongo.

Definition defaults (now : Z) : Doc :=
  list_to_map
    [("isp", JStr "UNKNOWN"); ("dns", JList []); ("persistentKeepalive", JInt 25);
     ("isDefault", JBool false); ("createdAt", JDate now); ("updatedAt", JDate now)].

Definition findOne (q : list Cond) : M (option Document) :=
  read (fun st => load [] <$> Mongo.findOne q (profiles st)).

(** The two [pre("save")] middlewares: the first only stamps the
    document, the second clears the flag on the provider's other
    profiles. *)
Definition preSave (now : Z) (doc : Document) : M Document :=
  let doc := set "updatedAt" (JDate now) doc in
  if truthy (get "isDefault" doc) && isModified "isDefault" doc then
    write (withProfiles (Mongo.updateMany
      [Eq "isp" (default JNull (get "isp" doc)); Ne "_id" (Service.idOf doc)]
      (<["isDefault" := JBool false]> {["updatedAt" := JDate now]})));;
    ret doc
  else ret doc.

Definition save (now : Z) (doc : Document) : M Document :=
  do doc <- preSave now doc;
  do ok <- read (fun st => idOk doc (profiles st) && uniqueOk "name" doc (profiles st));
  if ok : bool then
    write (withProfiles (persist doc));;
    ret (saved doc)
  else throw "E11000 duplicate key error".


(** A number read for a comparison or a subtraction: [undefined] and
    [NaN] give [NaN] ([None]), [null] gives 0. *)
Definition num (v : option JValue) : option Q :=
  match v with
  | Some (JInt z) => Some (inject_Z z)
  | Some (JNum q) => Some q
  | Some JNull => Some 0%Q
  | _ => None
  end.





(** One probe of [runTest] counts as a success when it is answered in
    under 100 ms. *)
Definition quick (p : Probe.Ping) : bool :=
  match p with
  | Probe.Alive time => Probe.Qltb time 100
  | _ => false
  end.

(** [runTest]: one probe per packet size (64, 512, 1024, mtu - 28); the
    argument lists the four outcomes in that order ([None] when the
    probing facility cannot be loaded).  The assignment replaces the
    whole of [testResults]. *)
Definition runTest (pings : option (list Probe.Ping)) (now : Z) (this : Document)
    : M Document :=
  match pings with
  | None => throw "Cannot find module 'ping'"
  | Some pings =>
      let latency := Probe.latencies pings in
      let packetLoss := length (List.filter (fun p => negb (Probe.isAlive p)) pings) in
      let successfulPings := length (List.filter quick pings) in
      let totalPings := length pings in
      let rate (n : nat) : Q :=
        if (0 <? totalPings)%nat
        then (Probe.Qof_nat n / Probe.Qof_nat totalPings * 100)%Q else 0%Q in
      let this := set "testResults.pingSuccessRate" (JNum (rate successfulPings)) this in
      let this :=
        set "testResults.averageLatency"
          (JNum (if (0 <? length latency)%nat
                 then (Probe.Qsum latency / Probe.Qof_nat (length latency))%Q
                 else 0%Q)) this in
      let this := set "testResults.packetLoss" (JNum (rate packetLoss)) this in
      let this := set "testResults.lastTested" (JDate now) this in
      let this := assign "testResults.throughput" None this in
      let this := assign "testResults.jitter" None this in
      let this := assign "testResults.testDuration" None this in
      save now this
  end.

(** [a >= k] and [a <= k] on a field read: false on [NaN]. *)
Definition atLeast (a : option JValue) (k : Q) : bool :=
  match num a with
  | Some x => Qle_bool k x
  | None => false
  end.

Definition atMost (a : option JValue) (k : Q) : bool :=
  match num a with
  | Some x => Qle_bool x k
  | None => false
  end.

(** The virtual [isOptimal]. *)
Definition isOptimal (doc : Document) : bool :=
  atLeast (get "testResults.pingSuccessRate" doc) 95
  && atMost (get "testResults.packetLoss" doc) 5
  && atMost (get "testResults.averageLatency" doc) 100.

(** A range of [bulkCreateForISP]: [min], [max] and [step]. *)
Record Range : Type := {
  min : Z;
  max : Z;
  step : Z
}.

Definition ranges : list Range :=
  [{| min := 1280; max := 1320; step := 20 |};
   {| min := 1340; max := 1380; step := 20 |};
   {| min := 1400; max := 1440; step := 20 |};
   {| min := 1460; max := 1500; step := 20 |}].

(** The values [mtu] takes in
    [for (let mtu = range.min; mtu <= range.max; mtu += range.step)],
    at most [fuel] of them. *)
Fixpoint stepsFrom (fuel : nat) (mtu : Z) (range : Range) : list Z :=
  match fuel with
  | O => []
  | S fuel =>
      if (mtu <=? max range)%Z then mtu :: stepsFrom fuel (mtu + step range) range
      else []
  end.

(** With a step of 1 or more the loop ends within [max - min + 1]
    rounds. *)
Definition rangeValues (range : Range) : list Z :=
  stepsFrom (Z.to_nat (max range - min range + 1)) (min range) range.

(** [new this({...})] in the loop body; [oid] is the new ObjectId. *)
Definition newProfile (isp : string) (mtu : Z) (range : Range) (oid now : Z)
    : Document :=
  create (defaults now) oid
    (list_to_map
       [("name", JStr (isp +:+ "_MTU_" +:+ Js.intToString mtu));
        ("description",
         JStr ("MTU " +:+ Js.intToString mtu +:+ " for " +:+ isp +:+ " network"));
        ("isp", JStr isp); ("mtu", JInt mtu);
        ("recommendedRange.min", JInt (min range));
        ("recommendedRange.max", JInt (max range));
        ("recommendedRange.step", JInt (step range));
        ("dns", JList ["8.8.8.8"; "8.8.4.4"]); ("persistentKeepalive", JInt 25);
        ("tags", JList [isp; "mtu-" +:+ Js.intToString mtu; "auto-generated"])]).

(** The inner loop from its [i]-th round on; [gen] numbers the
    ObjectIds of the documents created, and [i] counts the documents
    created so far. *)
Fixpoint createEach (isp : string) (gen : nat -> Z) (now : Z) (range : Range)
    (i : nat) (mtus : list Z) : M (list Document) :=
  match mtus with
  | [] => ret []
  | mtu :: rest =>
      do profile <- save now (newProfile isp mtu range (gen i) now);
      do profiles <- createEach isp gen now range (S i) rest;
      ret (profile :: profiles)
  end.

(** The outer loop. *)
Fixpoint createRanges (isp : string) (gen : nat -> Z) (now : Z) (i : nat)
    (todo : list Range) : M (list Document) :=
  match todo with
  | [] => ret []
  | range :: rest =>
      do created <- createEach isp gen now range i (rangeValues range);
      do profiles <- createRanges isp gen now (i + length created) rest;
      ret (created ++ profiles)%list
  end.

(** [bulkCreateForISP]: the array it returns holds the documents, the
    middle one as its second [save] left it. *)
Definition bulkCreateForISP (isp : string) (gen : nat -> Z) (now : Z)
    : M (list Document) :=
  do profiles <- createRanges isp gen now 0 ranges;
  if (0 <? length profiles)%nat then
    let defaultIndex := (length profiles / 2)%nat in
    match profiles !! defaultIndex with
    | Some profile =>
        do profile <- save now (set "isDefault" (JBool true) profile);
        ret (<[defaultIndex := profile]> profiles)
    | None => ret profiles
    end
  else ret profiles.

End MTUProfile.

(** ** The health report ([healthCheck], [calculateHealthScore]) *)

Module Health.

Record InterfaceHealth : Type := {
  name : string;
  running : bool;
  configExists : bool
}.

Record Report : Type := {
  database : bool;
  wireguard : bool;
  interfaces : list InterfaceHealth;
  status : string;
  score : Z
}.

(** [Math.round]: the nearest integer, halves upward. *)
Definition round (x : Q) : Z := Qfloor (x + (1 # 2)).

Definition calculateHealthScore (database wireguard : bool)
    (interfaces : list InterfaceHealth) : Z :=
  let score := 0%Q in
  let score := if database then (score + 40)%Q else score in
  let score := if wireguard then (score + 30)%Q else score in
  let runningInterfaces := length (List.filter running interfaces) in
  let totalInterfaces := length interfaces in
  let score :=
    if (0 <? totalInterfaces)%nat
    then (score + Probe.Qof_nat runningInterfaces / Probe.Qof_nat totalInterfaces * 30)%Q
    else score in
  round score.

(** [healthCheck]: whether the database connection is ready, whether
    [wg --version] runs, and what was found for each discovered
    interface.  The time stamp and the error texts are left out. *)
Definition healthCheck (databaseReady wgInstalled : bool)
    (found : list InterfaceHealth) : Report :=
  {| database := databaseReady;
     wireguard := wgInstalled;
     interfaces := found;
     status := if databaseReady && wgInstalled then "healthy" else "unhealthy";
     score := calculateHealthScore databaseReady wgInstalled found |}.

End Health.

(** ** The allocator as the specification words it *)

Module AllocSpec.
Import Mongo.

(** The address [ip] is assigned to a persisted peer of [server]. *)
Definition assignedTo (st : Store) (server : Document) (ip : string) : Prop :=
  exists d, d ∈ peers st /\ d !! "server" = Some (Service.idOf server)
            /\ d !! "assignedIP" = Some (JStr ip).

Definition octetsToZ (parts : list (option N)) : option Z :=
  match parts with
  | [Some a; Some b; Some c; Some d] =>
      Some (Z.of_N (((a * 256 + b) * 256 + c) * 256 + d))
  | _ => None
  end.

Definition dotted (ip : Z) : string :=
  Js.intToString (Z.shiftr ip 24 mod 256) +:+ "." +:+
  Js.intToString (Z.shiftr ip 16 mod 256) +:+ "." +:+
  Js.intToString (Z.shiftr ip 8 mod 256) +:+ "." +:+
  Js.intToString (ip mod 256).

(** The network address of the subnet [a.b.c.d/n]: the address with its
    host bits cleared. *)
Definition network (address : string) : option Z :=
  match Js.split address "/" with
  | [ip; len] =>
      ip ← octetsToZ (Js.Number <$> Js.split ip ".");
      n ← Js.parseInt (Some len);
      Some (Z.shiftl (Z.shiftr ip (32 - n)) (32 - n))
  | _ => None
  end.

(** The usable host addresses of a subnet follow its network address;
    the second usable one is two above it. *)
Definition secondUsable (address : string) : option string :=
  (fun net => dotted (net + 2)) <$> network address.

(** The claim's first clause at one server: with no address taken, the
    scan hands out the second usable address of the server's subnet. *)
Definition startsAtSecondUsable (server : Document) (st : Store) : Prop :=
  (forall ip, ~ assignedTo st server ip) ->
  exists ip, secondUsable (template (get "address" server)) = Some ip
             /\ (Peer._getNextAvailableIP server st).1 = Ok ip.

(** The test [peers.some(peer => peer.assignedIP === candidateIP)]. *)
Definition isUsed (peers : list Document) (ip : string) : bool :=
  existsb (fun peer => bool_decide (get "assignedIP" peer = Some (JStr ip))) peers.

End AllocSpec.

(** ** Claims of the specification, as it words them *)

Module Stated.
Import Mongo.

(** After a sweep the MTU of the path is what it was before the sweep. *)
Definition restoresPathMTU (interfaceName : string) (mtuValues : option (list Z))
    (env : nat -> Service.Candidate) (restoreOk : bool) (link : Z) (st : Store) : Prop :=
  (Service.testMTU interfaceName mtuValues env restoreOk link st).2 = link.


(** The value at [path] of the [n]-th record of a collection. *)
Definition field (coll : list Doc) (n : nat) (path : string) : option JValue :=
  d ← coll !! n; d !! path.

(** The number of stored peers of server [sid] that satisfy [q]. *)
Definition census (sid : Z) (q : list Cond) (st : Store) : Z :=
  Mongo.countDocuments (Eq "server" (JId sid) :: q) (peers st).


(** [profile.isDefault = true] on a profile read from the store. *)
Definition markDefault (d0 : Doc) : Document :=
  set "isDefault" (JBool true) (load [] d0).


End Stated.

(** ** What reconciliation may touch *)

Module Frame.
Import Mongo.

(** The paths [syncPeersToDatabase] refreshes from a configuration entry. *)
Definition refreshed : list string := ["allowedIPs"; "persistentKeepalive"].

(** The paths the [pre("save")] middleware of the Peer model maintains on
    a document whose status is not changing. *)
Definition stamped : list string :=
  ["updatedAt"; "serverId"; "mtu"; "keyRotationDate"].

(** The record carries the public key of an entry that has one. *)
Definition fromEntry (entries : list Codec.Fields) (d : Doc) : Prop :=
  exists e k, e ∈ entries /\ e !! "PublicKey" = Some k /\ k <> ""
              /\ d !! "publicKey" = Some (JStr k).

(** The record is a peer of [server] named by one of the entries. *)
Definition named (server : Document) (entries : list Codec.Fields) (d : Doc) : Prop :=
  d !! "server" = Some (Service.idOf server) /\ fromEntry entries d.

(** [d'] is what became of the stored record [d]. *)
Definition kept (server : Document) (entries : list Codec.Fields) (d d' : Doc) : Prop :=
  (forall path, path ∉ (refreshed ++ stamped)%list -> d' !! path = d !! path)
  /\ (~ named server entries d -> d' = d).




(** One entry that has a public key: find, refresh or build, save. *)
Definition step (server : Document) (peerConfig : Codec.Fields)
    (fresh : string * Z) (now : Z) : M Document :=
  do found <- Peer.findOne
    [Eq "publicKey" (JStr (default "" (peerConfig !! "PublicKey")));
     Eq "server" (Service.idOf server)];
  do peer <-
    match found with
    | None => Service.newPeerFromConfig server peerConfig fresh.1 fresh.2 now
    | Some peer => ret (Service.refreshPeer peerConfig peer)
    end;
  Peer.save now None peer.

End Frame.

(** ** The round trip of the configuration text *)

Module RoundTrip.
Import Mongo.






(** A line [key = value] of a configuration text. *)
Definition fieldLine (kv : string * string) : string :=
  kv.1 +:+ " = " +:+ kv.2.

(** The text of an interface section with the given fields. *)
Definition interfaceText (kvs : list (string * string)) : string :=
  Js.join ("[Interface]" :: (fieldLine <$> kvs)) Js.nl.

Definition hasNewline (v : string) : bool := Js.includes v Js.nl.

(** No white space at either end. *)
Definition isTrimmed (v : string) : bool :=
  (Js.trimStart v =? v) && (Js.trimEnd v =? v).

(** A key the parser reads as it is written: it starts a line that is
    neither a section header nor a comment, and it has no '=' and no
    white space around it. *)
Definition plainKey (key : string) : bool :=
  match key with
  | String c _ =>
      negb (Js.isSpace c) && negb (Ascii.eqb "[" c) && negb (Ascii.eqb "#" c)
  | EmptyString => false
  end
  && negb (Js.includes key "=") && (Js.trimEnd key =? key)
  && negb (hasNewline key).

(** A value the parser reads as it is written; it may hold any '='. *)
Definition plainValue (v : string) : bool :=
  negb (v =? "") && isTrimmed v && negb (hasNewline v).

Definition plainField (kv : string * string) : bool :=
  plainKey kv.1 && plainValue kv.2.

(** The object the assignments [m[key] = value] build, first to last. *)
Definition bindings (kvs : list (string * string)) (m : Codec.Fields) : Codec.Fields :=
  fold_left (fun m kv => <[kv.1 := kv.2]> m) kvs m.




End RoundTrip.

(** ** Reading a configuration text *)

Module Reading.
Import Mongo.


(** A line the parser passes over: blank, a comment, or a bracketed
    header that is neither of the two it knows. *)
Definition ignored (line : string) : bool :=
  let trimmed := Js.trim line in
  (trimmed =? "") || Js.startsWith trimmed "#"
  || (Js.startsWith trimmed "[" && Js.endsWith trimmed "]"
      && negb (trimmed =? "[Interface]") && negb (trimmed =? "[Peer]")).

(** The number of peer headers among the lines. *)
Definition peerHeaders (lines : list string) : nat :=
  length (List.filter (fun line => Js.trim line =? "[Peer]") lines).

(** The keys and values of the lines [Server.getConfigContent] writes
    under the interface header. *)
Definition configFields (doc : Document) : list (string * string) :=
  ([("Address", template (get "address" doc));
    ("ListenPort", template (get "listenPort" doc));
    ("PrivateKey", template (get "privateKey" doc))]
   ++ (if truthy (get "mtu" doc) then [("MTU", template (get "mtu" doc))] else [])
   ++ match get "dns" doc with
      | Some (JList (d :: ds)) => [("DNS", Js.join (d :: ds) ", ")]
      | _ => []
      end
   ++ (if negb (truthy (get "enableIPv6" doc)) then [("DisableIPv6", "true")] else [])
  )%list.

End Reading.

(** ** Documents and the records they were read from *)

Module Stored.
Import Mongo.

(** What [save] writes for [doc] over the record [stored] is what [doc]
    holds, on every path the projection has not hidden. *)
Definition Faithful (hidden : list string) (stored : Doc) (doc : Document) : Prop :=
  isNew doc = false
  /\ forall path, path ∉ hidden -> writeFields doc stored !! path = get path doc.

(** The paths the [pre("save")] middleware of the Peer model may
    assign. *)
Definition maintained : list string :=
  ["updatedAt"; "serverId"; "firstSeen"; "connectionCount"; "lastSeen";
   "totalUptime"; "mtu"; "keyRotationDate"].

(** [doc'] is [doc] after assignments to paths of [paths] only. *)
Definition Assigned (paths : list string) (doc doc' : Document) : Prop :=
  isNew doc' = isNew doc
  /\ (forall path, path ∉ paths -> get path doc' = get path doc)
  /\ (forall hidden stored, Faithful hidden stored doc -> Faithful hidden stored doc').

End Stored.

(** ** Profiles created in bulk *)

Module Bulk.
Import Mongo.

(** [doc] is what [save] returns for a profile created in the loop of
    [bulkCreateForISP] with the given [mtu]. *)
Definition made (isp : string) (now : Z) (doc : Document) (mtu : Z) : Prop :=
  exists range oid,
    doc = saved (set "updatedAt" (JDate now) (MTUProfile.newProfile isp mtu range oid now)).

(** No record of [coll], and no earlier document of [docs], has the
    [_id] of a document of [docs]. *)
Definition fresh (coll : list Doc) (docs : list Document) : Prop :=
  forall k doc, docs !! k = Some doc ->
    forall e, e ∈ (coll ++ (fields <$> take k docs))%list -> e !! "_id" <> get "_id" doc.

(** What the second middleware of the profile model does to the other
    records when [i] of provider [isp] becomes the default. *)
Definition cleared (isp : string) (i : JValue) (now : Z) (d : Doc) : Doc :=
  if matches [Eq "isp" (JStr isp); Ne "_id" i] d
  then <["isDefault" := JBool false]> {["updatedAt" := JDate now]} ∪ d
  else d.

End Bulk.

(** ** Concrete stores used in scenarios *)

Module Scenario.
Import Mongo.

Definition server (oid : Z) (interfaceName address : string) (rest : Doc) : Doc :=
  <["_id" := JId oid]> (<["interfaceName" := JStr interfaceName]>
  (<["address" := JStr address]> (<["privateKey" := JStr "c2VydmVyLXNlY3JldA=="]>
  (<["publicKey" := JStr "c2VydmVyLXB1YmxpYw=="]> (rest ∪ Server.defaults 0))))).

Definition peer (oid server : Z) (key status assignedIP : string) (rest : Doc) : Doc :=
  <["_id" := JId oid]> (<["server" := JId server]> (<["publicKey" := JStr key]>
  (<["privateKey" := JStr ("secret-of-" +:+ key)]> (<["status" := JStr status]>
  (<["assignedIP" := JStr assignedIP]> (<["mtu" := JInt 1420]>
  (rest ∪ Peer.defaults 0))))))).

(** Interface wgA on 10.5.0.0/24 with peers on .2 to .6. *)
Definition wgA : Doc := server 1 "wg1" "10.5.0.1/24" ∅.

Definition storeA : Store :=
  {| servers := [wgA];
     peers := [peer 11 1 "k2" "pending" "10.5.0.2" ∅;
               peer 12 1 "k3" "pending" "10.5.0.3" ∅;
               peer 13 1 "k4" "pending" "10.5.0.4" ∅;
               peer 14 1 "k5" "pending" "10.5.0.5" ∅;
               peer 15 1 "k6" "pending" "10.5.0.6" ∅];
     profiles := [] |}.

(** An interface whose subnet is 10.5.0.128/25, with no peer yet. *)
Definition wgNarrow : Doc := server 2 "wg2" "10.5.0.129/25" ∅.

Definition storeNarrow : Store :=
  {| servers := [wgNarrow]; peers := []; profiles := [] |}.

(** An interface whose record has had its MTU cleared ([mtu: null]). *)
Definition wgUnset : Doc := server 3 "wg3" "10.7.0.1/24" {["mtu" := JNull]}.

Definition storeUnset : Store :=
  {| servers := [wgUnset]; peers := []; profiles := [] |}.

Definition profile (oid : Z) (name isp : string) (mtu : Z) (isDefault : bool) : Doc :=
  <["_id" := JId oid]> (<["name" := JStr name]> (<["isp" := JStr isp]>
  (<["mtu" := JInt mtu]> (<["isDefault" := JBool isDefault]> (MTUProfile.defaults 0))))).

(** Three profiles of provider MPT, the first one default, and one of
    another provider. *)
Definition storeProfiles : Store :=
  {| servers := []; peers := [];
     profiles := [profile 31 "MPT_MTU_1380" "MPT" 1380 true;
                  profile 32 "MPT_MTU_1400" "MPT" 1400 false;
                  profile 33 "MPT_MTU_1420" "MPT" 1420 false;
                  profile 34 "ATOM_MTU_1380" "ATOM" 1380 true] |}.

(** Interface wg1 with one peer that has never connected. *)
Definition storePending : Store :=
  {| servers := [server 1 "wg1" "10.5.0.1/24" {["peerCount" := JInt 1]}];
     peers := [peer 11 1 "k2" "pending" "10.5.0.2" ∅];
     profiles := [] |}.

(** What [wg show wg1] prints when peer k2 has shaken hands. *)
Definition wgShowK2 : string :=
  Js.join
    ["interface: wg1"; "  public key: c2VydmVyLXB1YmxpYw=="; "  listening port: 51820";
     ""; "peer: k2"; "  endpoint: 203.0.113.7:40000"; "  allowed ips: 10.5.0.2/32";
     "  latest handshake: 12 seconds ago";
     "  transfer: 1.21 KiB received, 3.40 KiB sent"] Js.nl.

(** Interface wg1, active since t = 1000 ms, with two connected peers
    and consistent counters. *)
Definition storeRunning : Store :=
  {| servers :=
       [server 1 "wg1" "10.5.0.1/24"
          (<["status" := JStr "active"]> (<["lastStartTime" := JDate 1000]>
          (<["peerCount" := JInt 2]> {["activePeers" := JInt 2]})))];
     peers := [peer 11 1 "k2" "connected" "10.5.0.2" ∅;
               peer 12 1 "k3" "connected" "10.5.0.3" ∅];
     profiles := [] |}.



Definition shellOk : Service.Shell :=
  {| Service.wgSetOk := true; Service.wgSaveOk := true |}.

(** Every [ip link set] works and every ping is lost. *)
Definition deafPath (i : nat) : Service.Candidate :=
  {| Service.setOk := true;
     Service.probe := Some [Probe.Dead; Probe.Dead; Probe.Dead] |}.

(** Nothing works: the MTU cannot be set and the prober cannot be loaded. *)
Definition brokenPath (i : nat) : Service.Candidate :=
  {| Service.setOk := false; Service.probe := None |}.




(** The fields of a configuration as the serializer writes them; the
    private key ends in two '=' characters. *)
Definition fieldsCanonical : list (string * string) :=
  [("Address", "10.8.0.1/24"); ("ListenPort", "51820");
   ("PrivateKey", "cHJpdmF0ZS1rZXktd2l0aC1wYWRkaW5nPT0=");
   ("MTU", "1380"); ("DNS", "1.1.1.1, 8.8.8.8")].



(** The value an operation returned, for naming it in an example. *)
Definition valueOf {A} (fallback : A) (r : Result A * Store) : A :=
  match r.1 with
  | Ok a => a
  | Throw _ => fallback
  end.

(** Whether an operation returned. *)
Definition isOk {A} (r : Result A * Store) : bool :=
  match r.1 with
  | Ok _ => true
  | Throw _ => false
  end.

Definition blank : Document := load [] ∅.

(** A profile of provider MPT with the results of a test. *)
Definition tested (oid : Z) (name : string) (latency loss rate : Q) : Doc :=
  <["testResults.averageLatency" := JNum latency]>
  (<["testResults.packetLoss" := JNum loss]>
  (<["testResults.pingSuccessRate" := JNum rate]> (profile oid name "MPT" 1380 false))).


(** One profile of provider ATOM, made by hand and flagged default. *)
Definition storeCustom : Store :=
  {| servers := []; peers := [];
     profiles := [profile 51 "ATOM_HOME" "ATOM" 1360 true] |}.

(** [wg set] fails. *)
Definition shellDown : Service.Shell :=
  {| Service.wgSetOk := false; Service.wgSaveOk := true |}.

End Scenario.

(** ** Proof automation *)

(** Membership of a literal list of paths. *)
Ltac inlist :=
  repeat first [ apply list_elem_of_here | apply list_elem_of_further ].

(** Non-membership of a literal list of paths. *)
Ltac notinlist :=
  let H := fresh "Hin" in
  intros H;
  repeat (apply elem_of_cons in H as [H|H]; [discriminate H|]);
  apply elem_of_nil in H; exact H.

(** A closed equation between values with decidable equality. *)
Ltac decided := apply (bool_decide_unpack _); vm_compute; exact I.

(* ================================================================= *)
(** * Properties *)

Module ProbeFacts.
Import Probe.

Lemma Qltb_lt (x y : Q) : Qltb x y = true <-> (x < y)%Q.
Proof.
  unfold Qltb. rewrite negb_true_iff.
  split.
  - intros H. apply Qnot_le_lt. intros Hle.
    apply Qle_bool_iff in Hle. congruence.
  - intros H. destruct (Qle_bool y x) eqn:E; [|reflexivity].
    apply Qle_bool_iff in E. exfalso. eapply Qlt_not_le; eauto.
Qed.

Lemma Qltb_ge (x y : Q) : Qltb x y = false <-> (y <= x)%Q.
Proof.
  unfold Qltb. rewrite negb_false_iff. apply Qle_bool_iff.
Qed.

Lemma clamp_max_min (x : Q) : (Qmax 0 (Qmin 100 x) == clamp 0 100 x)%Q.
Proof.
  unfold clamp.
  destruct (Qltb x 0) eqn:E0.
  - apply Qltb_lt in E0.
    rewrite Q.max_l; [reflexivity|].
    apply Qle_trans with x; [apply Q.le_min_r|]. now apply Qlt_le_weak.
  - apply Qltb_ge in E0.
    destruct (Qltb 100 x) eqn:E1.
    + apply Qltb_lt in E1.
      rewrite Q.min_l by now apply Qlt_le_weak.
      now rewrite Q.max_r.
    + apply Qltb_ge in E1.
      rewrite Q.min_r by assumption.
      now rewrite Q.max_r.
Qed.

(** C6.  For every probe test result, [calculateMTUScore] is
    clamp(0, 100, 50 + latencyBonus − packetLoss), with a latency bonus of
    30 / 20 / 10 / 0 for an average latency under 50 / 100 / 200 / any
    number of milliseconds, and a result whose probe did not succeed
    scores 0. *)
Theorem calculateMTUScore_spec (testResult : TestResult) :
  (calculateMTUScore testResult == specScore testResult)%Q.
Proof.
  unfold calculateMTUScore, specScore, latencyBonus.
  destruct (success testResult); simpl; [|reflexivity].
  rewrite clamp_max_min.
  destruct (Qltb (latency testResult) 50); [reflexivity|].
  destruct (Qltb (latency testResult) 100); [reflexivity|].
  destruct (Qltb (latency testResult) 200); reflexivity.
Qed.

(** The scenario of the specification: candidates whose three probes
    all answer in 40 ms and in 90 ms score 80 and 70, and one whose
    probes are all lost scores 0. *)
Example scores_of_three_candidates :
  (calculateMTUScore (performMTUTest [Alive 40; Alive 40; Alive 40]) == 80)%Q
  /\ (calculateMTUScore (performMTUTest [Alive 90; Alive 90; Alive 90]) == 70)%Q
  /\ (calculateMTUScore (performMTUTest [Dead; Dead; Dead]) == 0)%Q.
Proof. repeat split; vm_compute; reflexivity. Qed.

End ProbeFacts.

(** ** Documents and queries *)

Module MongoFacts.
Import Mongo.

Lemma get_set_eq (path : string) (v : JValue) (doc : Document) :
  get path (set path v doc) = Some v.
Proof.
  unfold set, get.
  destruct (negb (isNew doc) && bool_decide (fields doc !! path = Some v)) eqn:E; simpl.
  - apply andb_true_iff in E as [_ E]. now apply bool_decide_eq_true in E.
  - apply lookup_insert_eq.
Qed.

Lemma get_set_ne (path other : string) (v : JValue) (doc : Document) :
  path <> other -> get other (set path v doc) = get other doc.
Proof.
  intros Hne. unfold set, get.
  destruct (negb (isNew doc) && bool_decide (fields doc !! path = Some v)); simpl.
  - reflexivity.
  - now apply lookup_insert_ne.
Qed.

Lemma isNew_set (path : string) (v : JValue) (doc : Document) :
  isNew (set path v doc) = isNew doc.
Proof. unfold set. now destruct (_ && _). Qed.

Lemma lookup_select_ne (excluded : list string) (d : Doc) (path : string) :
  path ∉ excluded -> select excluded d !! path = d !! path.
Proof.
  induction excluded as [|k ks IH]; simpl; intros Hnot; [reflexivity|].
  apply not_elem_of_cons in Hnot as [Hne Hnot].
  rewrite lookup_delete_ne by congruence. now apply IH.
Qed.

Lemma lookup_select_eq (excluded : list string) (d : Doc) (path : string) :
  path ∈ excluded -> select excluded d !! path = None.
Proof.
  induction excluded as [|k ks IH]; simpl; intros Hin.
  - now apply elem_of_nil in Hin.
  - destruct (decide (k = path)) as [->|Hne].
    + apply lookup_delete_eq.
    + rewrite lookup_delete_ne by assumption.
      apply IH. apply elem_of_cons in Hin as [Heq|Hin]; congruence.
Qed.

Lemma matches_cons (c : Cond) (q : list Cond) (d : Doc) :
  matches (c :: q) d = holds c d && matches q d.
Proof. reflexivity. Qed.

Lemma holds_Eq (path : string) (v : JValue) (d : Doc) :
  holds (Eq path v) d = true <-> d !! path = Some v.
Proof. simpl. apply bool_decide_eq_true. Qed.

Lemma elem_of_find (q : list Cond) (coll : list Doc) (d : Doc) :
  d ∈ find q coll <-> d ∈ coll /\ matches q d = true.
Proof.
  unfold find. rewrite !list_elem_of_In. apply filter_In.
Qed.

Lemma modified_set (path : string) (v : JValue) (doc : Document) :
  modified doc ⊆ modified (set path v doc)
  /\ modified (set path v doc) ⊆ {[path]} ∪ modified doc.
Proof.
  unfold set. destruct (_ && _); simpl; set_solver.
Qed.

Lemma isModified_set_keep (path other : string) (v : JValue) (doc : Document) :
  isModified other doc = true -> isModified other (set path v doc) = true.
Proof.
  unfold isModified. rewrite !bool_decide_eq_true.
  intros Hin. now apply modified_set.
Qed.

Lemma isModified_set_ne (path other : string) (v : JValue) (doc : Document) :
  path <> other -> isModified other (set path v doc) = isModified other doc.
Proof.
  intros Hne. unfold isModified. apply bool_decide_ext.
  pose proof (modified_set path v doc) as [Hlow Hup]. split.
  - intros Hin. apply Hup in Hin.
    apply elem_of_union in Hin as [Hin|Hin]; [|assumption].
    apply elem_of_singleton in Hin. congruence.
  - apply Hlow.
Qed.

Lemma writeFields_lookup (doc : Document) (stored : Doc) (path : string) :
  writeFields doc stored !! path =
  if decide (path ∈ modified doc) then fields doc !! path else stored !! path.
Proof.
  unfold writeFields. destruct (decide (path ∈ modified doc)) as [Hin|Hnot].
  - rewrite lookup_union_l.
    + destruct (fields doc !! path) as [v|] eqn:Hv.
      * now apply map_lookup_filter_Some_2.
      * apply map_lookup_filter_None_2. now left.
    + apply map_lookup_filter_None_2. right. intros v _ Hout. exact (Hout Hin).
  - rewrite lookup_union_r.
    + destruct (stored !! path) as [v|] eqn:Hv.
      * now apply map_lookup_filter_Some_2.
      * apply map_lookup_filter_None_2. now left.
    + apply map_lookup_filter_None_2. right. intros v _ Hin. exact (Hnot Hin).
Qed.

Lemma matches_byId (v : JValue) (d : Doc) :
  matches [Eq "_id" v] d = true <-> d !! "_id" = Some v.
Proof.
  rewrite matches_cons, andb_true_r. apply holds_Eq.
Qed.



Lemma updateFirst_absent (coll : list Doc) (q : list Cond) (f : Doc -> Doc) :
  (forall d, d ∈ coll -> matches q d = false) -> updateFirst q f coll = coll.
Proof.
  induction coll as [|e rest IH]; intros Hnone; cbn [updateFirst]; [reflexivity|].
  rewrite Hnone by apply list_elem_of_here.
  f_equal. apply IH. intros d Hd. apply Hnone. now apply list_elem_of_further.
Qed.

Lemma findOne_Some (q : list Cond) (coll : list Doc) (d : Doc) :
  Mongo.findOne q coll = Some d -> d ∈ coll /\ matches q d = true.
Proof.
  intros Hfind. apply find_some in Hfind as [Hin Hq].
  split; [now apply list_elem_of_In|assumption].
Qed.


End MongoFacts.

(** ** Address allocation *)

Module AllocFacts.
Import Mongo MongoFacts AllocSpec.

Lemma scan_first_free (count : nat) (i : N) (parts : list (option N))
    (peers : list Document) :
  match Peer.scan count i parts peers with
  | Ok ip =>
      exists k, (i <= k < i + N.of_nat count)%N
                /\ ip = Peer.candidateIP parts k
                /\ isUsed peers ip = false
                /\ forall j, (i <= j < k)%N -> isUsed peers (Peer.candidateIP parts j) = true
  | Throw message =>
      message = "No available IP addresses in the subnet"
      /\ forall j, (i <= j < i + N.of_nat count)%N ->
           isUsed peers (Peer.candidateIP parts j) = true
  end.
Proof.
  revert i. induction count as [|count IH]; intros i; simpl.
  - split; [reflexivity|]. intros j Hj. lia.
  - fold (isUsed peers (Peer.candidateIP parts i)).
    destruct (isUsed peers (Peer.candidateIP parts i)) eqn:Hused.
    + specialize (IH (i + 1)%N).
      destruct (Peer.scan count (i + 1) parts peers) as [ip|message].
      * destruct IH as (k & Hk & -> & Hfree & Hbelow).
        exists k. repeat split; try lia; try assumption.
        intros j Hj. destruct (N.eq_dec j i) as [->|Hne]; [assumption|].
        apply Hbelow. lia.
      * destruct IH as [-> Hall]. split; [reflexivity|].
        intros j Hj. destruct (N.eq_dec j i) as [->|Hne]; [assumption|].
        apply Hall. lia.
    + exists i. repeat split; try lia; try assumption.
Qed.

Lemma isUsed_assignedTo (st : Store) (server : Document) (ip : string) :
  isUsed (load Peer.hidden <$> Mongo.find [Eq "server" (Service.idOf server)] (peers st)) ip
    = true
  <-> assignedTo st server ip.
Proof.
  unfold isUsed, assignedTo. rewrite existsb_exists. split.
  - intros (doc & Hin & Hip).
    apply list_elem_of_In, list_elem_of_fmap in Hin as (d & -> & Hd).
    apply elem_of_find in Hd as [Hd Hq].
    rewrite matches_cons, andb_true_iff, holds_Eq in Hq.
    apply bool_decide_eq_true in Hip. unfold get, load in Hip; simpl in Hip.
    exists d. repeat split; [assumption|tauto|].
    rewrite lookup_delete_ne, lookup_delete_ne in Hip by discriminate.
    assumption.
  - intros (d & Hd & Hserver & Hip).
    exists (load Peer.hidden d). split.
    + apply list_elem_of_In, list_elem_of_fmap. exists d. split; [reflexivity|].
      apply elem_of_find. split; [assumption|].
      rewrite matches_cons, andb_true_iff, holds_Eq. now split.
    + apply bool_decide_eq_true. unfold get, load; simpl.
      rewrite lookup_delete_ne, lookup_delete_ne by discriminate.
      assumption.
Qed.

Lemma getNextAvailableIP_unfold (server : Document) (st : Store) :
  Peer._getNextAvailableIP server st =
  (Peer.scan 253 2 (Peer.serverParts (template (get "address" server)))
     (load Peer.hidden <$> Mongo.find [Eq "server" (Service.idOf server)] (peers st)),
   st).
Proof. reflexivity. Qed.

(** C7, as amended.  The allocator keeps the first three numbers of the
    interface address and scans the last one upward from 2 to 254: it
    returns the first such address that no persisted peer of the
    interface holds, it throws exactly when all 253 of them are held, it
    leaves the store alone, and the service's [generateNextIP] is the
    same function.  On 10.5.0.0/24 with .2 to .6 taken it returns
    10.5.0.7. *)
Theorem next_address_is_first_free (server : Document) (st : Store) :
  let parts := Peer.serverParts (template (get "address" server)) in
  let outcome := Peer._getNextAvailableIP server st in
  (forall ip, outcome.1 = Ok ip ->
     exists i, (2 <= i <= 254)%N /\ ip = Peer.candidateIP parts i
       /\ ~ assignedTo st server ip
       /\ forall j, (2 <= j < i)%N -> assignedTo st server (Peer.candidateIP parts j))
  /\ ((exists message, outcome.1 = Throw message) <->
      forall i, (2 <= i <= 254)%N -> assignedTo st server (Peer.candidateIP parts i))
  /\ outcome.2 = st
  /\ Service.generateNextIP server st = outcome
  /\ Peer._getNextAvailableIP (load Server.hidden Scenario.wgA) Scenario.storeA
     = (Ok "10.5.0.7", Scenario.storeA).
Proof.
  intros parts outcome.
  assert (Peer._getNextAvailableIP (load Server.hidden Scenario.wgA) Scenario.storeA
          = (Ok "10.5.0.7", Scenario.storeA)) as Hscenario
    by (vm_compute; reflexivity).
  subst outcome. rewrite getNextAvailableIP_unfold.
  cbn [fst snd].
  pose proof (scan_first_free 253 2 parts
    (load Peer.hidden <$> Mongo.find [Eq "server" (Service.idOf server)] (peers st)))
    as Hscan.
  fold parts.
  destruct (Peer.scan 253 2 parts _) as [ip|message] eqn:Hres.
  - destruct Hscan as (k & Hk & -> & Hfree & Hbelow).
    split; [|split; [|split; [|split]]]; try assumption; try reflexivity.
    + intros ip [= <-]. exists k. repeat split; try lia.
      * intros Hassigned. apply isUsed_assignedTo in Hassigned. congruence.
      * intros j Hj. apply isUsed_assignedTo, Hbelow. lia.
    + split.
      * intros [message [=]].
      * intros Hall. exfalso.
        assert (assignedTo st server (Peer.candidateIP parts k)) as Hassigned
          by (apply Hall; lia).
        apply isUsed_assignedTo in Hassigned. congruence.
    + rewrite <- Hres. reflexivity.
  - destruct Hscan as [-> Hall].
    split; [|split; [|split; [|split]]]; try assumption; try reflexivity.
    + intros ip [=].
    + split.
      * intros _ i Hi. apply isUsed_assignedTo, Hall. lia.
      * intros _. eauto.
    + rewrite <- Hres. reflexivity.
Qed.

(** C7, the claim as stated, fails where the subnet is not a /24: on
    10.5.0.128/25 the second usable address is 10.5.0.130, and the scan
    returns 10.5.0.2, which is outside the subnet. *)
Lemma allocation_ignores_prefix_length :
  get "address" (load Server.hidden Scenario.wgNarrow) = Some (JStr "10.5.0.129/25")
  /\ secondUsable "10.5.0.129/25" = Some "10.5.0.130"
  /\ Peer._getNextAvailableIP (load Server.hidden Scenario.wgNarrow) Scenario.storeNarrow
     = (Ok "10.5.0.2", Scenario.storeNarrow)
  /\ ~ startsAtSecondUsable (load Server.hidden Scenario.wgNarrow) Scenario.storeNarrow.
Proof.
  split; [reflexivity|]. split; [vm_compute; reflexivity|].
  split; [vm_compute; reflexivity|].
  intros Hclaim.
  destruct Hclaim as (ip & Hsecond & Hscan).
  - intros ip (d & Hd & _). simpl in Hd. now apply elem_of_nil in Hd.
  - vm_compute in Hsecond. vm_compute in Hscan. congruence.
Qed.

End AllocFacts.

(** ** MTU sweep *)

Module SweepFacts.
Import Mongo MongoFacts.

Lemma findOne_server (q : list Cond) (st : Store) :
  Server.findOne q st = (Ok (load Server.hidden <$> Mongo.findOne q (servers st)), st).
Proof. reflexivity. Qed.

Lemma get_load_server (srv : Doc) (path : string) :
  path <> "privateKey" -> get path (load Server.hidden srv) = srv !! path.
Proof.
  intros Hne. unfold get, load; simpl. now rewrite lookup_delete_ne by congruence.
Qed.

(** A failing candidate never aborts the sweep: every candidate yields
    one entry, and one whose probe threw scores 0. *)
Lemma sweep_total (i : nat) (mtuValues : list Z) (env : nat -> Service.Candidate)
    (link : Z) :
  length (Service.sweep i mtuValues env link).1 = length mtuValues.
Proof.
  revert i link. induction mtuValues as [|mtu rest IH]; intros i link; simpl.
  - reflexivity.
  - destruct (Service.tryCandidate (env i) mtu link) as [r link'].
    specialize (IH (S i) link').
    destruct (Service.sweep (S i) rest env link') as [rs link'']. simpl in *.
    now rewrite IH.
Qed.

(** C5, as amended.  Whatever the candidate list and whichever candidate
    probes throw or fail, [testMTU] returns, and it leaves the path at
    the MTU stored in the interface record (the value the code calls
    original), provided that value is set and non-zero and the final
    [ip link set] succeeds.  So a path that had the recorded MTU before
    the sweep has it again after. *)
Theorem testMTU_restores_recorded_mtu (interfaceName : string)
    (mtuValues : option (list Z)) (env : nat -> Service.Candidate) (link : Z)
    (st : Store) (srv : Doc) (m : Z) :
  Mongo.findOne (Service.byName interfaceName) (servers st) = Some srv ->
  srv !! "mtu" = Some (JInt m) ->
  m <> 0%Z ->
  (exists report,
     Service.testMTU interfaceName mtuValues env true link st = (Ok report, m)
     /\ length (Service.results report)
        = length (default Service.defaultMTUValues mtuValues))
  /\ (link = m -> Stated.restoresPathMTU interfaceName mtuValues env true link st).
Proof.
  intros Hfound Hmtu Hnz.
  assert (exists report,
     Service.testMTU interfaceName mtuValues env true link st = (Ok report, m)
     /\ length (Service.results report)
        = length (default Service.defaultMTUValues mtuValues)) as Hrun.
  { unfold Service.testMTU. rewrite findOne_server, Hfound. cbn [fmap option_fmap option_map].
    rewrite get_load_server by discriminate. rewrite Hmtu.
    pose proof (sweep_total 0 (default Service.defaultMTUValues mtuValues) env link)
      as Hlen.
    destruct (Service.sweep 0 _ env link) as [results link'].
    cbn [truthy]. destruct (Z.eqb_spec m 0) as [->|_]; [contradiction|].
    cbn [negb Service.setTemporaryMTU].
    eexists. split; [reflexivity|]. exact Hlen. }
  split; [exact Hrun|].
  intros ->. destruct Hrun as (report & Hrun & _).
  unfold Stated.restoresPathMTU. now rewrite Hrun.
Qed.

Lemma testMTU_restores_recorded_mtu_witness :
  (exists report,
     Service.testMTU "wg1" (Some [1280; 1400; 1500]%Z) Scenario.brokenPath true
       1420%Z Scenario.storeA = (Ok report, 1420%Z)
     /\ length (Service.results report) = 3%nat)
  /\ (1420%Z = 1420%Z ->
      Stated.restoresPathMTU "wg1" (Some [1280; 1400; 1500]%Z) Scenario.brokenPath
        true 1420%Z Scenario.storeA).
Proof.
  apply (testMTU_restores_recorded_mtu "wg1" (Some [1280; 1400; 1500]%Z)
           Scenario.brokenPath 1420%Z Scenario.storeA Scenario.wgA 1420%Z).
  - reflexivity.
  - reflexivity.
  - lia.
Defined.

(** C5, the claim as stated, fails: the restoration is guarded by
    [if (originalMTU)].  With the record's MTU cleared, a sweep over the
    single candidate 1280 leaves a path that was at 1420 at 1280. *)
Lemma sweep_without_recorded_mtu_is_not_undone :
  (Service.testMTU "wg3" (Some [1280%Z]) Scenario.deafPath true 1420%Z
     Scenario.storeUnset).2 = 1280%Z
  /\ ~ Stated.restoresPathMTU "wg3" (Some [1280%Z]) Scenario.deafPath true 1420%Z
         Scenario.storeUnset.
Proof.
  split.
  - vm_compute. reflexivity.
  - unfold Stated.restoresPathMTU. vm_compute. discriminate.
Qed.

End SweepFacts.

(** ** Backup *)

Module BackupFacts.
Import Mongo MongoFacts SweepFacts.






End BackupFacts.

(** ** Default MTU profiles *)

Module ProfileFacts.
Import Mongo MongoFacts Stated.

Lemma cleared_lookup (q : list Cond) (now : Z) (d : Doc) (path : string) :
  path <> "isDefault" -> path <> "updatedAt" ->
  (if matches q d
   then <["isDefault" := JBool false]> {["updatedAt" := JDate now]} ∪ d
   else d) !! path = d !! path.
Proof.
  intros Hd Hu. destruct (matches q d); [|reflexivity].
  rewrite lookup_union_r; [reflexivity|].
  rewrite lookup_insert_ne by congruence. now rewrite lookup_singleton_ne by congruence.
Qed.

Lemma cleared_not_default (now : Z) (d : Doc) :
  (<["isDefault" := JBool false]> {["updatedAt" := JDate now]} ∪ d) !! "isDefault"
  = Some (JBool false).
Proof.
  erewrite lookup_union_Some_l; [reflexivity|]. apply lookup_insert_eq.
Qed.

Lemma markDefault_facts (d0 : Doc) (now : Z) :
  d0 !! "isDefault" <> Some (JBool true) ->
  let doc := set "updatedAt" (JDate now) (markDefault d0) in
  isNew doc = false
  /\ get "isDefault" doc = Some (JBool true)
  /\ isModified "isDefault" doc = true
  /\ isModified "isp" doc = false
  /\ isModified "_id" doc = false
  /\ isModified "name" doc = false
  /\ get "isp" doc = d0 !! "isp"
  /\ get "_id" doc = d0 !! "_id".
Proof.
  intros Hnot doc. subst doc. unfold markDefault.
  assert (set "isDefault" (JBool true) (load [] d0)
          = {| fields := <["isDefault" := JBool true]> d0;
               modified := {["isDefault"]} ∪ ∅; isNew := false |}) as ->.
  { unfold set, load; simpl. rewrite bool_decide_eq_false_2 by assumption. reflexivity. }
  repeat split.
  - now rewrite isNew_set.
  - rewrite get_set_ne by discriminate. apply lookup_insert_eq.
  - apply isModified_set_keep. apply bool_decide_eq_true. set_solver.
  - rewrite isModified_set_ne by discriminate. apply bool_decide_eq_false.
    intros [H%elem_of_singleton|H%elem_of_empty]%elem_of_union; [discriminate|done].
  - rewrite isModified_set_ne by discriminate. apply bool_decide_eq_false.
    intros [H%elem_of_singleton|H%elem_of_empty]%elem_of_union; [discriminate|done].
  - rewrite isModified_set_ne by discriminate. apply bool_decide_eq_false.
    intros [H%elem_of_singleton|H%elem_of_empty]%elem_of_union; [discriminate|done].
  - rewrite get_set_ne by discriminate. unfold get; simpl.
    now rewrite lookup_insert_ne by discriminate.
  - rewrite get_set_ne by discriminate. unfold get; simpl.
    now rewrite lookup_insert_ne by discriminate.
Qed.



End ProfileFacts.

(** ** Counters: what the code does at the inputs where it departs from
    the specification *)

Module CounterFacts.
Import Mongo MongoFacts.

(** C1.  A pending peer whose key is in the live set: [updatePeersStatus]
    sets status, last-handshake, last-seen and first-seen, and the stored
    connection counter goes from 0 to 2, once by the loop body and once
    more by the model's [pre("save")] middleware. *)
Theorem pending_to_connected_counts_twice :
  let st' := (Service.updatePeersStatus "wg1" (Some Scenario.wgShowK2) 7000
                Scenario.storePending).2 in
  elements (Service.parseWgShow Scenario.wgShowK2) = ["k2"]
  /\ length (peers Scenario.storePending) = 1%nat
  /\ Stated.field (peers Scenario.storePending) 0 "publicKey" = Some (JStr "k2")
  /\ Stated.field (peers Scenario.storePending) 0 "status" = Some (JStr "pending")
  /\ Stated.field (peers Scenario.storePending) 0 "connectionCount" = Some (JInt 0)
  /\ length (peers st') = 1%nat
  /\ Stated.field (peers st') 0 "status" = Some (JStr "connected")
  /\ Stated.field (peers st') 0 "lastHandshake" = Some (JDate 7000)
  /\ Stated.field (peers st') 0 "lastSeen" = Some (JDate 7000)
  /\ Stated.field (peers st') 0 "firstSeen" = Some (JDate 7000)
  /\ Stated.field (peers st') 0 "connectionCount" = Some (JInt 2).
Proof.
  vm_compute. repeat split; reflexivity.
Qed.

(** C2.  Stopping wg1 at t = 61000 ms with two connected peers: both
    peers become disconnected and the uptime grows by the 60 seconds
    since the start, but the interface record still says two active
    peers, since [updateMany] runs no middleware and nothing recounts. *)
Theorem stop_leaves_activePeers_stale :
  let st' := (Service.stopInterface "wg1" true 61000 Scenario.storeRunning).2 in
  Stated.field (servers Scenario.storeRunning) 0 "activePeers" = Some (JInt 2)
  /\ Stated.census 1 [Eq "status" (JStr "connected"); Eq "enabled" (JBool true)]
       Scenario.storeRunning = 2%Z
  /\ length (peers st') = 2%nat
  /\ Stated.field (peers st') 0 "status" = Some (JStr "disconnected")
  /\ Stated.field (peers st') 1 "status" = Some (JStr "disconnected")
  /\ Stated.census 1 [Eq "status" (JStr "connected"); Eq "enabled" (JBool true)] st'
     = 0%Z
  /\ Stated.field (servers st') 0 "status" = Some (JStr "inactive")
  /\ Stated.field (servers st') 0 "totalUptime" = Some (JNum (60000 # 1000))
  /\ Stated.field (servers st') 0 "activePeers" = Some (JInt 2).
Proof.
  vm_compute. repeat split; reflexivity.
Qed.


End CounterFacts.

(** ** Reconciliation of configuration entries *)

Module SyncFacts.
Import Mongo MongoFacts Frame.










Lemma named_kept (server : Document) (entries : list Codec.Fields) (d d' : Doc) :
  kept server entries d d' -> named server entries d' -> named server entries d.
Proof.
  intros [Hpaths _] (Hserver & e & k & He & Hkey & Hk & Hpub).
  split.
  - rewrite <- Hpaths; [assumption|]. unfold refreshed, stamped. cbn [app]. notinlist.
  - exists e, k. repeat split; try assumption.
    rewrite <- Hpaths; [assumption|]. unfold refreshed, stamped. cbn [app]. notinlist.
Qed.







Lemma get_load (hidden : list string) (d : Doc) (path : string) :
  path ∉ hidden -> get path (load hidden d) = d !! path.
Proof. intros Hout. unfold get, load; simpl. now apply lookup_select_ne. Qed.














End SyncFacts.

(** ** Strings: [split], [join] and [trim] *)

Module TextFacts.
Import Js.

Lemma append_cons (c : ascii) (a b : string) : String c a ++ b = String c (a ++ b).
Proof. reflexivity. Qed.

Lemma append_empty (s : string) : s ++ "" = s.
Proof. induction s as [|c s IH]; [reflexivity|]. now rewrite append_cons, IH. Qed.

Lemma append_assoc (a b c : string) : (a ++ b) ++ c = a ++ b ++ c.
Proof. induction a as [|x a IH]; [reflexivity|]. now rewrite !append_cons, IH. Qed.

Lemma length_append (a b : string) :
  String.length (a ++ b) = (String.length a + String.length b)%nat.
Proof. induction a as [|x a IH]; [reflexivity|]. rewrite append_cons. simpl. now rewrite IH. Qed.

Lemma prefix_empty (s : string) : String.prefix "" s = true.
Proof. now destruct s. Qed.

Lemma prefix_single (x c : ascii) (s : string) :
  String.prefix (String x "") (String c s) = Ascii.eqb x c.
Proof.
  simpl. destruct (ascii_dec x c) as [->|Hne].
  - now rewrite prefix_empty, Ascii.eqb_refl.
  - symmetry. now apply Ascii.eqb_neq.
Qed.

Lemma prefix_append (p s : string) :
  String.prefix p s = true -> exists rest, s = p ++ rest.
Proof.
  revert s. induction p as [|c p IH]; intros s Hp.
  - now exists s.
  - destruct s as [|c' s]; simpl in Hp; [discriminate|].
    destruct (ascii_dec c c') as [->|]; [|discriminate].
    destruct (IH _ Hp) as [rest ->]. now exists rest.
Qed.

(** *** [split] and [join] *)

Lemma splitGo_skip (sep t rest cur : string) :
  splitGo sep (String.length t) cur (t ++ rest) = splitGo sep 0 cur rest.
Proof. induction t as [|c t IH]; simpl; [reflexivity|exact IH]. Qed.

Lemma splitGo_not_nil (sep : string) (skip : nat) (cur s : string) :
  splitGo sep skip cur s <> [].
Proof.
  revert skip cur. induction s as [|c s IH]; intros skip cur; cbn [splitGo].
  - discriminate.
  - destruct skip; [|apply IH].
    destruct (String.prefix sep (String c s)); [discriminate|apply IH].
Qed.

Lemma join_cons (x : string) (l : list string) (sep : string) :
  l <> [] -> join (x :: l) sep = x ++ sep ++ join l sep.
Proof. destruct l; [contradiction|reflexivity]. Qed.

Lemma join_splitGo (sep : string) :
  sep <> "" ->
  forall (n : nat) (s cur : string),
    String.length s <= n -> join (splitGo sep 0 cur s) sep = cur ++ s.
Proof.
  intros Hsep. induction n as [|n IH]; intros s cur Hlen.
  - destruct s; [|simpl in Hlen; lia]. simpl. now rewrite append_empty.
  - destruct s as [|c s]; [simpl; now rewrite append_empty|].
    cbn [splitGo]. destruct (String.prefix sep (String c s)) eqn:Hp.
    + apply prefix_append in Hp as [rest Hrest].
      destruct sep as [|c0 sep']; [contradiction|].
      simpl in Hrest. injection Hrest as -> ->.
      replace (String.length (String c0 sep') - 1)%nat with (String.length sep')
        by (simpl; lia).
      rewrite splitGo_skip, join_cons by apply splitGo_not_nil.
      rewrite IH.
      * reflexivity.
      * simpl in Hlen. rewrite length_append in Hlen. lia.
    + rewrite IH by (simpl in Hlen; lia). now rewrite append_assoc.
Qed.

(** Joining the pieces of a split with the separator gives the text
    back. *)
Lemma join_split (s sep : string) : sep <> "" -> join (split s sep) sep = s.
Proof.
  intros Hsep. unfold split. destruct sep as [|c sep]; [contradiction|].
  now apply (join_splitGo (String c sep) Hsep (String.length s)).
Qed.

Lemma includes_cons (c x : ascii) (s : string) :
  includes (String c s) (String x "") = Ascii.eqb x c || includes s (String x "").
Proof. cbn [includes]. now rewrite prefix_single. Qed.

Lemma includes_append (x : ascii) (a b : string) :
  includes a (String x "") = false -> includes b (String x "") = false ->
  includes (a ++ b) (String x "") = false.
Proof.
  intros Ha Hb. induction a as [|c a IH]; [exact Hb|].
  rewrite includes_cons in Ha. apply orb_false_iff in Ha as [Hc Ha].
  change (String c a ++ b) with (String c (a ++ b)).
  rewrite includes_cons, Hc. now apply IH.
Qed.

(** Splitting at a one-character separator: a piece free of it is read
    up to its end or up to the next separator. *)
Lemma splitGo_piece (x : ascii) (piece : string) :
  includes piece (String x "") = false ->
  forall cur,
    splitGo (String x "") 0 cur piece = [cur ++ piece]
    /\ forall rest,
         splitGo (String x "") 0 cur (piece ++ String x rest)
         = (cur ++ piece) :: splitGo (String x "") 0 "" rest.
Proof.
  induction piece as [|c piece IH]; intros Hfree cur.
  - rewrite append_empty. split; [reflexivity|]. intros rest.
    change ("" ++ String x rest) with (String x rest).
    cbn [splitGo]. now rewrite prefix_single, Ascii.eqb_refl.
  - rewrite includes_cons in Hfree. apply orb_false_iff in Hfree as [Hc Hfree].
    destruct (IH Hfree (cur ++ String c "")) as [Hend Hnext].
    split; [|intros rest]; change (String c piece ++ ?t) with (String c (piece ++ t));
      cbn [splitGo]; rewrite prefix_single, Hc.
    + rewrite Hend. now rewrite append_assoc.
    + rewrite Hnext. now rewrite append_assoc.
Qed.

(** Splitting a text made of lines gives the lines back. *)
Lemma split_join_lines (ls : list string) :
  ls <> [] -> Forall (fun l => includes l nl = false) ls ->
  split (join ls nl) nl = ls.
Proof.
  intros Hne Hfree. induction Hfree as [|l ls Hl Hfree IH]; [contradiction|].
  destruct ls as [|l2 ls].
  - cbn [join]. unfold split, nl. now rewrite (proj1 (splitGo_piece _ l Hl "")).
  - rewrite join_cons by discriminate. unfold split, nl in *.
    change (String "010" "" ++ ?t) with (String "010" t).
    rewrite (proj2 (splitGo_piece _ l Hl "")).
    change ("" ++ l) with l. f_equal. now apply IH.
Qed.

(** *** [trim] *)

Lemma append_not_empty (a b : string) : b <> "" -> a ++ b <> "".
Proof. destruct a; simpl; [auto|discriminate]. Qed.

Lemma trimEnd_append (a b : string) :
  trimEnd b <> "" -> trimEnd (a ++ b) = a ++ trimEnd b.
Proof.
  intros Hb. induction a as [|c a IH]; [reflexivity|].
  rewrite !append_cons. cbn [trimEnd]. rewrite IH.
  destruct (a ++ trimEnd b) eqn:E; [|reflexivity].
  now apply append_not_empty in E.
Qed.

Lemma trimEnd_append_blank (a b : string) :
  trimEnd b = "" -> trimEnd (a ++ b) = trimEnd a.
Proof.
  intros Hb. induction a as [|c a IH]; [exact Hb|].
  change (String c a ++ b) with (String c (a ++ b)). cbn [trimEnd]. now rewrite IH.
Qed.

End TextFacts.

(** ** Decimal numerals: [parseInt] and the template literal *)

Module NumeralFacts.
Import Js TextFacts RoundTrip.










End NumeralFacts.

(** ** The parser on an interface section *)

Module ParseFacts.
Import Js TextFacts Codec RoundTrip.

Lemma parseLine_field (st : ParseState) (key value : string) :
  plainKey key = true -> plainValue value = true ->
  currentSection st = Some InInterface ->
  parseLine st (fieldLine (key, value))
  = {| result := {| interface := <[key := value]> (interface (result st));
                    peers := peers (result st) |};
       currentSection := Some InInterface |}.
Proof.
  unfold plainKey, plainValue, isTrimmed, fieldLine. cbn [fst snd].
  intros Hkey Hvalue Hsection.
  destruct key as [|c key]; [discriminate|].
  apply andb_true_iff in Hkey as [Hkey _].
  apply andb_true_iff in Hkey as [Hkey Hend]. apply String.eqb_eq in Hend.
  apply andb_true_iff in Hkey as [Hkey Hfree]. apply negb_true_iff in Hfree.
  apply andb_true_iff in Hkey as [Hkey Hhash]. apply negb_true_iff in Hhash.
  apply andb_true_iff in Hkey as [Hspace Hbracket].
  apply negb_true_iff in Hspace, Hbracket.
  apply andb_true_iff in Hvalue as [Hvalue _].
  apply andb_true_iff in Hvalue as [Hsome Htrimmed].
  apply negb_true_iff, String.eqb_neq in Hsome.
  apply andb_true_iff in Htrimmed as [Hstart Hstop].
  apply String.eqb_eq in Hstart, Hstop.
  set (line := String c key ++ " = " ++ value).
  assert (trim line = line) as Htrim.
  { unfold trim, line. rewrite append_cons. cbn [trimStart]. rewrite Hspace.
    rewrite <- append_cons, <- append_assoc.
    rewrite trimEnd_append by congruence. now rewrite Hstop. }
  assert (line = String c (key ++ " = " ++ value)) as Hline by reflexivity.
  assert (split line "=" = (String c key ++ " ") :: split (" " ++ value) "=") as Hsplit.
  { unfold split, line.
    change (" = " ++ value) with (" " ++ String "=" (" " ++ value)).
    rewrite <- append_assoc.
    apply (proj2 (splitGo_piece "=" (String c key ++ " ")
                    (includes_append "=" _ " " Hfree eq_refl) "")). }
  unfold parseLine. rewrite Htrim, Hsplit.
  unfold startsWith. rewrite Hline, !prefix_single, Hbracket, Hhash.
  cbn [andb negb String.eqb]. rewrite Hsection.
  rewrite join_split by discriminate.
  f_equal. f_equal. f_equal.
  - unfold trim. rewrite append_cons. cbn [trimStart]. rewrite Hspace.
    rewrite <- append_cons, trimEnd_append_blank by reflexivity. exact Hend.
  - unfold trim. change (" " ++ value) with (String " " value). cbn [trimStart].
    change (isSpace " ") with true. cbn iota. congruence.
Qed.

Lemma parseLines_fields (kvs : list (string * string)) (st : ParseState) :
  forallb plainField kvs = true ->
  currentSection st = Some InInterface ->
  fold_left parseLine (fieldLine <$> kvs) st
  = {| result := {| interface := bindings kvs (interface (result st));
                    peers := peers (result st) |};
       currentSection := Some InInterface |}.
Proof.
  revert st. induction kvs as [|[key value] kvs IH]; intros st Hplain Hsection.
  - destruct st as [[i p] s]. simpl in *. now subst.
  - cbn [forallb] in Hplain. apply andb_true_iff in Hplain as [Hkv Hplain].
    apply andb_true_iff in Hkv as [Hk Hv].
    cbn [fmap list_fmap fold_left]. rewrite parseLine_field by assumption.
    now rewrite IH.
Qed.

Lemma hasNewline_fieldLine (kv : string * string) :
  plainField kv = true -> includes (fieldLine kv) nl = false.
Proof.
  destruct kv as [key value]. unfold plainField, plainKey, plainValue. cbn [fst snd].
  intros H. apply andb_true_iff in H as [Hk Hv].
  apply andb_true_iff in Hk as [_ Hk]. apply andb_true_iff in Hv as [_ Hv].
  apply negb_true_iff in Hk, Hv. unfold fieldLine, hasNewline in *.
  cbn [fst snd]. unfold nl in *.
  apply includes_append; [exact Hk|]. apply includes_append; [reflexivity|exact Hv].
Qed.


Lemma bindings_absent (kvs : list (string * string)) (m : Fields) (key : string) :
  key ∉ kvs.*1 -> bindings kvs m !! key = m !! key.
Proof.
  revert m. induction kvs as [|[k v] kvs IH]; intros m Hout; [reflexivity|].
  cbn in Hout. apply not_elem_of_cons in Hout as [Hne Hout].
  unfold bindings in *. cbn [fold_left fst snd]. rewrite IH by exact Hout.
  now apply lookup_insert_ne.
Qed.

Lemma bindings_present (kvs : list (string * string)) (m : Fields) (key value : string) :
  NoDup kvs.*1 -> (key, value) ∈ kvs -> bindings kvs m !! key = Some value.
Proof.
  revert m. induction kvs as [|[k v] kvs IH]; intros m Hnodup Hin.
  - now apply elem_of_nil in Hin.
  - cbn in Hnodup. apply NoDup_cons in Hnodup as [Hout Hnodup].
    unfold bindings in *. cbn [fold_left fst snd].
    apply elem_of_cons in Hin as [Heq|Hin].
    + injection Heq as -> ->. fold (bindings kvs (<[k := v]> m)).
      rewrite bindings_absent by exact Hout. apply lookup_insert_eq.
    + now apply IH.
Qed.

End ParseFacts.

(** ** Parsing, synchronising and serializing again *)

Module RoundTripFacts.
Import Mongo MongoFacts Js TextFacts NumeralFacts ParseFacts RoundTrip.

Lemma bind_Ok {A B} (m : M A) (k : A -> M B) (st st' : Store) (b : B) :
  bind m k st = (Ok b, st') ->
  exists a st1, m st = (Ok a, st1) /\ k a st1 = (Ok b, st').
Proof.
  unfold bind. destruct (m st) as [[a|e] st1]; intros H; [eauto|discriminate].
Qed.




Lemma get_saved (path : string) (doc : Document) : get path (saved doc) = get path doc.
Proof. reflexivity. Qed.

Lemma get_preSave (now : Z) (doc : Document) (path : string) :
  path ∉ ["updatedAt"; "lastSync"; "dns"] ->
  get path (Server.preSave now doc) = get path doc.
Proof.
  intros Hout. apply not_elem_of_cons in Hout as [H1 Hout].
  apply not_elem_of_cons in Hout as [H2 Hout].
  apply not_elem_of_cons in Hout as [H3 _].
  unfold Server.preSave.
  match goal with
  | |- context [if ?b then ?x else ?y] =>
      set (stamped := if b then x else y);
      assert (get path stamped = get path doc) as Hstamped
        by (unfold stamped; destruct b; rewrite ?(get_set_ne "lastSync") by congruence;
            apply get_set_ne; congruence)
  end.
  destruct (get "dns" stamped) as [[]|]; try exact Hstamped.
  destruct l; [|exact Hstamped]. rewrite get_set_ne by congruence. exact Hstamped.
Qed.





Lemma get_assign_ne (path other : string) (v : option JValue) (doc : Document) :
  path <> other -> get other (assign path v doc) = get other doc.
Proof.
  intros Hne. destruct v as [v|]; [now apply get_set_ne|].
  unfold assign, get. destruct (fields doc !! path); [|reflexivity].
  simpl. now apply lookup_delete_ne.
Qed.












End RoundTripFacts.

(** ** Outcomes of the examples *)

Module ScenarioFacts.
Import Mongo.

Lemma valueOf_Ok {A} (fallback : A) (r : Result A * Store) :
  Scenario.isOk r = true -> r = (Ok (Scenario.valueOf fallback r), r.2).
Proof. destruct r as [[a|e] st]; [reflexivity|discriminate]. Qed.

Lemma unit_Ok (r : Result unit * Store) :
  Scenario.isOk r = true -> r = (Ok tt, r.2).
Proof. destruct r as [[[]|e] st]; [reflexivity|discriminate]. Qed.

Lemma pair_Ok {A B} (fallback : A * B) (r : Result (A * B) * Store) :
  Scenario.isOk r = true ->
  r = (Ok ((Scenario.valueOf fallback r).1, (Scenario.valueOf fallback r).2), r.2).
Proof. destruct r as [[[a b]|e] st]; [reflexivity|discriminate]. Qed.

End ScenarioFacts.

(** ** The health report *)

Module HealthFacts.
Import Health.

Lemma round_between (a b : Z) (x : Q) :
  (inject_Z a <= x)%Q -> (x <= inject_Z b)%Q -> (a <= round x <= b)%Z.
Proof.
  intros Hlo Hhi. unfold round. split.
  - rewrite <- (Qfloor_Z a). apply Qfloor_resp_le.
    apply Qle_trans with x; [exact Hlo|].
    rewrite <- (Qplus_0_r x) at 1. apply Qplus_le_r. discriminate.
  - apply Z.lt_succ_r. rewrite <- Z.add_1_r. rewrite Zlt_Qlt.
    apply Qle_lt_trans with (x + (1 # 2))%Q; [apply Qfloor_le|].
    rewrite inject_Z_plus. apply Qle_lt_trans with (inject_Z b + (1 # 2))%Q.
    + now apply Qplus_le_l.
    + apply Qplus_lt_r. reflexivity.
Qed.

Lemma length_filter_le {A} (f : A -> bool) (l : list A) :
  length (List.filter f l) <= length l.
Proof.
  induction l as [|x l IH]; simpl; [lia|]. destruct (f x); simpl; lia.
Qed.

Lemma share_bounds (r t : nat) :
  r <= t -> 0 < t ->
  (0 <= Probe.Qof_nat r / Probe.Qof_nat t * 30)%Q
  /\ (Probe.Qof_nat r / Probe.Qof_nat t * 30 <= 30)%Q.
Proof.
  intros Hle Hpos. unfold Probe.Qof_nat.
  assert (0 < inject_Z (Z.of_nat t))%Q as Ht
    by (rewrite <- (Zlt_Qlt 0); lia).
  assert (0 <= inject_Z (Z.of_nat r) / inject_Z (Z.of_nat t))%Q as Hlo.
  { apply Qle_shift_div_l; [exact Ht|]. rewrite Qmult_0_l.
    rewrite <- (Zle_Qle 0). lia. }
  assert (inject_Z (Z.of_nat r) / inject_Z (Z.of_nat t) <= 1)%Q as Hhi.
  { apply Qle_shift_div_r; [exact Ht|]. rewrite Qmult_1_l.
    rewrite <- Zle_Qle. lia. }
  split.
  - apply Qmult_le_0_compat; [exact Hlo|discriminate].
  - rewrite <- (Qmult_1_l 30) at 2. apply Qmult_le_compat_r; [exact Hhi|discriminate].
Qed.

Lemma filter_all_running (found : list InterfaceHealth) :
  forallb running found = true -> List.filter running found = found.
Proof.
  induction found as [|i found IH]; [reflexivity|]. cbn [forallb List.filter].
  intros H. apply andb_true_iff in H as [-> H]. now rewrite IH.
Qed.

(** X1.  The health score is a whole number from 0 to 100.  A healthy report
    (database and WireGuard both up) scores at least 70 and an unhealthy
    one at most 70; with no interface discovered the score cannot pass
    70, and it is 100 when everything is up and every discovered
    interface runs. *)
Theorem health_score_and_status (databaseReady wgInstalled : bool)
    (found : list InterfaceHealth) :
  let report := healthCheck databaseReady wgInstalled found in
  (0 <= score report <= 100)%Z
  /\ (if databaseReady && wgInstalled
      then status report = "healthy" /\ (70 <= score report)%Z
      else status report = "unhealthy" /\ (score report <= 70)%Z)
  /\ (found = [] -> (score report <= 70)%Z)
  /\ (databaseReady && wgInstalled && forallb running found = true ->
      found <> [] -> score report = 100%Z).
Proof.
  intros report. subst report. unfold healthCheck. cbn [score status].
  unfold calculateHealthScore.
  destruct found as [|i found].
  - cbn [length Nat.ltb Nat.leb].
    destruct databaseReady, wgInstalled; vm_compute; repeat split;
      try discriminate; try congruence; intros; congruence.
  - set (all := i :: found).
    assert (0 < length all) as Hpos by (simpl; lia).
    pose proof (length_filter_le running all) as Hle.
    destruct (share_bounds _ _ Hle Hpos) as [Hlo Hhi].
    replace (0 <? length all)%nat with true by (symmetry; now apply Nat.ltb_lt).
    set (share := (Probe.Qof_nat (length (List.filter running all))
                   / Probe.Qof_nat (length all) * 30)%Q) in *.
    assert (forall base : Z,
              (base <= round (inject_Z base + share) <= base + 30)%Z) as Hround.
    { intros base. apply round_between.
      - rewrite <- (Qplus_0_r (inject_Z base)) at 1. now apply Qplus_le_r.
      - rewrite inject_Z_plus. now apply Qplus_le_r. }
    assert (forallb running all = true -> share == 30)%Q as Hfull.
    { intros Hall. unfold share. rewrite (filter_all_running all Hall).
      unfold Qdiv. rewrite Qmult_inv_r; [reflexivity|].
      unfold Probe.Qof_nat. intros Habs.
      assert (0 < inject_Z (Z.of_nat (length all)))%Q as Hlt
        by (rewrite <- (Zlt_Qlt 0); lia).
      rewrite Habs in Hlt. discriminate. }
    destruct databaseReady, wgInstalled; cbn [andb].
    + pose proof (Hround 70%Z) as H70.
      change (0 + 40 + 30 + share)%Q with (inject_Z 70 + share)%Q.
      repeat split; try lia; try discriminate.
      intros Hall _.
      assert (inject_Z 70 + share == inject_Z 100)%Q as Heq
        by (rewrite (Hfull Hall); reflexivity).
      destruct (round_between 100 100 (inject_Z 70 + share)) as [H1 H2];
        [rewrite Heq; apply Qle_refl|rewrite Heq; apply Qle_refl|]. lia.
    + pose proof (Hround 40%Z) as H40.
      change (0 + 40 + share)%Q with (inject_Z 40 + share)%Q.
      repeat split; try lia; discriminate.
    + pose proof (Hround 30%Z) as H30.
      change (0 + 30 + share)%Q with (inject_Z 30 + share)%Q.
      repeat split; try lia; discriminate.
    + pose proof (Hround 0%Z) as H0.
      change (0 + share)%Q with (inject_Z 0 + share)%Q.
      repeat split; try lia; discriminate.
Qed.

End HealthFacts.

(** ** Comparing two profiles *)

Module CompareFacts.
Import Mongo MongoFacts MTUProfile.




End CompareFacts.

(** ** Probe statistics *)

Module ProbeStatFacts.
Import Probe Mongo MongoFacts.





Lemma quick_or_lost (pings : list Ping) :
  (length (List.filter MTUProfile.quick pings)
   + length (List.filter (fun p => negb (isAlive p)) pings) <= length pings)%nat.
Proof.
  induction pings as [|p pings IH]; [simpl; lia|].
  cbn [List.filter]. destruct p as [time| |message]; cbn [MTUProfile.quick isAlive negb].
  - destruct (Qltb time 100); simpl; lia.
  - simpl; lia.
  - simpl; lia.
Qed.

Lemma percent_nonneg (n t : nat) :
  (0 < t)%nat -> (0 <= Qof_nat n / Qof_nat t * 100)%Q.
Proof.
  intros Ht. unfold Qof_nat. apply Qmult_le_0_compat; [|discriminate].
  apply Qle_shift_div_l.
  - rewrite <- (Zlt_Qlt 0). lia.
  - rewrite Qmult_0_l, <- (Zle_Qle 0). lia.
Qed.

Lemma percent_sum (a b t : nat) :
  (0 < t)%nat -> (a + b <= t)%nat ->
  (Qof_nat a / Qof_nat t * 100 + Qof_nat b / Qof_nat t * 100 <= 100)%Q.
Proof.
  intros Ht Hsum. unfold Qof_nat.
  assert (0 < inject_Z (Z.of_nat t))%Q as Hpos by (rewrite <- (Zlt_Qlt 0); lia).
  assert (inject_Z (Z.of_nat a) / inject_Z (Z.of_nat t) * 100
          + inject_Z (Z.of_nat b) / inject_Z (Z.of_nat t) * 100
          == inject_Z (Z.of_nat (a + b)) / inject_Z (Z.of_nat t) * 100)%Q as ->.
  { rewrite Nat2Z.inj_add, inject_Z_plus. field.
    intros Habs. rewrite Habs in Hpos. discriminate. }
  rewrite <- (Qmult_1_l 100) at 2. apply Qmult_le_compat_r; [|discriminate].
  apply Qle_shift_div_r; [exact Hpos|]. rewrite Qmult_1_l, <- Zle_Qle. lia.
Qed.

Lemma profile_save_Ok (now : Z) (doc saved' : Document) (st st' : Store) :
  MTUProfile.save now doc st = (Ok saved', st') ->
  saved' = saved (set "updatedAt" (JDate now) doc).
Proof.
  unfold MTUProfile.save, MTUProfile.preSave, bind, read, write, ret.
  destruct (truthy _ && isModified _ _); cbn beta iota;
    match goal with
    | |- context [if ?ok then _ else _] => destruct ok
    end; intros H; try discriminate H; now injection H as <- _.
Qed.

(** What a successful [runTest] leaves in [testResults]. *)
Lemma runTest_results (pings : list Ping) (now : Z) (this doc : Document)
    (st st' : Store) :
  MTUProfile.runTest (Some pings) now this st = (Ok doc, st') ->
  get "testResults.pingSuccessRate" doc
  = Some (JNum (if (0 <? length pings)%nat
                then (Qof_nat (length (List.filter MTUProfile.quick pings))
                      / Qof_nat (length pings) * 100)%Q
                else 0%Q))
  /\ get "testResults.packetLoss" doc
     = Some (JNum (if (0 <? length pings)%nat
                   then (Qof_nat (length (List.filter (fun p => negb (isAlive p)) pings))
                         / Qof_nat (length pings) * 100)%Q
                   else 0%Q))
  /\ get "testResults.averageLatency" doc
     = Some (JNum (if (0 <? length (latencies pings))%nat
                   then (Qsum (latencies pings) / Qof_nat (length (latencies pings)))%Q
                   else 0%Q))
  /\ get "testResults.lastTested" doc = Some (JDate now).
Proof.
  unfold MTUProfile.runTest.
  match goal with
  | |- MTUProfile.save now ?d st = _ -> _ => set (tested := d)
  end.
  assert (get "testResults.pingSuccessRate" tested
          = Some (JNum (if (0 <? length pings)%nat
                        then (Qof_nat (length (List.filter MTUProfile.quick pings))
                              / Qof_nat (length pings) * 100)%Q
                        else 0%Q))
          /\ get "testResults.packetLoss" tested
             = Some (JNum (if (0 <? length pings)%nat
                           then (Qof_nat (length (List.filter (fun p => negb (isAlive p))
                                                    pings))
                                 / Qof_nat (length pings) * 100)%Q
                           else 0%Q))
          /\ get "testResults.averageLatency" tested
             = Some (JNum (if (0 <? length (latencies pings))%nat
                           then (Qsum (latencies pings)
                                 / Qof_nat (length (latencies pings)))%Q
                           else 0%Q))
          /\ get "testResults.lastTested" tested = Some (JDate now))
    as (Hrate & Hloss & Hlatency & Htime).
  { unfold tested. repeat split.
    - do 3 rewrite RoundTripFacts.get_assign_ne by discriminate.
      do 3 rewrite get_set_ne by discriminate. apply get_set_eq.
    - do 3 rewrite RoundTripFacts.get_assign_ne by discriminate.
      rewrite get_set_ne by discriminate. apply get_set_eq.
    - do 3 rewrite RoundTripFacts.get_assign_ne by discriminate.
      do 2 rewrite get_set_ne by discriminate. apply get_set_eq.
    - do 3 rewrite RoundTripFacts.get_assign_ne by discriminate. apply get_set_eq. }
  clearbody tested.
  intros Hsave. apply profile_save_Ok in Hsave. subst doc.
  rewrite !RoundTripFacts.get_saved, !get_set_ne by discriminate.
  repeat split; assumption.
Qed.

(** X3.  After a profile's own test the stored success rate and packet loss
    are percentages that together do not pass 100 (a probe answered in
    100 ms or more counts for neither), and the time of the test is
    stored. *)
Theorem runTest_rates (pings : list Ping) (now : Z) (this doc : Document)
    (st st' : Store) :
  MTUProfile.runTest (Some pings) now this st = (Ok doc, st') ->
  exists rate loss,
    get "testResults.pingSuccessRate" doc = Some (JNum rate)
    /\ get "testResults.packetLoss" doc = Some (JNum loss)
    /\ (0 <= rate)%Q /\ (0 <= loss)%Q /\ (rate + loss <= 100)%Q
    /\ get "testResults.lastTested" doc = Some (JDate now).
Proof.
  intros Hrun. apply runTest_results in Hrun as (Hrate & Hloss & _ & Htime).
  eexists _, _. split; [exact Hrate|]. split; [exact Hloss|].
  split; [|split; [|split; [|exact Htime]]];
    destruct (Nat.ltb_spec 0 (length pings)) as [Hpos|_]; try discriminate.
  - now apply percent_nonneg.
  - now apply percent_nonneg.
  - apply percent_sum; [exact Hpos|]. apply quick_or_lost.
Qed.

Lemma runTest_rates_witness :
  let this := load [] (Scenario.profile 31 "MPT_MTU_1380" "MPT" 1380 true) in
  let r := MTUProfile.runTest
             (Some [Probe.Alive 40; Probe.Alive 120; Probe.Dead; Probe.Alive 55])
             9000 this Scenario.storeProfiles in
  let doc := Scenario.valueOf Scenario.blank r in
  r.1 = Ok doc
  /\ exists rate loss,
       get "testResults.pingSuccessRate" doc = Some (JNum rate)
       /\ get "testResults.packetLoss" doc = Some (JNum loss)
       /\ (0 <= rate)%Q /\ (0 <= loss)%Q /\ (rate + loss <= 100)%Q
       /\ get "testResults.lastTested" doc = Some (JDate 9000).
Proof.
  intros this r doc.
  assert (r = (Ok doc, r.2)) as Hrun by (apply ScenarioFacts.valueOf_Ok; vm_compute; reflexivity).
  split; [now rewrite Hrun at 1|].
  exact (runTest_rates
           [Probe.Alive 40; Probe.Alive 120; Probe.Dead; Probe.Alive 55]
           9000 this doc Scenario.storeProfiles r.2 Hrun).
Defined.

Lemma filter_length_all {A} (f : A -> bool) (l : list A) :
  length (List.filter f l) = length l <-> forallb f l = true.
Proof.
  induction l as [|x l IH]; [easy|]. cbn [List.filter forallb].
  pose proof (filter_length_le f l) as Hle.
  destruct (f x); cbn [length andb].
  - rewrite <- IH. split; lia.
  - split; [lia|discriminate].
Qed.

Lemma quick_alive (pings : list Ping) :
  forallb MTUProfile.quick pings = true ->
  List.filter (fun p => negb (isAlive p)) pings = []
  /\ length (latencies pings) = length pings
  /\ Forall (fun time => time < 100)%Q (latencies pings).
Proof.
  induction pings as [|p pings IH]; [now repeat split|].
  cbn [forallb]. intros [Hquick Hrest]%andb_true_iff.
  destruct (IH Hrest) as (Hlost & Hlen & Hall).
  destruct p as [time| |message]; try discriminate Hquick.
  cbn [List.filter isAlive negb].
  change (latencies (Alive time :: pings)) with (time :: latencies pings).
  cbn [length]. split; [exact Hlost|]. split; [now rewrite Hlen|].
  constructor; [|exact Hall]. cbn [MTUProfile.quick] in Hquick. now apply ProbeFacts.Qltb_lt.
Qed.

Lemma fold_plus_le (times : list Q) (acc : Q) :
  Forall (fun time => time < 100)%Q times ->
  (fold_left Qplus times acc <= acc + inject_Z (Z.of_nat (length times)) * 100)%Q.
Proof.
  intros Hall. revert acc. induction Hall as [|time times Htime _ IH]; intros acc.
  - cbn. rewrite Qmult_0_l, Qplus_0_r. apply Qle_refl.
  - cbn [fold_left length]. eapply Qle_trans; [apply IH|].
    rewrite Nat2Z.inj_succ, <- Z.add_1_r, inject_Z_plus.
    apply Qlt_le_weak in Htime.
    assert (acc + (inject_Z (Z.of_nat (length times)) + inject_Z 1) * 100
            == (acc + 100) + inject_Z (Z.of_nat (length times)) * 100)%Q as -> by ring.
    apply Qplus_le_compat; [|apply Qle_refl]. now apply Qplus_le_compat; [apply Qle_refl|].
Qed.

(** X26.  The four probes of [runTest] decide [isOptimal]: the profile is
    optimal after its test exactly when every probe was answered in
    under 100 ms. *)
Theorem optimal_after_test (pings : list Ping) (now : Z) (this doc : Document)
    (st st' : Store) :
  length pings = 4%nat ->
  MTUProfile.runTest (Some pings) now this st = (Ok doc, st') ->
  MTUProfile.isOptimal doc = true <-> forallb MTUProfile.quick pings = true.
Proof.
  intros Hfour Hrun.
  apply runTest_results in Hrun as (Hrate & Hloss & Hlatency & _).
  unfold MTUProfile.isOptimal, MTUProfile.atLeast, MTUProfile.atMost.
  rewrite Hrate, Hloss, Hlatency, Hfour. cbn [MTUProfile.num Nat.ltb Nat.leb].
  pose proof (filter_length_le MTUProfile.quick pings) as Hle. rewrite Hfour in Hle.
  split.
  - intros Hopt. apply andb_true_iff in Hopt as [Hopt _].
    apply andb_true_iff in Hopt as [Hopt _].
    apply filter_length_all. rewrite Hfour.
    destruct (length (List.filter MTUProfile.quick pings)) as [|[|[|[|[|n]]]]];
      try (vm_compute in Hopt; discriminate Hopt); [reflexivity|lia].
  - intros Hall. pose proof (quick_alive pings Hall) as (Hlost & Hlen & Htimes).
    apply filter_length_all in Hall. rewrite Hall, Hlost, Hlen, Hfour.
    cbn [length Nat.ltb Nat.leb].
    apply andb_true_iff. split; [reflexivity|].
    apply Qle_bool_iff. apply Qle_shift_div_r; [reflexivity|].
    pose proof (fold_plus_le (latencies pings) 0 Htimes) as Hsum.
    rewrite Hlen, Hfour in Hsum. unfold Qsum. eapply Qle_trans; [exact Hsum|].
    vm_compute. discriminate.
Qed.

Lemma optimal_after_test_witness :
  let this := load [] (Scenario.profile 31 "MPT_MTU_1380" "MPT" 1380 true) in
  let pings := [Probe.Alive 40; Probe.Alive 55; Probe.Alive 60; Probe.Alive 80] in
  let r := MTUProfile.runTest (Some pings) 9000 this Scenario.storeProfiles in
  MTUProfile.isOptimal (Scenario.valueOf Scenario.blank r) = true
  <-> forallb MTUProfile.quick pings = true.
Proof.
  intros this pings r.
  apply (optimal_after_test pings 9000 this
           (Scenario.valueOf Scenario.blank r) Scenario.storeProfiles r.2).
  - reflexivity.
  - apply ScenarioFacts.valueOf_Ok. vm_compute. reflexivity.
Defined.

End ProbeStatFacts.

(** ** Editing a configuration text *)

Module EditFacts.
Import Js TextFacts ParseFacts RoundTrip Service.

Lemma prefix_self (a b : string) : String.prefix a (a ++ b) = true.
Proof.
  induction a as [|c a IH]; [apply prefix_empty|].
  rewrite append_cons. simpl. destruct (ascii_dec c c); [exact IH|congruence].
Qed.

Lemma splitGo_free (x : ascii) (s cur : string) :
  includes cur (String x "") = false ->
  Forall (fun l => includes l (String x "") = false) (splitGo (String x "") 0 cur s).
Proof.
  revert cur. induction s as [|c s IH]; intros cur Hcur; cbn [splitGo].
  - now constructor.
  - rewrite prefix_single. destruct (Ascii.eqb x c) eqn:Hc.
    + constructor; [exact Hcur|]. now apply IH.
    + apply IH. apply includes_append; [exact Hcur|].
      rewrite includes_cons, Hc. reflexivity.
Qed.

(** The lines of a text hold no line break. *)
Lemma split_lines_free (s : string) :
  Forall (fun l => includes l nl = false) (split s nl).
Proof. unfold split, nl. now apply splitGo_free. Qed.

Lemma replaceFirst_free (prefix line : string) (lines lines' : list string) :
  replaceFirst prefix line lines = Some lines' ->
  includes line nl = false ->
  Forall (fun l => includes l nl = false) lines ->
  Forall (fun l => includes l nl = false) lines' /\ lines' <> [].
Proof.
  revert lines'. induction lines as [|l rest IH]; intros lines' Hrep Hline Hfree;
    [discriminate|].
  apply Forall_cons in Hfree as [Hl Hfree]. cbn [replaceFirst] in Hrep.
  destruct (startsWith l prefix).
  - injection Hrep as <-. split; [now constructor|discriminate].
  - destruct (replaceFirst prefix line rest) as [rest'|]; [|discriminate].
    injection Hrep as <-. split; [|discriminate].
    constructor; [exact Hl|]. now apply (IH rest').
Qed.

Lemma insertAfterInterface_free (line : string) (lines : list string) :
  includes line nl = false ->
  Forall (fun l => includes l nl = false) lines ->
  Forall (fun l => includes l nl = false) (insertAfterInterface line lines).
Proof.
  intros Hline Hfree. induction Hfree as [|l rest Hl Hfree IH]; [constructor|].
  cbn [insertAfterInterface]. destruct (trim l =? "[Interface]"); repeat constructor; auto.
Qed.

Lemma insertAfterInterface_not_nil (line : string) (lines : list string) :
  lines <> [] -> insertAfterInterface line lines <> [].
Proof.
  destruct lines as [|l rest]; [contradiction|]. intros _. cbn [insertAfterInterface].
  now destruct (trim l =? "[Interface]").
Qed.

Lemma replaceFirst_again (prefix line : string) (lines lines' : list string) :
  startsWith line prefix = true ->
  replaceFirst prefix line lines = Some lines' ->
  replaceFirst prefix line lines' = Some lines'.
Proof.
  intros Hline. revert lines'. induction lines as [|l rest IH]; intros lines' Hrep;
    [discriminate|].
  cbn [replaceFirst] in Hrep. destruct (startsWith l prefix) eqn:Hl.
  - injection Hrep as <-. cbn [replaceFirst]. now rewrite Hline.
  - destruct (replaceFirst prefix line rest) as [rest'|] eqn:Hrest; [|discriminate].
    injection Hrep as <-. cbn [replaceFirst]. rewrite Hl.
    now rewrite (IH rest' eq_refl).
Qed.

Lemma replaceFirst_after_insert (prefix line : string) (lines : list string) :
  startsWith line prefix = true ->
  replaceFirst prefix line lines = None ->
  insertAfterInterface line lines = lines
  \/ replaceFirst prefix line (insertAfterInterface line lines)
     = Some (insertAfterInterface line lines).
Proof.
  intros Hline. induction lines as [|l rest IH]; intros Hrep; [now left|].
  cbn [replaceFirst] in Hrep. destruct (startsWith l prefix) eqn:Hl; [discriminate|].
  destruct (replaceFirst prefix line rest) as [rest'|] eqn:Hrest; [discriminate|].
  cbn [insertAfterInterface]. destruct (trim l =? "[Interface]").
  - right. cbn [replaceFirst]. now rewrite Hl, Hline.
  - destruct (IH eq_refl) as [Hsame|Hnext].
    + left. now rewrite Hsame.
    + right. cbn [replaceFirst]. now rewrite Hl, Hnext.
Qed.

(** X5.  Setting a value twice is setting it once: [updateConfigValue] is
    idempotent, for every text, as long as the key and the value hold no
    line break. *)
Theorem updateConfigValue_idempotent (configContent key value : string) :
  hasNewline key = false -> hasNewline value = false ->
  updateConfigValue (updateConfigValue configContent key value) key value
  = updateConfigValue configContent key value.
Proof.
  unfold hasNewline. intros Hkey Hvalue.
  assert (includes (key ++ " = " ++ value) nl = false) as Hline.
  { unfold nl in *. apply includes_append; [exact Hkey|].
    apply includes_append; [reflexivity|exact Hvalue]. }
  assert (startsWith (key ++ " = " ++ value) (key ++ " =") = true) as Hstarts.
  { unfold startsWith. change (" = " ++ value) with (" =" ++ (" " ++ value)).
    rewrite <- append_assoc. apply prefix_self. }
  unfold updateConfigValue.
  pose proof (split_lines_free configContent) as Hfree.
  assert (split configContent nl <> []) as Hsome
    by (unfold split, nl; apply splitGo_not_nil).
  set (lines := split configContent nl) in *.
  destruct (replaceFirst (key ++ " =") (key ++ " = " ++ value) lines) as [lines'|] eqn:Hrep.
  - destruct (replaceFirst_free _ _ _ _ Hrep Hline Hfree) as [Hfree' Hsome'].
    rewrite split_join_lines by assumption.
    now rewrite (replaceFirst_again _ _ _ _ Hstarts Hrep).
  - rewrite split_join_lines
      by (try apply insertAfterInterface_not_nil; try apply insertAfterInterface_free;
          assumption).
    destruct (replaceFirst_after_insert _ _ _ Hstarts Hrep) as [Hsame|Hnext].
    + now rewrite Hsame, Hrep, Hsame.
    + now rewrite Hnext.
Qed.

Lemma updateConfigValue_idempotent_witness :
  updateConfigValue
    (updateConfigValue (interfaceText Scenario.fieldsCanonical) "MTU" "1400") "MTU" "1400"
  = updateConfigValue (interfaceText Scenario.fieldsCanonical) "MTU" "1400".
Proof.
  apply (updateConfigValue_idempotent (interfaceText Scenario.fieldsCanonical) "MTU" "1400");
    reflexivity.
Defined.

(** X6.  A text with no line for the key and no interface header comes back
    as it is: the value is not added anywhere. *)
Theorem updateConfigValue_without_header (configContent key value : string) :
  Forall (fun l => startsWith l (key ++ " =") = false
                   /\ (trim l =? "[Interface]") = false) (split configContent nl) ->
  updateConfigValue configContent key value = configContent.
Proof.
  intros Hlines. unfold updateConfigValue.
  set (line := key ++ " = " ++ value).
  assert (replaceFirst (key ++ " =") line (split configContent nl) = None
          /\ insertAfterInterface line (split configContent nl) = split configContent nl)
    as [-> ->].
  { induction Hlines as [|l rest [Hl Hheader] Hrest [IH1 IH2]]; [now split|].
    cbn [replaceFirst insertAfterInterface]. now rewrite Hl, Hheader, IH1, IH2. }
  apply join_split. discriminate.
Qed.

Lemma updateConfigValue_without_header_witness :
  updateConfigValue "[Peer]" "MTU" "1400" = "[Peer]".
Proof.
  apply (updateConfigValue_without_header "[Peer]" "MTU" "1400").
  repeat constructor.
Defined.


Lemma prefix_nil_r (a : ascii) (p : string) : String.prefix (String a p) "" = false.
Proof. reflexivity. Qed.







Lemma bindings_lookup (kvs : list (string * string)) (k v : string) :
  NoDup kvs.*1 -> bindings kvs ∅ !! k = Some v <-> (k, v) ∈ kvs.
Proof.
  intros Hnodup. split; [|now apply bindings_present].
  intros Hlook. destruct (decide (k ∈ kvs.*1)) as [Hin|Hout].
  - apply list_elem_of_fmap in Hin as ([k' v'] & -> & Hin). cbn [fst] in *.
    rewrite (bindings_present _ _ _ _ Hnodup Hin) in Hlook. now injection Hlook as <-.
  - rewrite bindings_absent in Hlook by exact Hout. discriminate.
Qed.



End EditFacts.

(** ** Sections of a configuration text *)

Module SectionFacts.
Import Js Codec Reading.

Lemma parseLine_ignored (st : ParseState) (line : string) :
  ignored line = true -> parseLine st line = st.
Proof.
  unfold ignored, parseLine. cbv zeta.
  destruct (startsWith (trim line) "[" && endsWith (trim line) "]") eqn:Hheader.
  - destruct (trim line =? "[Interface]") eqn:Hi.
    + apply String.eqb_eq in Hi. rewrite Hi. discriminate.
    + destruct (trim line =? "[Peer]") eqn:Hp; [|reflexivity].
      apply String.eqb_eq in Hp. rewrite Hp. discriminate.
  - destruct (trim line =? "") eqn:He; [reflexivity|].
    destruct (startsWith (trim line) "#") eqn:Hc; [reflexivity|].
    cbn [orb andb negb]. discriminate.
Qed.

(** X9.  Blank lines, comments and unknown bracketed headers can be put in or
    taken out anywhere without changing what the parser returns; an
    unknown header does not even close the section it stands in. *)
Theorem parseLines_skips (before after : list string) (line : string) :
  ignored line = true ->
  parseLines (before ++ line :: after) = parseLines (before ++ after).
Proof.
  intros Hignored. unfold parseLines. rewrite !fold_left_app. cbn [fold_left].
  now rewrite parseLine_ignored.
Qed.

Lemma parseLines_skips_witness :
  parseLines (["[Interface]"; "Address = 10.8.0.1/24"] ++ "[Unknown]" :: ["MTU = 1380"])
  = parseLines (["[Interface]"; "Address = 10.8.0.1/24"] ++ ["MTU = 1380"]).
Proof.
  apply (parseLines_skips ["[Interface]"; "Address = 10.8.0.1/24"] ["MTU = 1380"]
           "[Unknown]").
  reflexivity.
Defined.

Lemma length_alterLast {A} (f : A -> A) (l : list A) :
  length (alterLast f l) = length l.
Proof.
  induction l as [|x l IH]; [reflexivity|]. destruct l as [|y l]; [reflexivity|].
  change (alterLast f (x :: y :: l)) with (x :: alterLast f (y :: l)).
  change (length (x :: alterLast f (y :: l))) with (S (length (alterLast f (y :: l)))).
  now rewrite IH.
Qed.

Lemma parseLine_peers (st : ParseState) (line : string) :
  length (peers (result (parseLine st line)))
  = (length (peers (result st))
     + if (trim line =? "[Peer]")%string then 1 else 0)%nat.
Proof.
  unfold parseLine. cbv zeta.
  destruct (startsWith (trim line) "[" && endsWith (trim line) "]") eqn:Hheader.
  - destruct (trim line =? "[Interface]") eqn:Hi.
    + apply String.eqb_eq in Hi. rewrite Hi. cbn. lia.
    + destruct (trim line =? "[Peer]"); cbn [result peers]; [|lia].
      rewrite length_app. reflexivity.
  - assert ((trim line =? "[Peer]") = false) as ->.
    { destruct (trim line =? "[Peer]") eqn:Hp; [|reflexivity].
      apply String.eqb_eq in Hp. rewrite Hp in Hheader. discriminate. }
    rewrite Nat.add_0_r.
    destruct (negb (trim line =? "") && negb (startsWith (trim line) "#")); [|reflexivity].
    destruct (split (trim line) "=") as [|key valueParts]; [reflexivity|].
    destruct (currentSection st) as [[]|]; cbn [result peers]; try reflexivity.
    apply length_alterLast.
Qed.

(** X10.  The parser returns one peer entry per peer header, in whatever
    section the header stands and whatever else the text holds. *)
Theorem parseConfig_one_entry_per_header (configContent : string) :
  length (peers (parseConfig configContent))
  = peerHeaders (split configContent nl).
Proof.
  unfold parseConfig, parseLines, peerHeaders.
  generalize (split configContent nl) as lines.
  assert (forall lines st,
            length (peers (result (fold_left parseLine lines st)))
            = (length (peers (result st))
               + length (List.filter (fun line => (trim line =? "[Peer]")%string) lines))%nat)
    as Hgen.
  { induction lines as [|line lines IH]; intros st; cbn [fold_left List.filter].
    - cbn [length]. lia.
    - rewrite IH, parseLine_peers. destruct (trim line =? "[Peer]"); cbn [length]; lia. }
  intros lines. now rewrite Hgen.
Qed.

End SectionFacts.

(** ** Documents and their records *)

Module StoredFacts.
Import Mongo MongoFacts Stored.

Lemma Faithful_load (hidden : list string) (d : Doc) : Faithful hidden d (load hidden d).
Proof.
  split; [reflexivity|]. intros path Hout. rewrite writeFields_lookup.
  destruct (decide (path ∈ modified (load hidden d))) as [Hin|_].
  - cbn in Hin. now apply elem_of_empty in Hin.
  - unfold get, load. cbn [fields]. symmetry. now apply lookup_select_ne.
Qed.

Lemma Faithful_set (hidden : list string) (stored : Doc) (doc : Document)
    (path : string) (v : JValue) :
  Faithful hidden stored doc -> Faithful hidden stored (set path v doc).
Proof.
  intros [Hnew Hwrite]. split; [now rewrite isNew_set|].
  intros other Hout. specialize (Hwrite other Hout).
  rewrite writeFields_lookup in *. unfold set, get in *.
  destruct (negb (isNew doc) && bool_decide (fields doc !! path = Some v)); [exact Hwrite|].
  cbn [fields modified]. destruct (decide (other = path)) as [->|Hne].
  - rewrite decide_True by (apply elem_of_union_l; now apply elem_of_singleton).
    reflexivity.
  - rewrite lookup_insert_ne by congruence.
    destruct (decide (other ∈ modified doc)) as [Hin|Hnot].
    + rewrite decide_True by now apply elem_of_union_r. reflexivity.
    + rewrite decide_False; [exact Hwrite|]. intros Hin.
      apply elem_of_union in Hin as [Hin|Hin]; [|contradiction].
      apply elem_of_singleton in Hin. contradiction.
Qed.

Lemma Faithful_assign (hidden : list string) (stored : Doc) (doc : Document)
    (path : string) (v : option JValue) :
  Faithful hidden stored doc -> Faithful hidden stored (assign path v doc).
Proof.
  destruct v as [v|]; [apply Faithful_set|].
  intros [Hnew Hwrite]. unfold assign.
  destruct (fields doc !! path) eqn:Hhere; [|now split].
  split; [exact Hnew|]. intros other Hout. specialize (Hwrite other Hout).
  rewrite writeFields_lookup in *. unfold get in *. cbn [fields modified].
  destruct (decide (other = path)) as [->|Hne].
  - rewrite decide_True by (apply elem_of_union_l; now apply elem_of_singleton).
    reflexivity.
  - rewrite lookup_delete_ne by congruence.
    destruct (decide (other ∈ modified doc)) as [Hin|Hnot].
    + rewrite decide_True by now apply elem_of_union_r. reflexivity.
    + rewrite decide_False; [exact Hwrite|]. intros Hin.
      apply elem_of_union in Hin as [Hin|Hin]; [|contradiction].
      apply elem_of_singleton in Hin. contradiction.
Qed.

Lemma Assigned_refl (paths : list string) (doc : Document) : Assigned paths doc doc.
Proof. split; [reflexivity|]. split; [reflexivity|]. intros hidden stored H. exact H. Qed.

Lemma Assigned_trans (paths : list string) (a b c : Document) :
  Assigned paths a b -> Assigned paths b c -> Assigned paths a c.
Proof.
  intros (Hn1 & Hg1 & Hf1) (Hn2 & Hg2 & Hf2). split; [congruence|]. split.
  - intros path Hout. now rewrite Hg2, Hg1.
  - intros hidden stored H. now apply Hf2, Hf1.
Qed.

Lemma Assigned_set (paths : list string) (doc : Document) (path : string) (v : JValue) :
  path ∈ paths -> Assigned paths doc (set path v doc).
Proof.
  intros Hin. split; [apply isNew_set|]. split.
  - intros other Hout. apply get_set_ne. intros ->. contradiction.
  - intros hidden stored. apply Faithful_set.
Qed.

Lemma Assigned_assign (paths : list string) (doc : Document) (path : string)
    (v : option JValue) :
  path ∈ paths -> Assigned paths doc (assign path v doc).
Proof.
  intros Hin. destruct v as [v|]; [now apply Assigned_set|]. split; [|split].
  - unfold assign. now destruct (fields doc !! path).
  - intros other Hout. apply RoundTripFacts.get_assign_ne. intros ->. contradiction.
  - intros hidden stored. apply Faithful_assign.
Qed.

(** The middleware of the Peer model assigns its own paths only. *)
Lemma peer_preSave_assigned (now : Z) (populated : option Doc) (doc : Document)
    (st : Store) :
  exists doc', Peer.preSave now populated doc st = (Ok doc', st)
               /\ Assigned maintained doc doc'.
Proof.
  unfold Peer.preSave. eexists. split; [reflexivity|].
  assert (forall a, Assigned maintained a (Peer.stampUpdated now a)) as H1
    by (intros a; apply Assigned_set; unfold maintained; inlist).
  assert (forall a, Assigned maintained a (Peer.stampServerId populated a)) as H2.
  { intros a. unfold Peer.stampServerId.
    destruct (get "server" a) as [[]|]; try apply Assigned_refl.
    apply Assigned_set. unfold maintained. inlist. }
  assert (forall a, Assigned maintained a (Peer.markFirstSeen now a)) as H3.
  { intros a. unfold Peer.markFirstSeen. destruct (_ && _); [|apply Assigned_refl].
    apply Assigned_set. unfold maintained. inlist. }
  assert (forall a, Assigned maintained a (Peer.countConnection now a)) as H4.
  { intros a. unfold Peer.countConnection. destruct (Peer.becomes _ _); [|apply Assigned_refl].
    eapply Assigned_trans; apply Assigned_set; unfold maintained; inlist. }
  assert (forall a, Assigned maintained a (Peer.accrueUptime now a)) as H5.
  { intros a. unfold Peer.accrueUptime. destruct (Peer.becomes _ _); [|apply Assigned_refl].
    destruct (get "lastHandshake" a) as [[]|]; try apply Assigned_refl.
    apply Assigned_set. unfold maintained. inlist. }
  assert (forall a, Assigned maintained a (Peer.inheritMTU (servers st) a)) as H6.
  { intros a. unfold Peer.inheritMTU. destruct (_ && _); [|apply Assigned_refl].
    destruct (Mongo.findOne _ _); [|apply Assigned_refl].
    apply Assigned_assign. unfold maintained. inlist. }
  assert (forall a, Assigned maintained a (Peer.stampRotation now a)) as H7.
  { intros a. unfold Peer.stampRotation. destruct (negb _); [|apply Assigned_refl].
    apply Assigned_set. unfold maintained. inlist. }
  repeat (eapply Assigned_trans; [|first [apply H7|apply H6|apply H5|apply H4|apply H3|apply H2|apply H1]]).
  apply Assigned_refl.
Qed.

Lemma findOne_updateFirst (q : list Cond) (f : Doc -> Doc) (coll : list Doc) :
  (forall d, matches q d = true -> matches q (f d) = true) ->
  Mongo.findOne q (updateFirst q f coll) = f <$> Mongo.findOne q coll.
Proof.
  intros Hkeep. unfold Mongo.findOne.
  induction coll as [|d rest IH]; [reflexivity|]. cbn [updateFirst List.find].
  destruct (matches q d) eqn:Hd.
  - cbn [List.find]. now rewrite (Hkeep d Hd).
  - cbn [List.find]. now rewrite Hd.
Qed.

(** What a successful [save] of a peer leaves: the returned document,
    the collection of peers, and the recount written on the server. *)
Lemma peer_save_Ok (now : Z) (populated : option Doc) (doc saved' : Document)
    (st st' : Store) :
  Peer.save now populated doc st = (Ok saved', st') ->
  exists doc',
    Assigned maintained doc doc'
    /\ saved' = saved doc'
    /\ peers st' = persist doc' (peers st)
    /\ servers st'
       = updateFirst [Eq "_id" (Peer.serverRef doc)]
           (fun srv =>
              <["peerCount" :=
                 JInt (Mongo.countDocuments
                         [Eq "server" (Peer.serverRef doc); Eq "enabled" (JBool true)]
                         (peers st'))]>
              (<["activePeers" :=
                  JInt (Mongo.countDocuments
                          [Eq "server" (Peer.serverRef doc);
                           Eq "status" (JStr "connected"); Eq "enabled" (JBool true)]
                          (peers st'))]>
              (<["updatedAt" := JDate now]> srv)))
           (servers st)
    /\ profiles st' = profiles st.
Proof.
  destruct (peer_preSave_assigned now populated doc st) as (doc' & Hpre & Hassigned).
  unfold Peer.save, bind. rewrite Hpre. unfold read. cbn [fst snd].
  destruct (idOk doc' (peers st) && uniqueOk "publicKey" doc' (peers st));
    [|discriminate].
  unfold write, Peer.postSave, bind, Peer.countDocuments, read, ret. cbn [fst snd].
  intros [= <- <-]. exists doc'.
  assert (Peer.serverRef doc' = Peer.serverRef doc) as Href.
  { unfold Peer.serverRef. destruct Hassigned as (_ & Hget & _).
    rewrite Hget; [reflexivity|]. unfold maintained. notinlist. }
  rewrite Href. split; [exact Hassigned|]. repeat split.
Qed.

End StoredFacts.

(** ** Saving, enabling and disabling a peer *)

Module PeerStateFacts.
Import Mongo MongoFacts Stored StoredFacts.

Lemma recount_keeps_id (v : JValue) (a b : JValue) (now : Z) (d : Doc) :
  matches [Eq "_id" v] d = true ->
  matches [Eq "_id" v]
    (<["peerCount" := a]> (<["activePeers" := b]> (<["updatedAt" := JDate now]> d))) = true.
Proof.
  rewrite !matches_byId. intros Hid.
  now rewrite !lookup_insert_ne by discriminate.
Qed.

(** The record of a server after a recount holds the two counts. *)
Lemma recounted (i a b : JValue) (now : Z) (coll : list Doc) (srv : Doc) :
  Mongo.findOne [Eq "_id" i]
    (updateFirst [Eq "_id" i]
       (fun srv => <["peerCount" := a]>
                     (<["activePeers" := b]> (<["updatedAt" := JDate now]> srv))) coll)
  = Some srv ->
  srv !! "peerCount" = Some a /\ srv !! "activePeers" = Some b.
Proof.
  rewrite findOne_updateFirst by (intros d; apply recount_keeps_id).
  destruct (Mongo.findOne _ coll) as [srv0|]; [|discriminate].
  intros [= <-]. split.
  - apply lookup_insert_eq.
  - rewrite lookup_insert_ne by discriminate. apply lookup_insert_eq.
Qed.

(** X11.  Every successful [save] of a peer leaves the counters of its server
    equal to what the collection holds: [peerCount] is the number of
    enabled peers of the server and [activePeers] the number of its
    enabled peers that are connected. *)
Theorem peer_save_recounts (now : Z) (populated : option Doc) (doc saved' : Document)
    (st st' : Store) :
  Peer.save now populated doc st = (Ok saved', st') ->
  forall srv,
    Mongo.findOne [Eq "_id" (Peer.serverRef doc)] (servers st') = Some srv ->
    srv !! "peerCount"
    = Some (JInt (Mongo.countDocuments
                    [Eq "server" (Peer.serverRef doc); Eq "enabled" (JBool true)]
                    (peers st')))
    /\ srv !! "activePeers"
       = Some (JInt (Mongo.countDocuments
                       [Eq "server" (Peer.serverRef doc);
                        Eq "status" (JStr "connected"); Eq "enabled" (JBool true)]
                       (peers st'))).
Proof.
  intros Hsave srv Hsrv.
  apply peer_save_Ok in Hsave as (doc' & _ & _ & _ & Hservers & _).
  rewrite Hservers in Hsrv. exact (recounted _ _ _ _ _ _ Hsrv).
Qed.

Lemma peer_save_recounts_witness :
  let doc := set "status" (JStr "connected")
                (load Peer.hidden (Scenario.peer 11 1 "k2" "pending" "10.5.0.2" ∅)) in
  let r := Peer.save 9000 None doc Scenario.storePending in
  r.1 = Ok (Scenario.valueOf Scenario.blank r)
  /\ forall srv,
       Mongo.findOne [Eq "_id" (JId 1)] (servers r.2) = Some srv ->
       srv !! "peerCount" = Some (JInt 1) /\ srv !! "activePeers" = Some (JInt 1).
Proof.
  intros doc r.
  assert (r = (Ok (Scenario.valueOf Scenario.blank r), r.2)) as Hsave by (apply ScenarioFacts.valueOf_Ok; vm_compute; reflexivity).
  split; [now rewrite Hsave at 1|].
  intros srv Hsrv.
  exact (peer_save_recounts 9000 None doc (Scenario.valueOf Scenario.blank r) Scenario.storePending
           r.2 Hsave srv Hsrv).
Defined.

Lemma toClientJSON_lookup (doc : Document) (path : string) :
  path ∉ ["__v"; "_id"; "presharedKey"; "privateKey"] ->
  PeerOps.toClientJSON doc !! path = get path doc.
Proof.
  intros Hout. unfold PeerOps.toClientJSON, get.
  apply not_elem_of_cons in Hout as [H1 Hout]. apply not_elem_of_cons in Hout as [H2 Hout].
  apply not_elem_of_cons in Hout as [H3 Hout]. apply not_elem_of_cons in Hout as [H4 _].
  now rewrite !lookup_delete_ne by congruence.
Qed.

Lemma written_keeps_id (doc : Document) (v : JValue) (d : Doc) :
  get "_id" doc = Some v ->
  matches [Eq "_id" v] d = true -> matches [Eq "_id" v] (writeFields doc d) = true.
Proof.
  rewrite !matches_byId. intros Hdoc Hd. rewrite writeFields_lookup.
  now destruct (decide _).
Qed.

(** The tail of [enablePeer] and [disablePeer]: the two assignments and
    the [save]. *)
Lemma switched (enabled : bool) (status : string) (d : Doc) (peerId : JValue)
    (populated : option Doc) (now : Z) (st st' : Store) (saved' : Document) :
  Mongo.findOne [Eq "_id" peerId] (peers st) = Some d ->
  Peer.save now populated
    (set "status" (JStr status) (set "enabled" (JBool enabled) (load Peer.hidden d))) st
  = (Ok saved', st') ->
  PeerOps.toClientJSON saved' !! "enabled" = Some (JBool enabled)
  /\ PeerOps.toClientJSON saved' !! "status" = Some (JStr status)
  /\ (exists d', Mongo.findOne [Eq "_id" peerId] (peers st') = Some d'
                 /\ d' !! "enabled" = Some (JBool enabled)
                 /\ d' !! "status" = Some (JStr status))
  /\ (forall srv,
        Mongo.findOne [Eq "_id" (default JNull (d !! "server"))] (servers st') = Some srv ->
        srv !! "peerCount"
        = Some (JInt (Mongo.countDocuments
                        [Eq "server" (default JNull (d !! "server"));
                         Eq "enabled" (JBool true)] (peers st')))
        /\ srv !! "activePeers"
           = Some (JInt (Mongo.countDocuments
                           [Eq "server" (default JNull (d !! "server"));
                            Eq "status" (JStr "connected"); Eq "enabled" (JBool true)]
                           (peers st')))).
Proof.
  intros Hfound Hsave.
  set (peer := set "status" (JStr status)
                 (set "enabled" (JBool enabled) (load Peer.hidden d))) in *.
  assert (Peer.serverRef peer = default JNull (d !! "server")) as Href.
  { unfold Peer.serverRef, peer. do 2 rewrite get_set_ne by discriminate.
    rewrite SyncFacts.get_load; [reflexivity|]. unfold Peer.hidden. notinlist. }
  apply peer_save_Ok in Hsave as (doc' & (Hnew & Hget & Hfaithful) & -> & Hpeers & Hservers & _).
  rewrite Href in Hservers.
  assert (forall srv,
            Mongo.findOne [Eq "_id" (default JNull (d !! "server"))] (servers st') = Some srv ->
            srv !! "peerCount"
            = Some (JInt (Mongo.countDocuments
                            [Eq "server" (default JNull (d !! "server"));
                             Eq "enabled" (JBool true)] (peers st')))
            /\ srv !! "activePeers"
               = Some (JInt (Mongo.countDocuments
                               [Eq "server" (default JNull (d !! "server"));
                                Eq "status" (JStr "connected"); Eq "enabled" (JBool true)]
                               (peers st')))) as Hcount
    by (intros srv Hsrv; rewrite Hservers in Hsrv; exact (recounted _ _ _ _ _ _ Hsrv)).
  assert (get "enabled" doc' = Some (JBool enabled)) as Henabled.
  { rewrite Hget by (unfold maintained; notinlist). unfold peer.
    rewrite get_set_ne by discriminate. apply get_set_eq. }
  assert (get "status" doc' = Some (JStr status)) as Hstatus.
  { rewrite Hget by (unfold maintained; notinlist). apply get_set_eq. }
  assert (get "_id" doc' = Some peerId) as Hid.
  { rewrite Hget by (unfold maintained; notinlist). unfold peer.
    do 2 rewrite get_set_ne by discriminate.
    rewrite SyncFacts.get_load by (unfold Peer.hidden; notinlist).
    apply findOne_Some in Hfound as [_ Hmatch]. now apply matches_byId in Hmatch. }
  assert (Faithful Peer.hidden d doc') as [Hold Hwritten].
  { apply Hfaithful. unfold peer. do 2 apply Faithful_set. apply Faithful_load. }
  split; [|split; [|split]].
  - rewrite toClientJSON_lookup by notinlist. exact Henabled.
  - rewrite toClientJSON_lookup by notinlist. exact Hstatus.
  - exists (writeFields doc' d). rewrite Hpeers. unfold persist. rewrite Hold.
    unfold byId. unfold get in Hid. rewrite Hid.
    rewrite findOne_updateFirst by (intros e; now apply written_keeps_id).
    rewrite Hfound. split; [reflexivity|].
    rewrite !Hwritten by (unfold Peer.hidden; notinlist). now split.
  - exact Hcount.
Qed.

(** X12.  Enabling or disabling a peer, when it succeeds, stores the new flag
    and status on the peer and leaves the counters of its server equal
    to the counts over the collection. *)
Theorem peer_switch_effect (enable : bool) (peerId : JValue) (sh : Service.Shell)
    (now : Z) (st st' : Store) (out : Doc) :
  (if enable then Service.enablePeer else Service.disablePeer) peerId sh now st
  = (Ok out, st') ->
  exists d,
    Mongo.findOne [Eq "_id" peerId] (peers st) = Some d
    /\ Service.wgSetOk sh && Service.wgSaveOk sh = true
    /\ out !! "enabled" = Some (JBool enable)
    /\ out !! "status" = Some (JStr (if enable then "pending" else "disabled"))
    /\ (exists d', Mongo.findOne [Eq "_id" peerId] (peers st') = Some d'
                   /\ d' !! "enabled" = Some (JBool enable)
                   /\ d' !! "status" = Some (JStr (if enable then "pending" else "disabled")))
    /\ (forall srv,
          Mongo.findOne [Eq "_id" (default JNull (d !! "server"))] (servers st')
          = Some srv ->
          srv !! "peerCount"
          = Some (JInt (Mongo.countDocuments
                          [Eq "server" (default JNull (d !! "server"));
                           Eq "enabled" (JBool true)] (peers st')))
          /\ srv !! "activePeers"
             = Some (JInt (Mongo.countDocuments
                             [Eq "server" (default JNull (d !! "server"));
                              Eq "status" (JStr "connected"); Eq "enabled" (JBool true)]
                             (peers st')))).
Proof.
  destruct enable; unfold Service.enablePeer, Service.disablePeer;
    unfold bind, Peer.findById, Peer.findOne, Server.findById, Server.findOne, read;
    cbn [fst snd];
    (destruct (Mongo.findOne [Eq "_id" peerId] (peers st)) as [d|] eqn:Hfound;
       cbn [fmap option_fmap option_map]; [|discriminate]);
    (destruct (Mongo.findOne _ (servers st)) as [srv|];
       cbn [fmap option_fmap option_map]; [|discriminate]);
    unfold command;
    (destruct (Service.wgSetOk sh); [|discriminate]);
    (destruct (Service.wgSaveOk sh); [|discriminate]);
    unfold ret; cbn beta iota;
    match goal with
    | |- context [Peer.save ?n ?p ?doc st] =>
        destruct (Peer.save n p doc st) as [[saved'|message] st1] eqn:Hsave
    end; intros H; try discriminate H; injection H as <- <-;
    exists d; (split; [reflexivity|]); (split; [reflexivity|]);
    exact (switched _ _ _ _ _ _ _ _ _ Hfound Hsave).
Qed.

Lemma peer_switch_effect_witness :
  let r := Service.disablePeer (JId 11) Scenario.shellOk 9000 Scenario.storePending in
  let out := Scenario.valueOf ∅ r in
  r.1 = Ok out
  /\ out !! "enabled" = Some (JBool false)
  /\ out !! "status" = Some (JStr "disabled")
  /\ exists d', Mongo.findOne [Eq "_id" (JId 11)] (peers r.2) = Some d'
                /\ d' !! "enabled" = Some (JBool false)
                /\ d' !! "status" = Some (JStr "disabled").
Proof.
  intros r out.
  assert (r = (Ok out, r.2)) as Hswitch by (apply ScenarioFacts.valueOf_Ok; vm_compute; reflexivity).
  split; [now rewrite Hswitch at 1|].
  destruct (peer_switch_effect false (JId 11) Scenario.shellOk 9000 Scenario.storePending
              r.2 out Hswitch) as (d & _ & _ & Henabled & Hstatus & Hstored & _).
  repeat split; assumption.
Defined.

(** X13.  [removePeer], [enablePeer] and [disablePeer] write nothing unless both
    [wg] commands succeed and the peer exists: they throw and the store
    is as it was. *)
Theorem peer_operations_fail_clean (peerId : JValue) (sh : Service.Shell) (now : Z)
    (st : Store) :
  Service.wgSetOk sh && Service.wgSaveOk sh = false
  \/ Mongo.findOne [Eq "_id" peerId] (peers st) = None ->
  (exists message, Service.removePeer peerId sh now st = (Throw message, st))
  /\ (exists message, Service.enablePeer peerId sh now st = (Throw message, st))
  /\ (exists message, Service.disablePeer peerId sh now st = (Throw message, st)).
Proof.
  intros Hfail.
  unfold Service.removePeer, Service.enablePeer, Service.disablePeer, tryCatch,
    bind, Peer.findById, Peer.findOne, Server.findById, Server.findOne, read, throw.
  cbn [fst snd].
  destruct (Mongo.findOne [Eq "_id" peerId] (peers st)) as [d|] eqn:Hfound;
    cbn [fmap option_fmap option_map]; [|repeat split; eexists; reflexivity].
  destruct Hfail as [Hfail|Hnone]; [|discriminate].
  destruct (Mongo.findOne _ (servers st)) as [srv|];
    cbn [fmap option_fmap option_map]; [|repeat split; eexists; reflexivity].
  unfold command, throw, ret.
  destruct (Service.wgSetOk sh); [|repeat split; eexists; reflexivity].
  destruct (Service.wgSaveOk sh); [discriminate|repeat split; eexists; reflexivity].
Qed.

Lemma peer_operations_fail_clean_witness :
  (exists message,
     Service.removePeer (JId 11) Scenario.shellDown 9000 Scenario.storePending = (Throw message, Scenario.storePending))
  /\ (exists message,
        Service.enablePeer (JId 11) Scenario.shellDown 9000 Scenario.storePending
        = (Throw message, Scenario.storePending))
  /\ (exists message,
        Service.disablePeer (JId 11) Scenario.shellDown 9000 Scenario.storePending
        = (Throw message, Scenario.storePending)).
Proof.
  apply (peer_operations_fail_clean (JId 11) Scenario.shellDown 9000 Scenario.storePending).
  left. reflexivity.
Defined.

End PeerStateFacts.

(** ** The status of a server *)

Module ServerStateFacts.
Import Mongo MongoFacts Stored StoredFacts.

Lemma server_save_Ok (now : Z) (doc saved' : Document) (st st' : Store) :
  Server.save now doc st = (Ok saved', st') ->
  saved' = saved (Server.preSave now doc)
  /\ st' = withServers (persist (Server.preSave now doc)) st.
Proof.
  unfold Server.save. destruct (_ && _); [|discriminate]. now intros [= <- <-].
Qed.

Lemma updateStatus_restatus (newStatus : string) (now : Z) (doc : Document) :
  Server.updateStatus newStatus now doc = Server.save now (Server.restatus newStatus now doc).
Proof. reflexivity. Qed.

Lemma get_saved_preSave (now : Z) (doc : Document) (path : string) :
  path ∉ ["updatedAt"; "lastSync"; "dns"] ->
  get path (saved (Server.preSave now doc)) = get path doc.
Proof. intros Hout. now rewrite RoundTripFacts.get_saved, RoundTripFacts.get_preSave. Qed.

(** The fields of a server that was inactive, has been started at [t0]
    and stopped at [t1]. *)
Lemma cycle_fields (t0 t1 : Z) (doc doc1 doc2 : Document) (st st1 st2 : Store) :
  get "status" doc = Some (JStr "inactive") ->
  Server.updateStatus "active" t0 doc st = (Ok doc1, st1) ->
  Server.updateStatus "inactive" t1 doc1 st1 = (Ok doc2, st2) ->
  get "totalUptime" doc2
  = Some (plusQ (get "totalUptime" doc) (inject_Z (t1 - t0) / 1000))
  /\ get "lastStartTime" doc2 = Some (JDate t0)
  /\ get "lastStopTime" doc2 = Some (JDate t1)
  /\ get "status" doc2 = Some (JStr "inactive")
  /\ get "createdAt" doc2 = get "createdAt" doc.
Proof.
  intros Hstatus Hstart Hstop.
  rewrite updateStatus_restatus in Hstart, Hstop.
  apply server_save_Ok in Hstart as [-> _]. apply server_save_Ok in Hstop as [-> _].
  set (started := Server.restatus "active" t0 doc) in *.
  assert (get "status" started = Some (JStr "active")
          /\ get "lastStartTime" started = Some (JDate t0)
          /\ get "totalUptime" started = get "totalUptime" doc
          /\ get "createdAt" started = get "createdAt" doc) as (Hs1 & Hs2 & Hs3 & Hs4).
  { unfold started, Server.restatus. rewrite Hstatus.
    cbn [bool_decide decide_rel andb String.eqb Ascii.eqb Bool.eqb].
    rewrite bool_decide_eq_false_2 by discriminate.
    rewrite bool_decide_eq_true_2 by reflexivity. cbn [andb].
    repeat split.
    - apply get_set_eq.
    - rewrite get_set_ne by discriminate. apply get_set_eq.
    - now do 2 rewrite get_set_ne by discriminate.
    - now do 2 rewrite get_set_ne by discriminate. }
  set (running := saved (Server.preSave t0 started)) in *.
  assert (get "status" running = Some (JStr "active")
          /\ get "lastStartTime" running = Some (JDate t0)
          /\ get "totalUptime" running = get "totalUptime" doc
          /\ get "createdAt" running = get "createdAt" doc) as (Hr1 & Hr2 & Hr3 & Hr4).
  { unfold running. rewrite !get_saved_preSave by notinlist. now repeat split. }
  rewrite !get_saved_preSave by notinlist.
  unfold Server.restatus. rewrite Hr1, Hr2.
  rewrite bool_decide_eq_true_2 by reflexivity.
  cbn [andb String.eqb Ascii.eqb Bool.eqb].
  repeat split.
  - do 2 rewrite get_set_ne by discriminate. rewrite get_set_eq. now rewrite Hr3.
  - do 3 rewrite get_set_ne by discriminate. exact Hr2.
  - rewrite get_set_ne by discriminate. apply get_set_eq.
  - apply get_set_eq.
  - now do 3 rewrite get_set_ne by discriminate.
Qed.

(** X14.  Starting an inactive server and stopping it later adds the seconds
    in between to its uptime. *)
Theorem start_then_stop_accrues (t0 t1 : Z) (doc doc1 doc2 : Document)
    (st st1 st2 : Store) :
  get "status" doc = Some (JStr "inactive") ->
  Server.updateStatus "active" t0 doc st = (Ok doc1, st1) ->
  Server.updateStatus "inactive" t1 doc1 st1 = (Ok doc2, st2) ->
  get "totalUptime" doc2
  = Some (plusQ (get "totalUptime" doc) (inject_Z (t1 - t0) / 1000))
  /\ get "lastStartTime" doc2 = Some (JDate t0)
  /\ get "lastStopTime" doc2 = Some (JDate t1)
  /\ get "status" doc2 = Some (JStr "inactive").
Proof.
  intros Hstatus Hstart Hstop.
  destruct (cycle_fields t0 t1 doc doc1 doc2 st st1 st2 Hstatus Hstart Hstop)
    as (Htotal & Hstarted & Hstopped & Hnow & _).
  repeat split; assumption.
Qed.

Lemma start_then_stop_accrues_witness :
  let doc := load Server.hidden Scenario.wgA in
  let r1 := Server.updateStatus "active" 1000 doc Scenario.storeA in
  let r2 := Server.updateStatus "inactive" 61000 (Scenario.valueOf Scenario.blank r1) r1.2 in
  let doc2 := Scenario.valueOf Scenario.blank r2 in
  get "totalUptime" doc2 = Some (plusQ (get "totalUptime" doc) (inject_Z (61000 - 1000) / 1000))
  /\ get "lastStartTime" doc2 = Some (JDate 1000)
  /\ get "lastStopTime" doc2 = Some (JDate 61000)
  /\ get "status" doc2 = Some (JStr "inactive").
Proof.
  intros doc r1 r2 doc2.
  apply (start_then_stop_accrues 1000 61000 doc (Scenario.valueOf Scenario.blank r1) doc2
           Scenario.storeA r1.2 r2.2).
  - decided.
  - apply ScenarioFacts.valueOf_Ok. vm_compute. reflexivity.
  - apply ScenarioFacts.valueOf_Ok. vm_compute. reflexivity.
Defined.



(** X15.  Uptime only accrues from [active] to [inactive], and the start time
    is only stamped from [inactive] to [active]: stopping a server in
    any other state records no stop, and starting one that is in state
    [error] leaves the old start time. *)
Theorem status_changes_outside_the_cycle (now : Z) (doc doc' : Document)
    (st st' : Store) :
  (get "status" doc <> Some (JStr "active") ->
   Server.updateStatus "inactive" now doc st = (Ok doc', st') ->
   get "totalUptime" doc' = get "totalUptime" doc
   /\ get "lastStopTime" doc' = get "lastStopTime" doc)
  /\ (get "status" doc <> Some (JStr "inactive") ->
      Server.updateStatus "active" now doc st = (Ok doc', st') ->
      get "lastStartTime" doc' = get "lastStartTime" doc
      /\ get "status" doc' = Some (JStr "active")).
Proof.
  split; intros Hstatus Hsave; rewrite updateStatus_restatus in Hsave;
    apply server_save_Ok in Hsave as [-> _]; rewrite !get_saved_preSave by notinlist;
    unfold Server.restatus; cbn [String.eqb Ascii.eqb Bool.eqb andb].
  - rewrite bool_decide_eq_false_2 by exact Hstatus. cbn [andb].
    rewrite andb_false_r. now rewrite !get_set_ne by discriminate.
  - rewrite andb_false_r. rewrite (bool_decide_eq_false_2 _ Hstatus). cbn [andb].
    rewrite get_set_ne by discriminate. split; [reflexivity|apply get_set_eq].
Qed.

End ServerStateFacts.

(** ** Importing a server from its configuration *)

Module ImportFacts.
Import Js TextFacts ParseFacts RoundTrip EditFacts Mongo MongoFacts Reading.










End ImportFacts.

(** ** Starting and stopping an interface *)

Module LifecycleFacts.
Import Mongo MongoFacts Stored StoredFacts PeerStateFacts ServerStateFacts.

Lemma isModified_load (hidden : list string) (d : Doc) (path : string) :
  isModified path (load hidden d) = false.
Proof. unfold isModified, load. cbn. apply bool_decide_eq_false. apply not_elem_of_empty. Qed.

Lemma restatus_assigned (newStatus : string) (now : Z) (doc : Document) :
  Assigned ["totalUptime"; "lastStopTime"; "lastStartTime"; "status"] doc
    (Server.restatus newStatus now doc).
Proof.
  unfold Server.restatus.
  eapply Assigned_trans; [|apply Assigned_set; inlist].
  destruct (_ && _).
  - eapply Assigned_trans; [|apply Assigned_set; inlist].
    destruct (get "lastStartTime" doc) as [[]|]; try apply Assigned_refl.
    apply Assigned_set. inlist.
  - destruct (_ && _); [apply Assigned_set; inlist|apply Assigned_refl].
Qed.

Lemma server_preSave_assigned (now : Z) (doc : Document) :
  Assigned ["updatedAt"; "lastSync"; "dns"] doc (Server.preSave now doc).
Proof.
  unfold Server.preSave.
  eapply Assigned_trans; [apply (Assigned_set _ _ "updatedAt"); inlist|].
  match goal with
  | |- context [if ?b then ?x else ?y] =>
      eapply (Assigned_trans _ _ (if b then x else y));
        [destruct b; [apply Assigned_set; inlist|apply Assigned_refl]|]
  end.
  match goal with
  | |- Assigned _ ?a _ => destruct (get "dns" a) as [[| | | | | |[|]| |]|];
      try apply Assigned_refl
  end.
  apply Assigned_set. inlist.
Qed.

(** The first record a query finds, and what is before it. *)
Lemma findOne_first (q : list Cond) (coll : list Doc) (d : Doc) :
  Mongo.findOne q coll = Some d ->
  exists pre post, coll = (pre ++ d :: post)%list
                   /\ matches q d = true
                   /\ forall e, e ∈ pre -> matches q e = false.
Proof.
  unfold Mongo.findOne. induction coll as [|e rest IH]; [discriminate|].
  cbn [List.find]. destruct (matches q e) eqn:He.
  - intros [= ->]. exists [], rest. split; [reflexivity|]. split; [exact He|].
    intros e' Hin. now apply elem_of_nil in Hin.
  - intros Hfind. destruct (IH Hfind) as (pre & post & -> & Hd & Hpre).
    exists (e :: pre), post. split; [reflexivity|]. split; [exact Hd|].
    intros e' Hin. apply elem_of_cons in Hin as [->|Hin]; [exact He|now apply Hpre].
Qed.

Lemma findOne_split (q : list Cond) (pre post : list Doc) (d : Doc) :
  (forall e, e ∈ pre -> matches q e = false) -> matches q d = true ->
  Mongo.findOne q (pre ++ d :: post) = Some d.
Proof.
  unfold Mongo.findOne. intros Hpre Hd. induction pre as [|e pre IH]; cbn [app List.find].
  - now rewrite Hd.
  - rewrite (Hpre e) by apply list_elem_of_here.
    apply IH. intros e' Hin. apply Hpre. now apply list_elem_of_further.
Qed.

Lemma updateFirst_split (q : list Cond) (f : Doc -> Doc) (pre post : list Doc) (d : Doc) :
  (forall e, e ∈ pre -> matches q e = false) -> matches q d = true ->
  updateFirst q f (pre ++ d :: post) = (pre ++ f d :: post)%list.
Proof.
  intros Hpre Hd. induction pre as [|e pre IH]; cbn [app updateFirst].
  - now rewrite Hd.
  - rewrite (Hpre e) by apply list_elem_of_here. f_equal.
    apply IH. intros e' Hin. apply Hpre. now apply list_elem_of_further.
Qed.

Lemma deleteFirst_split (q : list Cond) (pre post : list Doc) (d : Doc) :
  (forall e, e ∈ pre -> matches q e = false) -> matches q d = true ->
  Service.deleteFirst q (pre ++ d :: post) = (pre ++ post)%list.
Proof.
  intros Hpre Hd. induction pre as [|e pre IH]; cbn [app Service.deleteFirst].
  - now rewrite Hd.
  - rewrite (Hpre e) by apply list_elem_of_here. f_equal.
    apply IH. intros e' Hin. apply Hpre. now apply list_elem_of_further.
Qed.

Lemma deleteMany_none (q : list Cond) (coll : list Doc) :
  (forall e, e ∈ coll -> matches q e = false) -> Service.deleteMany q coll = coll.
Proof.
  intros Hnone. unfold Service.deleteMany.
  induction coll as [|e rest IH]; [reflexivity|]. cbn [List.filter].
  rewrite (Hnone e) by apply list_elem_of_here. cbn [negb]. f_equal.
  apply IH. intros e' Hin. apply Hnone. now apply list_elem_of_further.
Qed.

Lemma deleteMany_app (q : list Cond) (a b : list Doc) :
  Service.deleteMany q (a ++ b) = (Service.deleteMany q a ++ Service.deleteMany q b)%list.
Proof. unfold Service.deleteMany. apply List.filter_app. Qed.

(** Under the primary index the record found is the only one with its
    [_id]. *)
Lemma found_alone (q : list Cond) (coll : list Doc) (d : Doc) (i : JValue) :
  UniqueIds coll -> Mongo.findOne q coll = Some d -> d !! "_id" = Some i ->
  exists pre post, coll = (pre ++ d :: post)%list
                   /\ (forall e, e ∈ pre -> matches q e = false)
                   /\ (forall e, e ∈ pre -> matches [Eq "_id" i] e = false)
                   /\ (forall e, e ∈ post -> matches [Eq "_id" i] e = false).
Proof.
  intros Huniq Hfind Hid.
  destruct (findOne_first q coll d Hfind) as (pre & post & -> & Hd & Hpre).
  exists pre, post. split; [reflexivity|]. split; [exact Hpre|].
  unfold UniqueIds in Huniq. rewrite fmap_app, fmap_cons in Huniq.
  apply NoDup_app in Huniq as (_ & Hdisjoint & Hrest).
  apply NoDup_cons in Hrest as [Hnotin _]. rewrite Hid in *.
  split; intros e Hin; apply not_true_is_false; rewrite matches_byId; intros He.
  - apply (Hdisjoint (Some i)); [|apply list_elem_of_here].
    apply list_elem_of_fmap. exists e. now split.
  - apply Hnotin. apply list_elem_of_fmap. exists e. now split.
Qed.

(** A change of status of a server just read: the [save] goes through
    and writes the record in place. *)
Lemma status_saved (newStatus : string) (now : Z) (st : Store) (srv : Doc) (i : JValue)
    (pre post : list Doc) :
  servers st = (pre ++ srv :: post)%list ->
  (forall e, e ∈ pre -> matches [Eq "_id" i] e = false) ->
  srv !! "_id" = Some i ->
  exists doc' srv',
    Server.updateStatus newStatus now (load Server.hidden srv) st
    = (Ok doc', {| servers := pre ++ srv' :: post; peers := peers st;
                   profiles := profiles st |})
    /\ srv' !! "_id" = Some i
    /\ srv' !! "status" = Some (JStr newStatus)
    /\ srv' !! "interfaceName" = srv !! "interfaceName"
    /\ Service.idOf doc' = i.
Proof.
  intros Hsplit Hpre Hid.
  rewrite updateStatus_restatus.
  set (doc := Server.restatus newStatus now (load Server.hidden srv)).
  destruct (restatus_assigned newStatus now (load Server.hidden srv))
    as (Hnew & Hget & Hfaithful). fold doc in Hnew, Hget, Hfaithful.
  set (doc1 := Server.preSave now doc).
  destruct (server_preSave_assigned now doc) as (Hnew1 & Hget1 & Hfaithful1).
  fold doc1 in Hnew1, Hget1, Hfaithful1.
  assert (Faithful Server.hidden srv doc1) as [Hold Hwritten]
    by (apply Hfaithful1, Hfaithful, Faithful_load).
  assert (get "_id" doc1 = Some i) as Hid1.
  { rewrite Hget1, Hget by notinlist.
    rewrite SyncFacts.get_load by (unfold Server.hidden; notinlist). exact Hid. }
  assert (isModified "interfaceName" doc1 = false) as Hunmod.
  { unfold doc1, Server.preSave, doc, Server.restatus.
    repeat match goal with
           | |- context [if ?b then _ else _] => destruct b
           | |- context [match ?x with _ => _ end] => destruct x
           end;
      repeat (rewrite isModified_set_ne by discriminate);
      apply isModified_load. }
  unfold Server.save. fold doc1.
  assert (idOk doc1 (servers st) = true) as ->.
  { unfold idOk. unfold get in Hid1. now rewrite Hid1, Hold. }
  assert (uniqueOk "interfaceName" doc1 (servers st) = true) as ->.
  { unfold uniqueOk. now rewrite Hold, Hunmod. }
  cbn [andb]. exists (saved doc1), (writeFields doc1 srv). split.
  - unfold withServers, persist. rewrite Hold. unfold byId.
    unfold get in Hid1. rewrite Hid1, Hsplit.
    rewrite updateFirst_split; [reflexivity|exact Hpre|now apply matches_byId].
  - rewrite !Hwritten by (unfold Server.hidden; notinlist).
    rewrite !Hget1 by notinlist. split; [|split; [|split]].
    + rewrite Hget by notinlist.
      rewrite SyncFacts.get_load by (unfold Server.hidden; notinlist). exact Hid.
    + unfold doc, Server.restatus. apply get_set_eq.
    + rewrite Hget by notinlist.
      now rewrite SyncFacts.get_load by (unfold Server.hidden; notinlist).
    + unfold Service.idOf. rewrite RoundTripFacts.get_saved. now rewrite Hid1.
Qed.



End LifecycleFacts.

(** ** Creating a peer *)

Module NewPeerFacts.
Import Mongo MongoFacts Stored StoredFacts PeerStateFacts AllocSpec.







End NewPeerFacts.

(** ** Deleting an interface *)

Module DeleteFacts.
Import Mongo MongoFacts Stored StoredFacts PeerStateFacts ServerStateFacts LifecycleFacts.

Lemma deleteMany_updateMany (path : string) (v : JValue) (q : list Cond) (upd : Doc)
    (coll : list Doc) :
  upd !! path = None ->
  Service.deleteMany [Eq path v] (Mongo.updateMany (Eq path v :: q) upd coll)
  = Service.deleteMany [Eq path v] coll.
Proof.
  intros Hupd. unfold Service.deleteMany, Mongo.updateMany.
  induction coll as [|d rest IH]; [reflexivity|]. cbn [fmap list_fmap List.filter].
  fold (@fmap list _ Doc Doc). 
  destruct (matches (Eq path v :: q) d) eqn:Hd.
  - rewrite matches_cons in Hd. apply andb_true_iff in Hd as [Hd _].
    assert (matches [Eq path v] d = true) as ->
      by now rewrite matches_cons, Hd.
    assert (matches [Eq path v] (upd ∪ d) = true) as ->.
    { rewrite matches_cons, andb_true_r. apply holds_Eq. apply holds_Eq in Hd.
      now rewrite lookup_union_r. }
    cbn [negb]. exact IH.
  - destruct (negb (matches [Eq path v] d)); [f_equal|]; exact IH.
Qed.

(** What is left after the attempt to stop the interface. *)
Lemma stop_attempted (interfaceName : string) (downOk : bool) (now : Z) (st : Store)
    (srv : Doc) (i : JValue) (pre post : list Doc) :
  Mongo.findOne (Service.byName interfaceName) (servers st) = Some srv ->
  servers st = (pre ++ srv :: post)%list ->
  (forall e, e ∈ pre -> matches [Eq "_id" i] e = false) ->
  srv !! "_id" = Some i ->
  exists srv' st1,
    Service.attempt (Service.stopInterface interfaceName downOk now) st = (Ok tt, st1)
    /\ servers st1 = (pre ++ srv' :: post)%list
    /\ srv' !! "_id" = Some i
    /\ srv' !! "interfaceName" = srv !! "interfaceName"
    /\ Service.deleteMany [Eq "server" i] (peers st1)
       = Service.deleteMany [Eq "server" i] (peers st)
    /\ profiles st1 = profiles st.
Proof.
  intros Hfound Hsplit Hpre Hid.
  unfold Service.attempt, Service.stopInterface, bind at 1, Server.findOne, read.
  cbn [fst snd]. rewrite Hfound. cbn [fmap option_fmap option_map].
  unfold tryCatch, bind, command. destruct downOk.
  - destruct (status_saved "inactive" now st srv i pre post Hsplit Hpre Hid)
      as (doc' & srv' & Hmark & Hid' & _ & Hname & Hof).
    unfold ret at 1. rewrite Hmark. rewrite Hof.
    unfold Peer.updateMany, write, ret. cbn [fst snd].
    exists srv'. eexists. split; [reflexivity|]. cbn [servers peers profiles withPeers].
    repeat split; try assumption.
    apply deleteMany_updateMany.
    now rewrite !lookup_insert_ne by discriminate.
  - destruct (status_saved "error" now st srv i pre post Hsplit Hpre Hid)
      as (doc' & srv' & Hmark & Hid' & _ & Hname & Hof).
    unfold throw at 1. rewrite Hmark. unfold throw. cbn [fst snd].
    exists srv'. eexists. split; [reflexivity|]. cbn [servers peers profiles].
    repeat split; assumption.
Qed.

Lemma deleteInterface_returns (interfaceName : string) (downOk : bool) (now : Z)
    (st : Store) :
  exists st',
    Service.deleteInterface interfaceName downOk now st
    = (Ok (Ok ("Interface " +:+ interfaceName +:+ " deleted successfully")), st').
Proof.
  unfold Service.deleteInterface, tryCatch, bind, Service.attempt, Server.findOne, read.
  cbn [fst snd].
  destruct (Mongo.findOne _ (servers _)); cbn [fmap option_fmap option_map];
    unfold write, ret; eexists; reflexivity.
Qed.

(** X19.  [deleteInterface] always reports success.  For a name the store
    does not know it changes nothing; otherwise the server of that name
    and every peer that refers to it are gone, and nothing else is. *)
Theorem deleteInterface_effect (interfaceName : string) (downOk : bool) (now : Z)
    (st : Store) :
  UniqueIds (servers st) ->
  exists st',
    Service.deleteInterface interfaceName downOk now st
    = (Ok (Ok ("Interface " +:+ interfaceName +:+ " deleted successfully")), st')
    /\ match Mongo.findOne (Service.byName interfaceName) (servers st) with
       | None => st' = st
       | Some srv =>
           forall i, srv !! "_id" = Some i ->
             servers st' = Service.deleteMany [Eq "_id" i] (servers st)
             /\ peers st' = Service.deleteMany [Eq "server" i] (peers st)
             /\ profiles st' = profiles st
       end.
Proof.
  intros Huniq.
  destruct (deleteInterface_returns interfaceName downOk now st) as [st' Hreturns].
  exists st'. split; [exact Hreturns|].
  destruct (Mongo.findOne (Service.byName interfaceName) (servers st)) as [srv|] eqn:Hfound.
  - intros i Hid.
    destruct (found_alone _ _ _ _ Huniq Hfound Hid)
      as (pre & post & Hsplit & Hname & Hpre & Hpost).
    destruct (stop_attempted interfaceName downOk now st srv i pre post
                Hfound Hsplit Hpre Hid)
      as (srv' & st1 & Hstop & Hservers & Hid' & Hname' & Hpeers & Hprofiles).
    assert (Mongo.findOne (Service.byName interfaceName) (servers st1) = Some srv')
      as Hfound'.
    { rewrite Hservers. apply findOne_split; [exact Hname|].
      apply findOne_Some in Hfound as [_ Hmatch]. unfold Service.byName in *.
      rewrite matches_cons, andb_true_r in *. apply holds_Eq. apply holds_Eq in Hmatch.
      congruence. }
    revert Hreturns.
    unfold Service.deleteInterface, tryCatch. unfold bind at 1. rewrite Hstop.
    unfold bind, Server.findOne, read. cbn [fst snd].
    rewrite Hfound'. cbn [fmap option_fmap option_map].
    assert (Service.idOf (load Server.hidden srv') = i) as ->.
    { unfold Service.idOf.
      rewrite SyncFacts.get_load by (unfold Server.hidden; notinlist). now rewrite Hid'. }
    unfold write, ret. cbn [fst snd]. intros [= <-].
    cbn [servers peers profiles withPeers withServers].
    split; [|split; [exact Hpeers|exact Hprofiles]].
    rewrite Hservers, Hsplit.
    rewrite deleteFirst_split by (try exact Hpre; now apply matches_byId).
    rewrite deleteMany_app. change (srv :: post) with ([srv] ++ post)%list.
    rewrite deleteMany_app, (deleteMany_none _ pre Hpre), (deleteMany_none _ post Hpost).
    unfold Service.deleteMany. cbn [List.filter].
    now rewrite (proj2 (matches_byId i srv) Hid).
  - assert (Service.attempt (Service.stopInterface interfaceName downOk now) st
            = (Ok tt, st)) as Hstop.
    { unfold Service.attempt, Service.stopInterface, bind, Server.findOne, read.
      cbn [fst snd]. now rewrite Hfound. }
    revert Hreturns.
    unfold Service.deleteInterface, tryCatch. unfold bind at 1. rewrite Hstop.
    unfold bind, Server.findOne, read, ret. cbn [fst snd]. rewrite Hfound.
    cbn [fmap option_fmap option_map]. now intros [= <-].
Qed.

Lemma deleteInterface_effect_witness :
  exists st',
    Service.deleteInterface "wg1" true 9000 Scenario.storeRunning
    = (Ok (Ok "Interface wg1 deleted successfully"), st')
    /\ match Mongo.findOne (Service.byName "wg1") (servers Scenario.storeRunning) with
       | None => st' = Scenario.storeRunning
       | Some srv =>
           forall i, srv !! "_id" = Some i ->
             servers st' = Service.deleteMany [Eq "_id" i] (servers Scenario.storeRunning)
             /\ peers st' = Service.deleteMany [Eq "server" i] (peers Scenario.storeRunning)
             /\ profiles st' = profiles Scenario.storeRunning
       end.
Proof.
  apply (deleteInterface_effect "wg1" true 9000 Scenario.storeRunning).
  unfold UniqueIds. decided.
Defined.

End DeleteFacts.

(** ** The allowed addresses and the text of a server *)

Module ServerTextFacts.
Import Js TextFacts ParseFacts RoundTrip Mongo MongoFacts Reading Stored StoredFacts
  ServerStateFacts EditFacts SectionFacts.

(** *** The list of allowed addresses *)

Lemma filter_out_absent (ip : string) (l : list string) :
  ip ∉ l -> List.filter (fun allowedIP => negb (allowedIP =? ip)) l = l.
Proof.
  induction l as [|x l IH]; intros Hout; [reflexivity|].
  apply not_elem_of_cons in Hout as [Hne Hout]. cbn [List.filter].
  assert ((x =? ip) = false) as -> by (apply String.eqb_neq; congruence).
  cbn [negb]. f_equal. now apply IH.
Qed.

Lemma filter_out_gone (ip : string) (l : list string) :
  ip ∉ List.filter (fun allowedIP => negb (allowedIP =? ip)) l.
Proof.
  intros Hin. apply list_elem_of_In, filter_In in Hin as [_ Hne].
  now rewrite String.eqb_refl in Hne.
Qed.

(** X20.  [addAllowedIP] adds an address once, at the end, and leaves a list
    that has it alone; [removeAllowedIP] takes every occurrence out, so
    removing an address just added gives the list back. *)
Theorem allowedIPs_add_then_remove (ip : string) (t0 t1 : Z) (doc doc1 doc2 : Document)
    (st st1 st2 : Store) :
  Server.addAllowedIP ip t0 doc st = (Ok doc1, st1) ->
  Server.removeAllowedIP ip t1 doc1 st1 = (Ok doc2, st2) ->
  let before := Server.listOf (get "allowedIPs" doc) in
  (Server.listOf (get "allowedIPs" doc1)
   = if bool_decide (ip ∈ before) then before else (before ++ [ip])%list)
  /\ (ip ∉ Server.listOf (get "allowedIPs" doc2))
  /\ (ip ∉ before -> Server.listOf (get "allowedIPs" doc2) = before).
Proof.
  intros Hadd Hremove before.
  unfold Server.addAllowedIP in Hadd. unfold Server.removeAllowedIP in Hremove.
  apply server_save_Ok in Hadd as [-> _]. apply server_save_Ok in Hremove as [-> _].
  rewrite !get_saved_preSave by notinlist. rewrite get_set_eq. cbn [Server.listOf].
  fold before.
  assert (Server.listOf
            (get "allowedIPs"
               (if negb (bool_decide (ip ∈ before))
                then set "allowedIPs" (JList (before ++ [ip])) doc else doc))
          = (if bool_decide (ip ∈ before) then before else before ++ [ip])%list) as ->.
  { destruct (bool_decide (ip ∈ before)); cbn [negb]; [reflexivity|].
    now rewrite get_set_eq. }
  split; [reflexivity|]. split; [apply filter_out_gone|].
  intros Hout. rewrite bool_decide_eq_false_2 by exact Hout.
  rewrite List.filter_app, filter_out_absent by exact Hout. cbn [List.filter].
  rewrite String.eqb_refl. cbn [negb]. apply app_nil_r.
Qed.

Lemma allowedIPs_add_then_remove_witness :
  let doc := load Server.hidden Scenario.wgA in
  let r1 := Server.addAllowedIP "10.9.0.0/16" 9000 doc Scenario.storeA in
  let r2 := Server.removeAllowedIP "10.9.0.0/16" 9500 (Scenario.valueOf Scenario.blank r1) r1.2 in
  Server.listOf (get "allowedIPs" (Scenario.valueOf Scenario.blank r1)) = ["10.9.0.0/16"]
  /\ Server.listOf (get "allowedIPs" (Scenario.valueOf Scenario.blank r2)) = [].
Proof.
  intros doc r1 r2.
  destruct (allowedIPs_add_then_remove "10.9.0.0/16" 9000 9500 doc
              (Scenario.valueOf Scenario.blank r1) (Scenario.valueOf Scenario.blank r2) Scenario.storeA r1.2 r2.2)
    as (Hadded & _ & Hremoved).
  - apply ScenarioFacts.valueOf_Ok. vm_compute. reflexivity.
  - apply ScenarioFacts.valueOf_Ok. vm_compute. reflexivity.
  - split; [exact Hadded|]. apply Hremoved. vm_compute. apply not_elem_of_nil.
Defined.

(** *** The text of a server *)

Lemma configLines_fields (doc : Document) :
  Server.configLines doc
  = ("[Interface]" :: (fieldLine <$> configFields doc) ++ [""])%list.
Proof.
  unfold Server.configLines, configFields.
  destruct (truthy (get "mtu" doc)), (get "dns" doc) as [[| | | | | |[|]| |]|],
    (negb (truthy (get "enableIPv6" doc))); reflexivity.
Qed.

Lemma configFields_keys (doc : Document) :
  NoDup (configFields doc).*1 /\ forallb (fun kv => plainKey kv.1) (configFields doc) = true.
Proof.
  unfold configFields.
  destruct (truthy (get "mtu" doc)), (get "dns" doc) as [[| | | | | |[|]| |]|],
    (negb (truthy (get "enableIPv6" doc)));
    (split; [apply (bool_decide_unpack _); vm_compute; exact I|reflexivity]).
Qed.

Lemma forallb_plainField (kvs : list (string * string)) :
  forallb (fun kv => plainKey kv.1) kvs = true ->
  forallb (fun kv => plainValue kv.2) kvs = true ->
  forallb plainField kvs = true.
Proof.
  induction kvs as [|kv kvs IH]; [reflexivity|]. cbn [forallb].
  rewrite !andb_true_iff. intros [Hk Hks] [Hv Hvs]. unfold plainField at 1.
  rewrite Hk, Hv. split; [reflexivity|]. now apply IH.
Qed.

Lemma getConfigContent_parsed (doc : Document) :
  forallb (fun kv => plainValue kv.2) (configFields doc) = true ->
  Codec.parseConfig (Server.getConfigContent doc)
  = {| Codec.interface := bindings (configFields doc) ∅; Codec.peers := [] |}.
Proof.
  intros Hvalues.
  destruct (configFields_keys doc) as [Hnodup Hkeys].
  pose proof (forallb_plainField _ Hkeys Hvalues) as Hplain.
  unfold Codec.parseConfig, Server.getConfigContent.
  rewrite configLines_fields, split_join_lines.
  - change ("[Interface]" :: ?l ++ [""])%list with (["[Interface]"] ++ l ++ [""])%list.
    unfold Codec.parseLines. rewrite !fold_left_app. cbn [fold_left].
    change (Codec.parseLine _ "[Interface]")
      with {| Codec.result := {| Codec.interface := ∅; Codec.peers := [] |};
              Codec.currentSection := Some Codec.InInterface |}.
    rewrite parseLines_fields by (try exact Hplain; reflexivity).
    now rewrite parseLine_ignored by reflexivity.
  - discriminate.
  - constructor; [reflexivity|]. apply Forall_app. split; [|now constructor].
    apply Forall_fmap, Forall_forall. intros kv Hin. apply hasNewline_fieldLine.
    rewrite forallb_forall in Hplain. apply Hplain. now apply list_elem_of_In.
Qed.

(** X21.  Parsing the text [getConfigContent] writes gives an interface
    section with the fields written and no peer, as long as no value
    written is empty, padded with white space or broken over lines. *)
Theorem getConfigContent_parses (doc : Document) :
  forallb (fun kv => plainValue kv.2) (configFields doc) = true ->
  let config := Codec.parseConfig (Server.getConfigContent doc) in
  Codec.peers config = []
  /\ Codec.interface config !! "Address" = Some (template (get "address" doc))
  /\ Codec.interface config !! "ListenPort" = Some (template (get "listenPort" doc))
  /\ Codec.interface config !! "PrivateKey" = Some (template (get "privateKey" doc))
  /\ Codec.interface config !! "MTU"
     = (if truthy (get "mtu" doc) then Some (template (get "mtu" doc)) else None)
  /\ Codec.interface config !! "DNS"
     = match get "dns" doc with
       | Some (JList (d :: ds)) => Some (join (d :: ds) ", ")
       | _ => None
       end
  /\ Codec.interface config !! "DisableIPv6"
     = (if truthy (get "enableIPv6" doc) then None else Some "true")
  /\ forall key value, Codec.interface config !! key = Some value ->
       (key, value) ∈ configFields doc.
Proof.
  intros Hvalues config.
  destruct (configFields_keys doc) as [Hnodup Hkeys].
  unfold config. rewrite (getConfigContent_parsed doc Hvalues).
  cbn [Codec.interface Codec.peers]. split; [reflexivity|].
  assert (forall key value, (key, value) ∈ configFields doc ->
            bindings (configFields doc) ∅ !! key = Some value) as Hin
    by (intros key value; now apply bindings_present).
  assert (forall key, key ∉ (configFields doc).*1 ->
            bindings (configFields doc) ∅ !! key = None) as Hout
    by (intros key Hkey; now rewrite bindings_absent).
  split; [apply Hin; unfold configFields; rewrite elem_of_app; left; inlist|].
  split; [apply Hin; unfold configFields; rewrite elem_of_app; left; inlist|].
  split; [apply Hin; unfold configFields; rewrite elem_of_app; left; inlist|].
  split; [|split; [|split]].
  - destruct (truthy (get "mtu" doc)) eqn:Hmtu.
    + apply Hin. unfold configFields. rewrite Hmtu, !elem_of_app.
      right. left. inlist.
    + apply Hout. unfold configFields. rewrite Hmtu.
      destruct (get "dns" doc) as [[| | | | | |[|]| |]|],
        (negb (truthy (get "enableIPv6" doc))); cbn; notinlist.
  - destruct (get "dns" doc) as [[| | | | | |[|d ds]| |]|] eqn:Hdns;
      try (apply Hout; unfold configFields; rewrite Hdns;
           destruct (truthy (get "mtu" doc)), (negb (truthy (get "enableIPv6" doc)));
           cbn; notinlist).
    apply Hin. unfold configFields. rewrite Hdns, !elem_of_app.
    right. right. left. inlist.
  - destruct (truthy (get "enableIPv6" doc)) eqn:Hv6; cbn [negb].
    + apply Hout. unfold configFields. rewrite Hv6.
      destruct (truthy (get "mtu" doc)), (get "dns" doc) as [[| | | | | |[|]| |]|];
        cbn; notinlist.
    + apply Hin. unfold configFields. rewrite Hv6, !elem_of_app. cbn [negb].
      right. right. right. inlist.
  - intros key value. now apply bindings_lookup.
Qed.

Lemma getConfigContent_parses_witness :
  let doc := load [] Scenario.wgA in
  let config := Codec.parseConfig (Server.getConfigContent doc) in
  Codec.peers config = []
  /\ Codec.interface config !! "Address" = Some "10.5.0.1/24"
  /\ Codec.interface config !! "ListenPort" = Some "51820"
  /\ Codec.interface config !! "PrivateKey" = Some "c2VydmVyLXNlY3JldA=="
  /\ Codec.interface config !! "MTU" = Some "1420"
  /\ Codec.interface config !! "DNS" = None
  /\ Codec.interface config !! "DisableIPv6" = Some "true".
Proof.
  intros doc config.
  destruct (getConfigContent_parses doc)
    as (Hpeers & Haddress & Hport & Hkey & Hmtu & Hdns & Hv6 & _).
  - vm_compute. reflexivity.
  - repeat split; assumption.
Defined.

(** X22.  A server read with the default projection has no private key in
    hand, and saving it does not fetch one: the text written for it
    reads [PrivateKey = undefined], which the parser takes for a key. *)
Theorem unselected_key_is_written_undefined (srv : Doc) (now : Z) (doc : Document)
    (st st' : Store) :
  Server.save now (load Server.hidden srv) st = (Ok doc, st') ->
  Server.configLines (load Server.hidden srv) !! 3%nat = Some "PrivateKey = undefined"
  /\ Server.configLines doc !! 3%nat = Some "PrivateKey = undefined"
  /\ (forallb (fun kv => plainValue kv.2) (configFields doc) = true ->
      Codec.interface (Codec.parseConfig (Server.getConfigContent doc)) !! "PrivateKey"
      = Some "undefined").
Proof.
  intros Hsave. apply server_save_Ok in Hsave as [-> _].
  assert (get "privateKey" (load Server.hidden srv) = None) as Hnone.
  { unfold get, load. cbn [fields]. apply lookup_select_eq. unfold Server.hidden. inlist. }
  assert (get "privateKey" (saved (Server.preSave now (load Server.hidden srv))) = None)
    as Hnone' by now rewrite get_saved_preSave by notinlist.
  split; [|split].
  - rewrite configLines_fields. unfold configFields. now rewrite Hnone.
  - rewrite configLines_fields. unfold configFields. now rewrite Hnone'.
  - intros Hvalues. rewrite (getConfigContent_parsed _ Hvalues).
    cbn [Codec.interface]. destruct (configFields_keys (saved (Server.preSave now (load Server.hidden srv)))) as [Hnodup _].
    apply bindings_present; [exact Hnodup|].
    unfold configFields. rewrite Hnone'. rewrite elem_of_app. left. inlist.
Qed.

Lemma unselected_key_is_written_undefined_witness :
  let r := Server.save 9000 (load Server.hidden Scenario.wgA) Scenario.storeA in
  Server.configLines (load Server.hidden Scenario.wgA) !! 3%nat = Some "PrivateKey = undefined"
  /\ Server.configLines (Scenario.valueOf Scenario.blank r) !! 3%nat = Some "PrivateKey = undefined"
  /\ Codec.interface (Codec.parseConfig (Server.getConfigContent (Scenario.valueOf Scenario.blank r)))
       !! "PrivateKey" = Some "undefined".
Proof.
  intros r.
  destruct (unselected_key_is_written_undefined Scenario.wgA 9000 (Scenario.valueOf Scenario.blank r)
              Scenario.storeA r.2) as (Hread & Hsaved & Hparsed).
  - apply ScenarioFacts.valueOf_Ok. vm_compute. reflexivity.
  - split; [exact Hread|]. split; [exact Hsaved|]. apply Hparsed. vm_compute. reflexivity.
Defined.

End ServerTextFacts.

(** ** Live status *)

Module LiveStatusFacts.
Import Mongo MongoFacts Stored StoredFacts PeerStateFacts ServerStateFacts LifecycleFacts.

Lemma markPeer_server (connectedPeers : gset string) (now : Z) (peer : Document) :
  Peer.serverRef (Service.markPeer connectedPeers now peer) = Peer.serverRef peer.
Proof.
  unfold Peer.serverRef, Service.markPeer.
  destruct (_ && _).
  - destruct (negb _); now rewrite !get_set_ne by discriminate.
  - destruct (_ && _); [|reflexivity]. now rewrite get_set_ne by discriminate.
Qed.

Lemma modified_preSave (now : Z) (doc : Document) (path : string) :
  path ∈ modified doc -> path ∈ modified (Server.preSave now doc).
Proof.
  intros Hmod. unfold Server.preSave.
  repeat match goal with
         | |- context [if ?b then _ else _] => destruct b
         | |- context [match ?x with _ => _ end] => destruct x
         end;
    repeat (apply modified_set); exact Hmod.
Qed.

(** The loop of [updatePeersStatus] over the peers of server [i]: the
    record of the server stays, and once a peer has been saved its
    [activePeers] is the count over the collection. *)
Lemma marked_all (connectedPeers : gset string) (now : Z) (i : JValue)
    (found : list Document) (st st2 : Store) :
  Forall (fun peer => Peer.serverRef peer = i) found ->
  Service.forEach found (fun peer =>
    do _ <- Peer.save now None (Service.markPeer connectedPeers now peer); ret tt) st
  = (Ok tt, st2) ->
  (is_Some (Mongo.findOne [Eq "_id" i] (servers st)) ->
   is_Some (Mongo.findOne [Eq "_id" i] (servers st2)))
  /\ ((found = [] /\ st2 = st)
      \/ forall srv,
           Mongo.findOne [Eq "_id" i] (servers st2) = Some srv ->
           srv !! "activePeers"
           = Some (JInt (Mongo.countDocuments
                           [Eq "server" i; Eq "status" (JStr "connected");
                            Eq "enabled" (JBool true)] (peers st2)))).
Proof.
  intros Hrefs. revert st. induction Hrefs as [|peer rest Href _ IH]; intros st.
  - cbn [Service.forEach]. unfold ret. intros [= <-]. split; [auto|]. now left.
  - cbn [Service.forEach]. intros Hloop.
    apply RoundTripFacts.bind_Ok in Hloop as ([] & st1 & Hbody & Hrest).
    apply RoundTripFacts.bind_Ok in Hbody as (saved' & st1' & Hsave & Hret).
    unfold ret in Hret. injection Hret as ->.
    apply peer_save_Ok in Hsave as (doc' & _ & _ & _ & Hservers & _).
    rewrite markPeer_server, Href in Hservers.
    destruct (IH st1 Hrest) as [Hstays Hlast]. split.
    + intros Hsome. apply Hstays. rewrite Hservers.
      rewrite findOne_updateFirst by (intros d; apply recount_keeps_id).
      destruct Hsome as [srv ->]. eauto.
    + right. destruct Hlast as [[_ ->]|Hlast]; [|exact Hlast].
      intros srv Hsrv. rewrite Hservers in Hsrv.
      exact (proj2 (recounted _ _ _ _ _ _ Hsrv)).
Qed.

(** X23.  After [updatePeersStatus] has read the output of [wg show] and
    returned, [activePeers] of the server is the number of its enabled
    peers that are connected, as the collection then holds them. *)
Theorem updatePeersStatus_counts_active (interfaceName wgOutput : string) (now : Z)
    (st st' : Store) (srv : Doc) (i : JValue) :
  UniqueIds (servers st) ->
  Mongo.findOne (Service.byName interfaceName) (servers st) = Some srv ->
  srv !! "_id" = Some i ->
  Service.updatePeersStatus interfaceName (Some wgOutput) now st = (Ok tt, st') ->
  exists srv',
    Mongo.findOne [Eq "_id" i] (servers st') = Some srv'
    /\ srv' !! "activePeers"
       = Some (JInt (Mongo.countDocuments
                       [Eq "server" i; Eq "status" (JStr "connected");
                        Eq "enabled" (JBool true)] (peers st'))).
Proof.
  intros Huniq Hfound Hid.
  destruct (found_alone _ _ _ _ Huniq Hfound Hid) as (pre & post & Hsplit & _ & Hpre & _).
  assert (Mongo.findOne [Eq "_id" i] (servers st) = Some srv) as Hbyid
    by (rewrite Hsplit; apply findOne_split; [exact Hpre|now apply matches_byId]).
  unfold Service.updatePeersStatus, bind at 1, Server.findOne, read. cbn [fst snd].
  rewrite Hfound. cbn [fmap option_fmap option_map].
  set (server := load Server.hidden srv).
  assert (Service.idOf server = i) as Hof.
  { unfold Service.idOf, server.
    rewrite SyncFacts.get_load by (unfold Server.hidden; notinlist). now rewrite Hid. }
  rewrite Hof. unfold bind at 1, Peer.find, read. cbn [fst snd].
  intros Hrun. apply RoundTripFacts.bind_Ok in Hrun as ([] & st2 & Hloop & Hrun).
  apply (marked_all _ _ i) in Hloop as [Hstays Hlast].
  2:{ apply Forall_fmap, Forall_forall. intros d Hd. apply elem_of_find in Hd as [_ Hd].
      rewrite matches_cons, andb_true_r in Hd. apply holds_Eq in Hd.
      unfold Peer.serverRef. cbn [compose].
      rewrite SyncFacts.get_load by (unfold Peer.hidden; notinlist). now rewrite Hd. }
  destruct (Hstays (ex_intro _ srv Hbyid)) as [srv2 Hsrv2].
  unfold bind at 1, Peer.countDocuments, read in Hrun. cbn [fst snd] in Hrun.
  set (n := Mongo.countDocuments _ (peers st2)) in *.
  apply RoundTripFacts.bind_Ok in Hrun as (saved' & st3 & Hsave & Hret).
  unfold ret in Hret. injection Hret as <-.
  apply server_save_Ok in Hsave as [_ ->].
  set (doc := set "activePeers" (JInt n) server) in *.
  set (doc1 := Server.preSave now doc).
  destruct (server_preSave_assigned now doc) as (Hnew1 & Hget1 & _).
  fold doc1 in Hnew1, Hget1.
  assert (isNew doc1 = false) as Hold
    by (rewrite Hnew1; unfold doc; now rewrite isNew_set).
  assert (get "_id" doc1 = Some i) as Hid1.
  { rewrite Hget1 by notinlist. unfold doc. rewrite get_set_ne by discriminate.
    unfold server. now rewrite SyncFacts.get_load by (unfold Server.hidden; notinlist). }
  exists (writeFields doc1 srv2). cbn [servers peers withServers].
  unfold persist. rewrite Hold. unfold byId. unfold get in Hid1. rewrite Hid1.
  rewrite findOne_updateFirst by (intros e; now apply written_keeps_id).
  rewrite Hsrv2. split; [reflexivity|].
  rewrite writeFields_lookup. destruct (decide ("activePeers" ∈ modified doc1)) as [Hin|Hout].
  - change (fields doc1 !! "activePeers") with (get "activePeers" doc1).
    rewrite Hget1 by notinlist. apply get_set_eq.
  - assert (fields server !! "activePeers" = Some (JInt n)) as Hsame.
    { destruct (decide (fields server !! "activePeers" = Some (JInt n))) as [|Hne];
        [assumption|].
      exfalso. apply Hout.
      assert ("activePeers" ∈ modified doc) as Hmod.
      { unfold doc, set. rewrite (bool_decide_eq_false_2 _ Hne), andb_false_r.
        cbn [modified]. apply elem_of_union_l. now apply elem_of_singleton. }
      now apply modified_preSave. }
    destruct Hlast as [[Hnil ->]|Hlast].
    + rewrite Hbyid in Hsrv2. injection Hsrv2 as <-.
      unfold server, load in Hsame. cbn [fields] in Hsame.
      now rewrite lookup_select_ne in Hsame by (unfold Server.hidden; notinlist).
    + now apply Hlast.
Qed.

Lemma updatePeersStatus_counts_active_witness :
  let r := Service.updatePeersStatus "wg1" (Some Scenario.wgShowK2) 9000
             Scenario.storePending in
  r.1 = Ok tt
  /\ exists srv',
       Mongo.findOne [Eq "_id" (JId 1)] (servers r.2) = Some srv'
       /\ srv' !! "activePeers"
          = Some (JInt (Mongo.countDocuments
                          [Eq "server" (JId 1); Eq "status" (JStr "connected");
                           Eq "enabled" (JBool true)] (peers r.2))).
Proof.
  intros r.
  assert (r = (Ok tt, r.2)) as Hrun
    by (apply ScenarioFacts.unit_Ok; vm_compute; reflexivity).
  split; [now rewrite Hrun at 1|].
  apply (updatePeersStatus_counts_active "wg1" Scenario.wgShowK2 9000
           Scenario.storePending r.2
           (Scenario.server 1 "wg1" "10.5.0.1/24" {["peerCount" := JInt 1]}) (JId 1)).
  - unfold UniqueIds. decided.
  - decided.
  - decided.
  - exact Hrun.
Defined.

End LiveStatusFacts.

(** ** Restarting an interface *)

Module RestartFacts.
Import Mongo MongoFacts Stored StoredFacts PeerStateFacts ServerStateFacts LifecycleFacts.



End RestartFacts.

(** ** Profiles created in bulk *)

Module BulkFacts.
Import Mongo MongoFacts Stored StoredFacts LifecycleFacts Bulk.

Lemma newProfile_facts (isp : string) (mtu : Z) (range : MTUProfile.Range) (oid now : Z) :
  let doc := set "updatedAt" (JDate now) (MTUProfile.newProfile isp mtu range oid now) in
  isNew doc = true
  /\ get "_id" doc = Some (JId oid)
  /\ get "isDefault" doc = Some (JBool false)
  /\ get "isp" doc = Some (JStr isp)
  /\ get "mtu" doc = Some (JInt mtu)
  /\ get "name" doc = Some (JStr (isp +:+ "_MTU_" +:+ Js.intToString mtu)).
Proof.
  intros doc. subst doc. split; [now rewrite isNew_set|].
  rewrite !get_set_ne by discriminate.
  unfold MTUProfile.newProfile, get, create. cbn [fields].
  repeat split; reflexivity.
Qed.

(** The [save] of a profile just created appends its record. *)
Lemma save_made (isp : string) (mtu : Z) (range : MTUProfile.Range) (oid now : Z)
    (doc' : Document) (st st' : Store) :
  MTUProfile.save now (MTUProfile.newProfile isp mtu range oid now) st = (Ok doc', st') ->
  made isp now doc' mtu
  /\ st' = withProfiles (fun coll => coll ++ [fields doc'])%list st
  /\ forall e, e ∈ profiles st -> e !! "_id" <> get "_id" doc'.
Proof.
  destruct (newProfile_facts isp mtu range oid now)
    as (Hnew & Hid & Hflag & _).
  unfold MTUProfile.save, MTUProfile.preSave, bind at 1.
  set (doc := set "updatedAt" (JDate now) (MTUProfile.newProfile isp mtu range oid now)) in *.
  rewrite Hflag. cbn [truthy andb]. unfold ret at 1.
  unfold bind at 1, read. cbn [fst snd].
  destruct (idOk doc (profiles st)) eqn:Hok; cbn [andb]; [|discriminate].
  destruct (uniqueOk "name" doc (profiles st)); [|discriminate].
  unfold bind, write, ret. cbn [fst snd]. intros [= <- <-].
  split; [now exists range, oid|]. split.
  - unfold withProfiles, persist. now rewrite Hnew.
  - intros e He Hsame. unfold idOk in Hok. unfold get in Hid. rewrite Hid, Hnew in Hok.
    apply negb_true_iff in Hok.
    assert (existsb (matches [Eq "_id" (JId oid)]) (profiles st) = true) as Hex; [|congruence].
    apply existsb_exists. exists e. split; [now apply list_elem_of_In|].
    apply matches_byId. rewrite Hsame, RoundTripFacts.get_saved. exact Hid.
Qed.

Lemma fresh_cons (coll : list Doc) (doc : Document) (docs : list Document) :
  (forall e, e ∈ coll -> e !! "_id" <> get "_id" doc) ->
  fresh (coll ++ [fields doc]) docs -> fresh coll (doc :: docs).
Proof.
  intros Hdoc Hdocs [|k] d Hk e He.
  - injection Hk as <-. cbn [take fmap list_fmap] in He. rewrite app_nil_r in He.
    now apply Hdoc.
  - apply (Hdocs k d Hk). cbn [take fmap list_fmap] in He.
    now rewrite <- app_assoc.
Qed.

Lemma fresh_app (coll : list Doc) (docs docs' : list Document) :
  fresh coll docs -> fresh (coll ++ (fields <$> docs)) docs' -> fresh coll (docs ++ docs').
Proof.
  intros Hdocs Hdocs' k d Hk e He.
  destruct (decide (k < length docs)) as [Hlt|Hge].
  - rewrite lookup_app_l in Hk by exact Hlt.
    apply (Hdocs k d Hk). now rewrite take_app_le in He by lia.
  - rewrite lookup_app_r in Hk by lia.
    apply (Hdocs' _ d Hk). rewrite take_app_ge, fmap_app, app_assoc in He by lia.
    exact He.
Qed.

Lemma createEach_Ok (isp : string) (gen : nat -> Z) (now : Z) (range : MTUProfile.Range)
    (mtus : list Z) (i : nat) (st st1 : Store) (docs : list Document) :
  MTUProfile.createEach isp gen now range i mtus st = (Ok docs, st1) ->
  st1 = withProfiles (fun coll => coll ++ (fields <$> docs))%list st
  /\ Forall2 (made isp now) docs mtus
  /\ fresh (profiles st) docs.
Proof.
  revert i st docs. induction mtus as [|mtu mtus IH]; intros i st docs.
  - cbn [MTUProfile.createEach]. unfold ret. intros [= <- <-].
    split; [|split; [constructor|intros k d Hk; discriminate]].
    destruct st. unfold withProfiles. cbn. now rewrite app_nil_r.
  - cbn [MTUProfile.createEach]. intros Hrun.
    apply RoundTripFacts.bind_Ok in Hrun as (doc & st0 & Hsave & Hrun).
    apply RoundTripFacts.bind_Ok in Hrun as (rest & st2 & Hrest & Hret).
    unfold ret in Hret. injection Hret as <- <-.
    apply save_made in Hsave as (Hmade & -> & Hfresh).
    apply IH in Hrest as (-> & Hall & Hrest).
    split; [|split].
    + unfold withProfiles. cbn [servers peers profiles fmap list_fmap].
      now rewrite <- app_assoc.
    + now constructor.
    + now apply fresh_cons.
Qed.

Lemma createRanges_Ok (isp : string) (gen : nat -> Z) (now : Z)
    (todo : list MTUProfile.Range) (i : nat) (st st1 : Store) (docs : list Document) :
  MTUProfile.createRanges isp gen now i todo st = (Ok docs, st1) ->
  st1 = withProfiles (fun coll => coll ++ (fields <$> docs))%list st
  /\ Forall2 (made isp now) docs (concat (MTUProfile.rangeValues <$> todo))
  /\ fresh (profiles st) docs.
Proof.
  revert i st docs. induction todo as [|range todo IH]; intros i st docs.
  - cbn [MTUProfile.createRanges]. unfold ret. intros [= <- <-].
    split; [|split; [constructor|intros k d Hk; discriminate]].
    destruct st. unfold withProfiles. cbn. now rewrite app_nil_r.
  - cbn [MTUProfile.createRanges]. intros Hrun.
    apply RoundTripFacts.bind_Ok in Hrun as (created & st0 & Hcreated & Hrun).
    apply RoundTripFacts.bind_Ok in Hrun as (rest & st2 & Hrest & Hret).
    unfold ret in Hret. injection Hret as <- <-.
    apply createEach_Ok in Hcreated as (-> & Hall & Hfresh).
    apply IH in Hrest as (-> & Hall' & Hfresh').
    split; [|split].
    + unfold withProfiles. cbn [servers peers profiles].
      now rewrite fmap_app, app_assoc.
    + cbn [fmap list_fmap concat]. now apply Forall2_app.
    + now apply fresh_app.
Qed.

Lemma Ok_inv {A} (a a' : A) (s s' : Store) : (Ok a, s) = (Ok a', s') -> a = a' /\ s = s'.
Proof. now intros [= -> ->]. Qed.

Lemma cleared_id (isp : string) (i : JValue) (now : Z) (d : Doc) (path : string) :
  path <> "isDefault" -> path <> "updatedAt" -> cleared isp i now d !! path = d !! path.
Proof. apply ProfileFacts.cleared_lookup. Qed.

Lemma cleared_default (isp : string) (i : JValue) (now : Z) (d : Doc) :
  cleared isp i now d !! "isp" = Some (JStr isp) ->
  cleared isp i now d !! "isDefault" = Some (JBool true) ->
  d !! "_id" = Some i.
Proof.
  rewrite cleared_id by discriminate. unfold cleared. intros Hisp.
  destruct (matches _ d) eqn:Hq.
  - rewrite ProfileFacts.cleared_not_default. discriminate.
  - intros _. rewrite !matches_cons in Hq. cbn [holds matches forallb] in Hq.
    rewrite (bool_decide_eq_true_2 _ Hisp) in Hq. cbn [andb] in Hq.
    rewrite andb_true_r in Hq. apply negb_false_iff in Hq.
    now apply bool_decide_eq_true in Hq.
Qed.

(** The second [save] of [bulkCreateForISP]: the record of the document
    is written in place with the flag, and the flag is cleared on the
    other records of the provider. *)
Lemma default_saved (isp : string) (mtu : Z) (now : Z) (doc doc' : Document)
    (pre post : list Doc) (st st' : Store) :
  made isp now doc mtu ->
  profiles st = (pre ++ fields doc :: post)%list ->
  (forall e, e ∈ pre -> e !! "_id" <> get "_id" doc) ->
  (forall e, e ∈ post -> e !! "_id" <> get "_id" doc) ->
  MTUProfile.save now (set "isDefault" (JBool true) doc) st = (Ok doc', st') ->
  exists i w,
    get "_id" doc = Some i
    /\ st' = withProfiles (fun _ => (cleared isp i now <$> pre)
                                     ++ w :: (cleared isp i now <$> post))%list st
    /\ w !! "isDefault" = Some (JBool true)
    /\ w !! "isp" = Some (JStr isp)
    /\ w !! "name" = Some (JStr (isp +:+ "_MTU_" +:+ Js.intToString mtu))
    /\ get "mtu" doc' = Some (JInt mtu).
Proof.
  intros (range & oid & ->) Hsplit Hpre Hpost.
  destruct (newProfile_facts isp mtu range oid now) as (_ & Hid & Hflag & Hisp & Hmtu & Hname).
  set (x := set "updatedAt" (JDate now) (MTUProfile.newProfile isp mtu range oid now)) in *.
  rewrite RoundTripFacts.get_saved in Hpre, Hpost. rewrite Hid in Hpre, Hpost.
  change (set "isDefault" (JBool true) (saved x)) with (Stated.markDefault (fields x)).
  assert (fields x !! "isDefault" <> Some (JBool true)) as Hnot
    by (unfold get in Hflag; rewrite Hflag; discriminate).
  pose proof (ProfileFacts.markDefault_facts (fields x) now Hnot) as
    (Hnew & Hgflag & Hmod & Hmisp & Hmid & Hmname & Hgisp & Hgid).
  set (doc := set "updatedAt" (JDate now) (Stated.markDefault (fields x))) in *.
  unfold get in Hid, Hisp, Hmtu, Hname.
  unfold MTUProfile.save, MTUProfile.preSave, bind. fold doc.
  rewrite Hgflag, Hmod. cbn [truthy andb].
  unfold write, ret, read. cbn [fst snd].
  unfold idOk, uniqueOk. change (fields doc !! "_id") with (get "_id" doc).
  rewrite Hnew, Hmname, Hgid, Hid. cbn [orb andb].
  intros [<- <-]%Ok_inv.
  exists (JId oid), (writeFields doc (fields x)).
  split; [now rewrite RoundTripFacts.get_saved|]. split; [|split; [|split; [|split]]].
  - unfold Service.idOf. rewrite Hgisp, Hgid, Hisp, Hid. cbn [default].
    unfold withProfiles; cbn [profiles servers peers]. f_equal.
    unfold persist. rewrite Hnew. unfold byId.
    change (fields doc !! "_id") with (get "_id" doc). rewrite Hgid, Hid.
    change (Mongo.updateMany _ _ (profiles st))
      with (cleared isp (JId oid) now <$> profiles st).
    rewrite Hsplit, fmap_app, fmap_cons. change (fields (saved x)) with (fields x).
    assert (cleared isp (JId oid) now (fields x) = fields x) as ->.
    { unfold cleared. rewrite !matches_cons. cbn [holds].
      rewrite (bool_decide_eq_true_2 (fields x !! "_id" = Some (JId oid))) by exact Hid.
      now rewrite andb_false_r. }
    apply updateFirst_split; [|now apply matches_byId].
    intros e He. apply list_elem_of_fmap in He as (e0 & -> & He0).
    apply not_true_is_false. rewrite matches_byId, cleared_id by discriminate.
    now apply Hpre.
  - rewrite writeFields_lookup. apply bool_decide_eq_true in Hmod.
    now rewrite decide_True by exact Hmod.
  - rewrite writeFields_lookup. apply bool_decide_eq_false in Hmisp.
    now rewrite decide_False by exact Hmisp.
  - rewrite writeFields_lookup. apply bool_decide_eq_false in Hmname.
    now rewrite decide_False by exact Hmname.
  - rewrite RoundTripFacts.get_saved. unfold doc.
    rewrite get_set_ne by discriminate. unfold Stated.markDefault.
    rewrite get_set_ne by discriminate. exact Hmtu.
Qed.

(** X25.  [bulkCreateForISP], when it returns, has created the twelve profiles
    of 1280 to 1500 in steps of 20 and made the one of 1400 the
    provider's default: it is the only profile of the provider flagged
    default, whatever was the default before.  Profiles of other
    providers, servers and peers are as they were. *)
Theorem bulkCreateForISP_default (isp : string) (gen : nat -> Z) (now : Z)
    (st st' : Store) (created : list Document) :
  MTUProfile.bulkCreateForISP isp gen now st = (Ok created, st') ->
  get "mtu" <$> created
  = (fun mtu => Some (JInt mtu))
      <$> [1280; 1300; 1320; 1340; 1360; 1380; 1400; 1420; 1440; 1460; 1480; 1500]%Z
  /\ (exists d0,
        d0 ∈ profiles st'
        /\ d0 !! "name" = Some (JStr (isp +:+ "_MTU_1400"))
        /\ d0 !! "isp" = Some (JStr isp)
        /\ d0 !! "isDefault" = Some (JBool true)
        /\ forall d, d ∈ profiles st' -> d !! "isp" = Some (JStr isp) ->
             d !! "isDefault" = Some (JBool true) -> d = d0)
  /\ length (profiles st') = (length (profiles st) + 12)%nat
  /\ (forall n d, profiles st !! n = Some d -> d !! "isp" <> Some (JStr isp) ->
        profiles st' !! n = Some d)
  /\ servers st' = servers st /\ peers st' = peers st.
Proof.
  unfold MTUProfile.bulkCreateForISP. intros Hrun.
  apply RoundTripFacts.bind_Ok in Hrun as (docs & st1 & Hloop & Hrun).
  apply createRanges_Ok in Hloop as (-> & Hall & Hfresh).
  change (concat (MTUProfile.rangeValues <$> MTUProfile.ranges))
    with [1280; 1300; 1320; 1340; 1360; 1380; 1400; 1420; 1440; 1460; 1480; 1500]%Z in Hall.
  pose proof (Forall2_length _ _ _ Hall) as Hlen. cbn [length] in Hlen.
  rewrite Hlen in Hrun. cbn [Nat.ltb Nat.leb] in Hrun.
  change (12 / 2)%nat with 6%nat in Hrun.
  destruct (docs !! 6%nat) as [doc|] eqn:Hsix;
    [|apply lookup_ge_None in Hsix; lia].
  apply RoundTripFacts.bind_Ok in Hrun as (doc' & st2 & Hsave & Hret).
  unfold ret in Hret. injection Hret as <- <-.
  assert (made isp now doc 1400) as Hmade.
  { destruct (Forall2_lookup_l _ _ _ _ _ Hall Hsix) as (mtu & Hmtu & Hmade).
    now injection Hmtu as <-. }
  pose proof (take_drop_middle docs 6 doc Hsix) as Hdocs.
  apply (default_saved isp 1400 now doc doc'
           (profiles st ++ (fields <$> take 6 docs)) (fields <$> drop 7 docs)) in Hsave;
    [|exact Hmade| | |].
  - destruct Hsave as (i & w & Hid & -> & Hflag & Hisp & Hname & Hmtu).
    cbn [profiles servers peers withProfiles].
    split; [|split; [|split; [|split; [|split; reflexivity]]]].
    + apply list_eq. intros k. rewrite !list_lookup_fmap.
      destruct (decide (k = 6%nat)) as [->|Hk].
      * rewrite list_lookup_insert_eq by (apply lookup_lt_Some in Hsix; exact Hsix).
        cbn [fmap option_fmap option_map]. now rewrite Hmtu.
      * rewrite list_lookup_insert_ne by congruence.
        destruct (docs !! k) as [d|] eqn:Hd.
        -- destruct (Forall2_lookup_l _ _ _ _ _ Hall Hd) as (mtu & Hmtu' & (r & o & ->)).
           rewrite Hmtu'. cbn [fmap option_fmap option_map].
           rewrite RoundTripFacts.get_saved.
           now destruct (newProfile_facts isp mtu r o now) as (_ & _ & _ & _ & -> & _).
        -- apply lookup_ge_None in Hd.
           now rewrite (proj2 (lookup_ge_None _ k)) by (cbn [length]; lia).
    + exists w. split; [|split; [exact Hname|split; [exact Hisp|split; [exact Hflag|]]]].
      * apply elem_of_app. right. apply list_elem_of_here.
      * intros d Hd Hdisp Hdflag.
        apply elem_of_app in Hd as [Hd|Hd];
          [|apply elem_of_cons in Hd as [Hd|Hd]; [exact Hd|]];
          apply list_elem_of_fmap in Hd as (e & -> & He); exfalso;
          pose proof (cleared_default _ _ _ _ Hdisp Hdflag) as Hsame.
        -- apply (Hfresh 6%nat doc Hsix e He). now rewrite Hid.
        -- apply list_elem_of_fmap in He as (doc2 & -> & Hdoc2).
           apply list_elem_of_lookup in Hdoc2 as [k Hk]. rewrite lookup_drop in Hk.
           apply (Hfresh (7 + k)%nat doc2 Hk (fields doc)).
           ++ apply elem_of_app. right. apply list_elem_of_fmap. exists doc.
              split; [reflexivity|]. apply list_elem_of_lookup. exists 6%nat.
              rewrite lookup_take_lt by lia. exact Hsix.
           ++ change (get "_id" doc = get "_id" doc2). rewrite Hid.
              symmetry. exact Hsame.
    + rewrite !length_app. cbn [length].
      rewrite !length_fmap, !length_app, !length_fmap, length_take, length_drop. lia.
    + intros n d Hn Hd.
      rewrite lookup_app_l by (rewrite length_fmap, length_app; apply lookup_lt_Some in Hn; lia).
      rewrite list_lookup_fmap, lookup_app_l by (now apply lookup_lt_Some in Hn).
      rewrite Hn. cbn [fmap option_fmap option_map]. f_equal. unfold cleared.
      rewrite matches_cons. cbn [holds].
      now rewrite (bool_decide_eq_false_2 _ Hd).
  - cbn [profiles withProfiles]. rewrite <- Hdocs at 1.
    rewrite fmap_app, fmap_cons. apply app_assoc.
  - intros e He. now apply (Hfresh 6%nat doc Hsix).
  - intros e He Hsame. apply list_elem_of_fmap in He as (doc2 & -> & Hdoc2).
    apply list_elem_of_lookup in Hdoc2 as [k Hk]. rewrite lookup_drop in Hk.
    apply (Hfresh (7 + k)%nat doc2 Hk (fields doc)); [|exact (eq_sym Hsame)].
    apply elem_of_app. right. apply list_elem_of_fmap. exists doc.
    split; [reflexivity|]. apply list_elem_of_lookup. exists 6%nat.
    rewrite lookup_take_lt by lia. exact Hsix.
Qed.

Lemma bulkCreateForISP_default_witness :
  let r := MTUProfile.bulkCreateForISP "ATOM" (fun k => 200 + Z.of_nat k)%Z 9000
             Scenario.storeCustom in
  let created := Scenario.valueOf [] r in
  r.1 = Ok created
  /\ length created = 12%nat
  /\ Stated.field (profiles r.2) 0 "isDefault" = Some (JBool false)
  /\ exists d0,
       d0 ∈ profiles r.2
       /\ d0 !! "name" = Some (JStr "ATOM_MTU_1400")
       /\ d0 !! "isDefault" = Some (JBool true)
       /\ forall d, d ∈ profiles r.2 -> d !! "isp" = Some (JStr "ATOM") ->
            d !! "isDefault" = Some (JBool true) -> d = d0.
Proof.
  intros r created.
  assert (r = (Ok created, r.2)) as Hrun
    by (apply ScenarioFacts.valueOf_Ok; vm_compute; reflexivity).
  split; [now rewrite Hrun at 1|].
  destruct (bulkCreateForISP_default "ATOM" (fun k => 200 + Z.of_nat k)%Z 9000
              Scenario.storeCustom r.2 created Hrun)
    as (Hmtus & (d0 & Hin & Hname & _ & Hflag & Honly) & _).
  split; [|split; [decided|]].
  - rewrite <- (length_fmap (get "mtu")), Hmtus. reflexivity.
  - exists d0. repeat split; assumption.
Defined.

End BulkFacts.

(** ** The configuration handed to a client *)

Module ClientConfigFacts.
Import Mongo MongoFacts Stored StoredFacts.

Lemma hidden_unread (d : Doc) :
  get "privateKey" (load Peer.hidden d) = None
  /\ get "presharedKey" (load Peer.hidden d) = None.
Proof.
  unfold get, load. cbn [fields].
  split; apply lookup_select_eq; unfold Peer.hidden; inlist.
Qed.

(** X28.  A peer read with the default projection has neither of its secrets
    in hand.  The client configuration [generateConfig] writes for it
    reads [PrivateKey = undefined] on its second line and has no
    [PresharedKey] line, whatever the record holds, and that text is
    what the peer keeps as its [configFile]. *)
Theorem generateConfig_without_secrets (d : Doc) (qr : option string) (now : Z)
    (st st' : Store) (doc' : Document) (text : string) :
  PeerOps.generateConfig qr now (load Peer.hidden d) st = (Ok (doc', text), st') ->
  get "configFile" doc' = Some (JStr text)
  /\ exists lines,
       text = Js.join lines Js.nl
       /\ lines !! 1%nat = Some "PrivateKey = undefined"
       /\ Forall (fun line => Js.startsWith line "PresharedKey" = false) lines.
Proof.
  destruct (hidden_unread d) as [Hkey Hshared].
  unfold PeerOps.generateConfig, bind at 1, Server.findById, Server.findOne, read.
  cbn [fst snd].
  destruct (Mongo.findOne _ (servers st)) as [srv|];
    cbn [fmap option_fmap option_map]; [|discriminate].
  rewrite Hkey, Hshared. cbn [truthy andb template].
  set (this := load Peer.hidden d).
  set (server := load Server.hidden srv).
  match goal with
  | |- context [Js.join ?config Js.nl] => set (lines := config)
  end.
  intros Hrun. apply RoundTripFacts.bind_Ok in Hrun as (saved' & st1 & Hsave & Hret).
  unfold ret in Hret. injection Hret as <- <- <-.
  apply peer_save_Ok in Hsave as (docP & (_ & Hget & _) & -> & _).
  split.
  - rewrite RoundTripFacts.get_saved, Hget by (unfold maintained; notinlist).
    destruct qr; [rewrite get_set_ne by discriminate|];
      rewrite get_set_ne by discriminate; apply get_set_eq.
  - exists lines. split; [reflexivity|]. unfold lines.
    destruct (PeerOps.nonEmptyList (get "dns" this)),
             (PeerOps.nonEmptyList (get "dns" server)),
             (truthy (get "mtu" this)), (truthy (get "mtu" server)),
             (truthy (get "listenPort" server)),
             (truthy (get "persistentKeepalive" this));
      (split; [reflexivity|]); repeat constructor.
Qed.

Lemma generateConfig_without_secrets_witness :
  let stored := Scenario.peer 11 1 "k2" "pending" "10.5.0.2" ∅ in
  let r := PeerOps.generateConfig None 9000 (load Peer.hidden stored)
             Scenario.storePending in
  let out := Scenario.valueOf (Scenario.blank, "") r in
  stored !! "privateKey" = Some (JStr "secret-of-k2")
  /\ get "configFile" out.1 = Some (JStr out.2)
  /\ exists lines,
       out.2 = Js.join lines Js.nl
       /\ lines !! 1%nat = Some "PrivateKey = undefined"
       /\ Forall (fun line => Js.startsWith line "PresharedKey" = false) lines.
Proof.
  intros stored r out. split; [decided|].
  apply (generateConfig_without_secrets stored None 9000
           Scenario.storePending r.2 out.1 out.2).
  apply ScenarioFacts.pair_Ok. vm_compute. reflexivity.
Defined.

End ClientConfigFacts.
